(** * Wikipedia dead link finder: a shallow embedding of
    [wikipedia_dead_links_streamlit.py] and the properties of its
    classifier, prober, extractor, checker, orchestrator and store.

    Conventions of the embedding.
    - A Python [str] is a [string], one character for each code point,
      so that text is taken among the code points up to U+00FF. URLs and
      host names are taken in the ASCII range, where [str.lower] only
      moves the letters A-Z; the text of a page may hold any character
      of the wider range, and white space is what [str.isspace] accepts
      there (the no-break space and the next-line control included).
    - A Python [dict] used as a keyed store is a [gmap string _].
    - A call that leaves the process (HTTP, WHOIS, DNS, the clock, the
      file system) is answered by a [world]; every such call is written
      to a trace of [event]s, so that "no lookup is made" and "exactly
      one retry" are statements about the trace.
    - A Python exception that is not caught inside the function is the
      [Raises] outcome of that function. *)

From Stdlib Require Import Ascii ZArith.
From stdpp Require Import gmap strings list fin_maps.

Local Open Scope Z_scope.
Set Warnings "-register-all".

(** What a Python call does: it returns, or an exception leaves it. *)
Inductive outcome (A : Type) : Type :=
| Returns (a : A)
| Raises (exn : string).
Arguments Returns {A} a.
Arguments Raises {A} exn.

(** ** Python string operations *)

Module PyStr.

(** [c.lower()] on one ASCII character. *)
Definition lower_char (c : ascii) : ascii :=
  let n := N_of_ascii c in
  if ((65 <=? n) && (n <=? 90))%N then ascii_of_N (n + 32) else c.

(** [s.lower()]. *)
Fixpoint lower (s : string) : string :=
  match s with
  | EmptyString => EmptyString
  | String c s' => String (lower_char c) (lower s')
  end.

(** [s.startswith(p)]. *)
Fixpoint startswith (s p : string) {struct p} : bool :=
  match p, s with
  | EmptyString, _ => true
  | String _ _, EmptyString => false
  | String b p', String a s' => bool_decide (a = b) && startswith s' p'
  end.

(** [s.endswith(e)]: [e] is a prefix of [s] read backwards. *)
Definition endswith (s e : string) : bool :=
  startswith (String.rev s) (String.rev e).

(** [s.split(sep)] for a one-character separator: never empty, the
    empty string splits to one empty field. *)
Fixpoint split (sep : ascii) (s : string) : list string :=
  match s with
  | EmptyString => [EmptyString]
  | String a s' =>
      if bool_decide (a = sep) then EmptyString :: split sep s'
      else match split sep s' with
           | [] => [String a EmptyString]
           | w :: ws => String a w :: ws
           end
  end.

(** [sep.join(l)]. *)
Fixpoint join (sep : string) (l : list string) : string :=
  match l with
  | [] => EmptyString
  | [x] => x
  | x :: rest => x +:+ sep +:+ join sep rest
  end.

(** [c in s] for a character. *)
Fixpoint contains (c : ascii) (s : string) : bool :=
  match s with
  | EmptyString => false
  | String a s' => bool_decide (a = c) || contains c s'
  end.

(** [x in l] for a list of strings. *)
Definition mem (x : string) (l : list string) : bool :=
  existsb (fun y => bool_decide (x = y)) l.

(** [l[-n:]]: the last [n] items, all of them when the list is shorter. *)
Definition last_n {A} (n : nat) (l : list A) : list A :=
  drop (length l - n)%nat l.

(** [l[-1]] of a list known to be non-empty. *)
Definition last_or {A} (d : A) (l : list A) : A := List.last l d.

(** [s[n:]]. *)
Fixpoint drop_chars (n : nat) (s : string) : string :=
  match n, s with
  | O, _ => s
  | S _, EmptyString => EmptyString
  | S n', String _ s' => drop_chars n' s'
  end.

(** [all(f(c) for c in s)]. *)
Fixpoint all_chars (f : ascii -> bool) (s : string) : bool :=
  match s with
  | EmptyString => true
  | String a s' => f a && all_chars f s'
  end.

(** The characters of [s] before the first one that satisfies [f]. *)
Fixpoint take_until (f : ascii -> bool) (s : string) : string :=
  match s with
  | EmptyString => EmptyString
  | String a s' => if f a then EmptyString else String a (take_until f s')
  end.

(** [s.replace(c, "")] for every character [c] that satisfies [f]. *)
Fixpoint remove_chars (f : ascii -> bool) (s : string) : string :=
  match s with
  | EmptyString => EmptyString
  | String a s' =>
      if f a then remove_chars f s' else String a (remove_chars f s')
  end.

(** [s.lstrip(chars)], the set of characters given by [f]. *)
Fixpoint lstrip_chars (f : ascii -> bool) (s : string) : string :=
  match s with
  | EmptyString => EmptyString
  | String a s' => if f a then lstrip_chars f s' else s
  end.

(** [i = s.find(sep)] as the pair [(s[:i], s[i+1:])]; [None] when the
    character does not occur. *)
Fixpoint cut_at (sep : ascii) (s : string) : option (string * string) :=
  match s with
  | EmptyString => None
  | String a s' =>
      if bool_decide (a = sep) then Some (EmptyString, s')
      else match cut_at sep s' with
           | Some (pre, post) => Some (String a pre, post)
           | None => None
           end
  end.

(** Characters that [str.isspace] accepts among the code points up to
    U+00FF: the controls U+0009 to U+000D and U+001C to U+001F, the
    space, the next-line control U+0085 and the no-break space U+00A0. *)
Definition is_space (c : ascii) : bool :=
  let n := N_of_ascii c in
  (((9 <=? n) && (n <=? 13)) || ((28 <=? n) && (n <=? 32))
   || (n =? 133) || (n =? 160))%N.

(** [s.strip()]. *)
Definition strip (s : string) : string :=
  String.rev (lstrip_chars is_space (String.rev (lstrip_chars is_space s))).

(** Truth value of a possibly-[None] string: [not x] holds for [None]
    and for the empty string. *)
Definition truthy (x : option string) : bool :=
  match x with
  | None | Some EmptyString => false
  | Some (String _ _) => true
  end.

End PyStr.

(** ** URL parsing ([urllib.parse.urlparse], the [netloc] it returns) *)

Module Url.
Import PyStr.

(** C0 control characters and the space, stripped from the front. *)
Definition is_c0_or_space (c : ascii) : bool := (N_of_ascii c <=? 32)%N.

(** Tab, line feed and carriage return, removed wherever they occur. *)
Definition is_unsafe (c : ascii) : bool :=
  let n := N_of_ascii c in ((n =? 9) || (n =? 10) || (n =? 13))%N.

Definition is_alpha (c : ascii) : bool :=
  let n := N_of_ascii c in
  (((65 <=? n) && (n <=? 90)) || ((97 <=? n) && (n <=? 122)))%N.

Definition is_digit (c : ascii) : bool :=
  let n := N_of_ascii c in ((48 <=? n) && (n <=? 57))%N.

(** [scheme_chars]: letters, digits, [+], [-] and [.]. *)
Definition is_scheme_char (c : ascii) : bool :=
  is_alpha c || is_digit c || contains c "+-.".

(** The characters that end the authority. *)
Definition is_delim (c : ascii) : bool := contains c "/?#".

(** The URL with its scheme and the colon taken off, when the text
    before the first colon is a scheme; the URL itself otherwise. *)
Definition drop_scheme (url : string) : string :=
  match cut_at ":" url with
  | Some (String c pre, post) =>
      if is_alpha c && all_chars is_scheme_char (String c pre)
      then post else url
  | _ => url
  end.

(** [urlparse(url).netloc]: the authority when the rest of the URL
    begins with two slashes, the empty string otherwise; [ValueError]
    when only one of the two square brackets occurs in it. (The check
    of the address inside balanced brackets that recent versions add
    is not part of this model.) *)
Definition urlparse_netloc (url : string) : outcome string :=
  let url := remove_chars is_unsafe (lstrip_chars is_c0_or_space url) in
  match drop_scheme url with
  | String "/" (String "/" rest) =>
      let netloc := take_until is_delim rest in
      if xorb (contains "[" netloc) (contains "]" netloc)
      then Raises "Invalid IPv6 URL"
      else Returns netloc
  | _ => Returns EmptyString
  end.

End Url.

(** ** Domain classifier *)

Module Classifier.
Import PyStr.

(** [self.restricted_tlds]. *)
Definition restricted_tlds : list string :=
  ["edu"; "gov"; "mil"; "int"; "arpa";
   "us.gov"; "us.edu"; "ac.uk"; "gov.uk"; "mil.uk"; "ac.id"; "nhs.uk";
   "police.uk"; "mod.uk"; "parliament.uk"; "gov.au"; "edu.au"].

(** [self.excluded_domain_endings]. *)
Definition excluded_domain_endings : list string :=
  [".de"; ".bg"; ".br"; ".com.au"; ".edu.tw"; ".dk"; ".com:80"; ".co.in";
   ".im"; ".org:80"; ".is"; ".ch"; ".ac.at"; ".gov.ua"; ".edu:8000";
   ".gov.pt"; ".pk"; ".hu"; ".uam.es"; ".at"; ".jp"; ".fi"].

(** The literal list tested against the last label. *)
Definition top_level_restricted : list string :=
  ["edu"; "gov"; "mil"; "int"; "arpa"].

(** [extract_domain]: [None] only through the bare [except]. *)
Definition extract_domain (url : string) : option string :=
  match Url.urlparse_netloc url with
  | Returns domain =>
      Some (if startswith domain "www." then drop_chars 4 domain else domain)
  | Raises _ => None
  end.

(** [is_excluded_domain]. *)
Definition is_excluded_domain (domain : option string) : bool :=
  match domain with
  | None | Some EmptyString => true
  | Some d =>
      existsb (fun ending => endswith (lower d) (lower ending))
              excluded_domain_endings
  end.

(** [is_restricted_tld]. *)
Definition is_restricted_tld (domain : option string) : bool :=
  match domain with
  | None | Some EmptyString => false
  | Some d =>
      let domain_parts := split "." (lower d) in
      if (length domain_parts <? 2)%nat then false
      else if mem (last_or EmptyString domain_parts) top_level_restricted
      then true
      else if (2 <? length domain_parts)%nat
              && mem (join "." (last_n 2 domain_parts)) restricted_tlds
      then true
      else false
  end.

End Classifier.

(** ** Parsed HTML ([BeautifulSoup]) *)

(** A node of the parsed tree: a run of text or a tag with its attribute
    dictionary and its children. *)
Inductive node : Type :=
| Text (s : string)
| Elem (tag : string) (attrs : list (string * string)) (children : list node).

Module Html.
Import PyStr.

(** [tag[name]], [None] when [tag.has_attr(name)] is false. *)
Fixpoint attr (name : string) (attrs : list (string * string))
  : option string :=
  match attrs with
  | [] => None
  | (k, v) :: rest => if bool_decide (k = name) then Some v else attr name rest
  end.

(** The whitespace-separated tokens of an attribute value. *)
Fixpoint tokens_go (cur : string) (s : string) : list string :=
  match s with
  | EmptyString =>
      match cur with EmptyString => [] | _ => [String.rev cur] end
  | String a s' =>
      if is_space a
      then match cur with
           | EmptyString => tokens_go EmptyString s'
           | _ => String.rev cur :: tokens_go EmptyString s'
           end
      else tokens_go (String a cur) s'
  end.
Definition tokens (s : string) : list string := tokens_go EmptyString s.

(** The match of [{'class': c}]: [c] is one of the classes of the tag,
    or the whole attribute value. *)
Definition has_class (c : string) (attrs : list (string * string)) : bool :=
  match attr "class" attrs with
  | None => false
  | Some v => mem c (tokens v) || bool_decide (v = c)
  end.

(** The nodes below [n] in document order. *)
Fixpoint descendants (n : node) : list node :=
  match n with
  | Text _ => []
  | Elem _ _ cs => List.flat_map (fun c => c :: descendants c) cs
  end.

(** [n.get_text()]. *)
Fixpoint get_text (n : node) : string :=
  match n with
  | Text s => s
  | Elem _ _ cs => List.fold_right (fun c acc => get_text c +:+ acc) EmptyString cs
  end.

(** Every node of a document in document order, each with the path of
    child indices that leads to it from the document root. *)
Fixpoint walk (p : list nat) (n : node) {struct n}
  : list (list nat * node) :=
  (p, n) ::
  match n with
  | Text _ => []
  | Elem _ _ cs =>
      (fix go (i : nat) (l : list node) {struct l} :=
         match l with
         | [] => []
         | c :: l' => walk (p ++ [i]) c ++ go (S i) l'
         end) O cs
  end.

Definition walk_doc (doc : list node) : list (list nat * node) :=
  (fix go (i : nat) (l : list node) {struct l} :=
     match l with
     | [] => []
     | c :: l' => walk [i] c ++ go (S i) l'
     end) O doc.

Definition is_tag (name : string) (n : node) : bool :=
  match n with
  | Elem t _ _ => bool_decide (t = name)
  | Text _ => false
  end.

Definition node_attrs (n : node) : list (string * string) :=
  match n with
  | Elem _ a _ => a
  | Text _ => []
  end.

(** The match of [('a', {'class': 'external'})]. *)
Definition is_external_anchor (n : node) : bool :=
  is_tag "a" n && has_class "external" (node_attrs n).

(** The match of [(name, {'id': i})]. *)
Definition is_tag_with_id (name i : string) (n : node) : bool :=
  is_tag name n && bool_decide (attr "id" (node_attrs n) = Some i).

(** [soup.find(...)]: the first match in document order, with its path. *)
Definition find_doc (f : node -> bool) (doc : list node)
  : option (list nat * node) :=
  List.find (fun pn => f (snd pn)) (walk_doc doc).

(** [tag.parent], as a path; the parent of a top-level tag is the
    document itself, the empty path. *)
Definition parent_path (p : list nat) : list nat := removelast p.

(** The nodes that come after the node at path [p] in document order
    (its own descendants first): what [find_next] searches. *)
Fixpoint after_path (p : list nat) (l : list (list nat * node))
  : list (list nat * node) :=
  match l with
  | [] => []
  | (q, _) :: l' => if bool_decide (q = p) then l' else after_path p l'
  end.

(** [find_next] called on the document itself (the empty path) finds
    nothing: the [next_element] of the [BeautifulSoup] object is [None]. *)
Definition nodes_after (p : list nat) (doc : list node)
  : list (list nat * node) :=
  match p with
  | [] => []
  | _ => after_path p (walk_doc doc)
  end.

(** [tag.find_all(...)], below one tag. *)
Definition find_all (f : node -> bool) (n : node) : list node :=
  List.filter f (descendants n).

(** [soup.find_all(...)], over the whole document. *)
Definition find_all_doc (f : node -> bool) (doc : list node) : list node :=
  List.filter f (List.map snd (walk_doc doc)).

End Html.

(** ** Outcomes, events and the outside world *)

(** A date as python-whois hands it over: a naive [datetime] (an instant,
    in microseconds), an offset-aware [datetime], or the raw text when
    the library could not parse it. *)
Inductive date_val : Type :=
| DateTime (t : Z)
| DateTimeAware (t : Z)
| DateText (s : string).

(** A date attribute of a WHOIS entry: [None], one value, or a list. *)
Inductive date_field : Type :=
| NoDate
| OneDate (d : date_val)
| ManyDates (l : list date_val).

(** The attributes of a WHOIS entry that the prober reads; [whois_text]
    is [str(w)]. *)
Record whois_entry : Type := {
  registrar : option string;
  expiration_date : date_field;
  creation_date : date_field;
  whois_text : string
}.

(** [whois.whois(domain)]. *)
Inductive whois_outcome : Type :=
| WhoisEntry (w : whois_entry)
| WhoisNoRecord (msg : string)      (* whois.parser.PywhoisError *)
| WhoisFailure (msg : string).      (* any other Exception *)

(** [socket.gethostbyname(domain)]. *)
Inductive dns_outcome : Type :=
| DnsResolved
| DnsGaiError                        (* socket.gaierror *)
| DnsFailure (msg : string).         (* any other exception *)

(** [session.head] and [session.get]. *)
Inductive http_outcome : Type :=
| HttpStatus (code : Z)
| HttpError (msg : string).

(** [session.get(article_url)] with the response body parsed. *)
Inductive page_outcome : Type :=
| PageResponse (code : Z) (soup : list node)
| PageError (msg : string).

(** The answers of everything outside the process during one call. *)
Record world : Type := {
  http_head : string -> http_outcome;
  http_get : string -> http_outcome;
  fetch_page : string -> page_outcome;
  whois_lookup : string -> whois_outcome;
  dns_lookup : string -> dns_outcome;
  now : Z
}.

(** Calls that leave the process, in the order they are made. *)
Inductive event : Type :=
| EvHead (url : string)
| EvGet (url : string)
| EvWhois (domain : string)
| EvDns (domain : string)
| EvSaveDomains
| EvSaveResults
| EvFetch (url : string)             (* the GET of an article page *)
| EvError (msg : string)             (* st.error *)
| EvWrite (title : string) (i n : nat)   (* st.write of the progress line *)
| EvProgress (i n : nat)             (* progress_bar.progress(i / n) *)
| EvSleep.                           (* time.sleep(1) *)

(** ** Availability prober *)

(** A value of a [details] dictionary. *)
Inductive detail : Type :=
| DText (s : string)
| DRegistrar (r : option string)
| DDateStr (d : date_val)            (* str(expiry) *)
| DDateFieldStr (f : date_field).    (* str(w.creation_date) and the like *)

Record verdict : Type := {
  available : bool;
  status : string;
  details : list (string * detail)
}.

Module Prober.
Import PyStr Classifier.

(** Truth value of a date attribute. *)
Definition date_field_truthy (f : date_field) : bool :=
  match f with
  | NoDate => false
  | OneDate (DateText EmptyString) => false
  | OneDate _ => true
  | ManyDates [] => false
  | ManyDates (_ :: _) => true
  end.

(** [expiry = w.expiration_date; if isinstance(expiry, list): expiry =
    expiry[0]], for a truthy attribute. *)
Definition chosen_expiry (f : date_field) : option date_val :=
  match f with
  | NoDate => None
  | OneDate d => Some d
  | ManyDates l => head l
  end.

(** [expiry < datetime.now()]: only two naive datetimes compare. *)
Definition before_now (d : date_val) (clock : Z) : outcome bool :=
  match d with
  | DateTime t => Returns (t <? clock)
  | DateTimeAware _ =>
      Raises "can't compare offset-naive and offset-aware datetimes"
  | DateText _ =>
      Raises "'<' not supported between instances of 'str' and 'datetime.datetime'"
  end.

Definition invalid_domain : verdict :=
  {| available := false; status := "Invalid domain"; details := [] |}.

Definition excluded_verdict : verdict :=
  {| available := false; status := "Excluded domain";
     details := [("info", DText "This domain has been excluded from availability checks.")] |}.

Definition restricted_verdict : verdict :=
  {| available := false;
     status := "Restricted TLD (not available for general registration)";
     details := [("info", DText "This is a restricted domain that requires special eligibility requirements.")] |}.

Definition potentially_available (w : whois_entry) : verdict :=
  {| available := true; status := "Potentially available";
     details := [("whois", DText (whois_text w))] |}.

Definition expired (expiry : date_val) (w : whois_entry) : verdict :=
  {| available := true; status := "Expired";
     details := [("expiration_date", DDateStr expiry);
                 ("registrar", DRegistrar (registrar w))] |}.

Definition registered (w : whois_entry) : verdict :=
  {| available := false; status := "Registered";
     details := [("registrar", DRegistrar (registrar w));
                 ("creation_date", DDateFieldStr (creation_date w));
                 ("expiration_date", DDateFieldStr (expiration_date w))] |}.

Definition dns_exists : verdict :=
  {| available := false; status := "DNS record exists"; details := [] |}.

Definition restricted_or_excluded : verdict :=
  {| available := false; status := "Restricted TLD or excluded domain";
     details := [("info", DText "This domain is either restricted or has been excluded.")] |}.

Definition no_dns_record : verdict :=
  {| available := true; status := "No DNS record found"; details := [] |}.

Definition error_verdict (msg : string) : verdict :=
  {| available := false; status := "Error: " +:+ msg; details := [] |}.

(** The body of the [try] once [whois.whois] has returned an entry. *)
Definition judge_entry (clock : Z) (w : whois_entry) : verdict :=
  match registrar w with
  | None => potentially_available w
  | Some _ =>
      if date_field_truthy (expiration_date w) then
        match chosen_expiry (expiration_date w) with
        | None => registered w
        | Some expiry =>
            match before_now expiry clock with
            | Returns true => expired expiry w
            | Returns false => registered w
            | Raises msg => error_verdict msg
            end
        end
      else registered w
  end.

(** The handler of [whois.parser.PywhoisError]. *)
Definition dns_fallback (W : world) (d : string)
  : outcome verdict * list event :=
  match dns_lookup W d with
  | DnsResolved => (Returns dns_exists, [EvDns d])
  | DnsGaiError =>
      if is_restricted_tld (Some d) || is_excluded_domain (Some d)
      then (Returns restricted_or_excluded, [EvDns d])
      else (Returns no_dns_record, [EvDns d])
  | DnsFailure msg => (Raises msg, [EvDns d])
  end.

(** [check_domain_availability]: the verdict, or the exception that
    leaves the function, with the lookups that were made. *)
Definition check_domain_availability (W : world) (domain : option string)
  : outcome verdict * list event :=
  match domain with
  | None | Some EmptyString => (Returns invalid_domain, [])
  | Some d =>
      if is_excluded_domain domain then (Returns excluded_verdict, [])
      else if is_restricted_tld domain then (Returns restricted_verdict, [])
      else
        match whois_lookup W d with
        | WhoisEntry w => (Returns (judge_entry (now W) w), [EvWhois d])
        | WhoisNoRecord _ =>
            let '(r, evs) := dns_fallback W d in (r, EvWhois d :: evs)
        | WhoisFailure msg => (Returns (error_verdict msg), [EvWhois d])
        end
  end.

End Prober.

(** ** Links, records and the two stores *)

(** An item of [external_links]: [url] and [text], and the article
    context once [process_article] has added it. *)
Record link : Type := {
  link_url : string;
  link_text : string;
  link_article_title : option string;
  link_article_url : option string
}.

(** [status_code]: an HTTP code or the text of an error. *)
Inductive status_code : Type :=
| StatusInt (code : Z)
| StatusStr (msg : string).

(** The four [domain*] keys of a result, set together. *)
Record domain_info : Type := {
  di_domain : string;
  di_available : bool;
  di_status : string;
  di_details : list (string * detail)
}.

(** The dictionary [check_link_status] returns (a LinkRecord). *)
Record link_record : Type := {
  lr_url : string;
  lr_text : string;
  lr_status_code : status_code;
  lr_timestamp : Z;
  lr_domain : option domain_info;
  lr_article_title : option string;
  lr_article_url : option string
}.

(** An item of a DomainRecord's [sources]. *)
Record source_info : Type := {
  src_url : string;
  src_text : string;
  src_article_title : string;
  src_article_url : string
}.

(** A value of [available_domains] (a DomainRecord). *)
Record domain_record : Type := {
  dr_domain : string;
  dr_status : string;
  dr_details : list (string * detail);
  dr_found_on : Z;
  dr_sources : list source_info
}.

(** The two in-memory maps of the finder. *)
Record finder_state : Type := {
  available_domains : gmap string domain_record;
  results : gmap string link_record
}.

(** An item of [pages]. *)
Record page : Type := {
  page_title : string;
  page_url : string
}.

(** ** Link extractor *)

Module Extractor.
Import PyStr Html.

(** The loop over a list of anchors: those with an [href] that does
    not start with the archive prefix give one item each. *)
Definition collect (anchors : list node) : list link :=
  List.flat_map
    (fun a =>
       match attr "href" (node_attrs a) with
       | None => []
       | Some url =>
           if startswith url "https://web.archive.org" then []
           else [ {| link_url := url;
                     link_text := strip (get_text a);
                     link_article_title := None;
                     link_article_url := None |} ]
       end)
    anchors.

(** The walk of the list that follows the "External links" heading. *)
Definition section_links (soup : list node) : list link :=
  match find_doc (is_tag_with_id "span" "External_links") soup with
  | None => []
  | Some (p, _) =>
      match List.find (fun pn => is_tag "ul" (snd pn))
                      (nodes_after (parent_path p) soup) with
      | None => []
      | Some (_, next_ul) =>
          List.flat_map (fun li => collect (find_all is_external_anchor li))
                        (find_all (is_tag "li") next_ul)
      end
  end.

(** [extract_external_links]. *)
Definition extract_external_links (soup : list node) : list link :=
  section_links soup ++ collect (find_all_doc is_external_anchor soup).

End Extractor.

(** ** Liveness checker *)

Module Checker.
Import PyStr Classifier Prober.

(** The status a request leaves in [status_code]. *)
Definition request_status (o : http_outcome) : status_code :=
  match o with
  | HttpStatus c => StatusInt c
  | HttpError m => StatusStr ("Error: " +:+ m)
  end.

(** [isinstance(status_code, str) or status_code >= 400]. *)
Definition is_dead (s : status_code) : bool :=
  match s with
  | StatusStr _ => true
  | StatusInt c => 400 <=? c
  end.

(** The HEAD request and the GET that follows a failed one. *)
Definition probe_status (W : world) (url : string)
  : status_code * list event :=
  let head := request_status (http_head W url) in
  if is_dead head
  then (request_status (http_get W url), [EvHead url; EvGet url])
  else (head, [EvHead url]).

Definition new_record (W : world) (d : string) (v : verdict)
  : domain_record :=
  {| dr_domain := d; dr_status := status v; dr_details := details v;
     dr_found_on := now W; dr_sources := [] |}.

Definition source_of (l : link) : source_info :=
  {| src_url := link_url l; src_text := link_text l;
     src_article_title := default "Unknown" (link_article_title l);
     src_article_url := default "Unknown" (link_article_url l) |}.

(** The test of the [source_exists] loop. *)
Definition same_source (l : link) (s : source_info) : bool :=
  bool_decide (src_url s = link_url l)
  && bool_decide (src_article_url s = default "Unknown" (link_article_url l)).

Definition with_source (r : domain_record) (s : source_info)
  : domain_record :=
  {| dr_domain := dr_domain r; dr_status := dr_status r;
     dr_details := dr_details r; dr_found_on := dr_found_on r;
     dr_sources := dr_sources r ++ [s] |}.

(** The source is appended to the record [r] held under [d], and the
    store saved, unless the record already lists it. *)
Definition add_source (l : link) (d : string) (r : domain_record)
    (ad : gmap string domain_record)
  : gmap string domain_record * list event :=
  if existsb (same_source l) (dr_sources r) then (ad, [])
  else (<[d := with_source r (source_of l)]> ad, [EvSaveDomains]).

(** The record is created when the key is new, then the source added. *)
Definition upsert_domain (W : world) (l : link) (d : string) (v : verdict)
    (ad : gmap string domain_record)
  : gmap string domain_record * list event :=
  match ad !! d with
  | Some r => add_source l d r ad
  | None =>
      add_source l d (new_record W d v) (<[d := new_record W d v]> ad)
  end.

Definition with_domain (r : link_record) (d : string) (v : verdict)
  : link_record :=
  {| lr_url := lr_url r; lr_text := lr_text r;
     lr_status_code := lr_status_code r; lr_timestamp := lr_timestamp r;
     lr_domain := Some {| di_domain := d; di_available := available v;
                          di_status := status v; di_details := details v |};
     lr_article_title := lr_article_title r;
     lr_article_url := lr_article_url r |}.

(** [check_link_status]: the result (or the exception that leaves the
    function), the available-domains store afterwards, and the calls
    made. *)
Definition check_link_status (W : world) (l : link)
    (ad : gmap string domain_record)
  : outcome link_record * gmap string domain_record * list event :=
  let url := link_url l in
  let '(st, evs) := probe_status W url in
  let result :=
    {| lr_url := url; lr_text := link_text l; lr_status_code := st;
       lr_timestamp := now W; lr_domain := None;
       lr_article_title := None; lr_article_url := None |} in
  if is_dead st then
    match extract_domain url with
    | None | Some EmptyString => (Returns result, ad, evs)
    | Some d =>
        match check_domain_availability W (Some d) with
        | (Raises e, evs2) => (Raises e, ad, evs ++ evs2)
        | (Returns v, evs2) =>
            if available v && negb (is_excluded_domain (Some d)) then
              let '(ad', evs3) := upsert_domain W l d v ad in
              (Returns (with_domain result d v), ad', evs ++ evs2 ++ evs3)
            else (Returns (with_domain result d v), ad, evs ++ evs2)
        end
    end
  else (Returns result, ad, evs).

End Checker.

(** ** Crawl orchestrator *)

Module Orchestrator.
Import PyStr Html Extractor Checker.

(** The submitted checks, each run to its end in the order of
    submission: their outcomes, the available-domains store and the
    calls made. The executor may run up to [max_workers] of them at the
    same time without a lock on the store; this function is the
    schedule where each check ends before the next one starts. *)
Fixpoint run_checks (W : world) (links : list link)
    (ad : gmap string domain_record)
  : list (outcome link_record) * gmap string domain_record * list event :=
  match links with
  | [] => ([], ad, [])
  | l :: rest =>
      let '(o, ad1, ev1) := check_link_status W l ad in
      let '(os, ad2, ev2) := run_checks W rest ad1 in
      (o :: os, ad2, ev1 ++ ev2)
  end.

(** The result with the article context set on it. *)
Definition in_article (title article_url : string) (r : link_record)
  : link_record :=
  {| lr_url := lr_url r; lr_text := lr_text r;
     lr_status_code := lr_status_code r; lr_timestamp := lr_timestamp r;
     lr_domain := lr_domain r;
     lr_article_title := Some title;
     lr_article_url := Some article_url |}.

(** [f"{result['url']}_{result['article_url']}"]. *)
Definition link_id (url article_url : string) : string :=
  url +:+ "_" +:+ article_url.

(** The loop over the completed futures: a dead result is appended,
    stored under its key and the log saved; the first exception that
    [future.result()] re-raises ends the loop. *)
Fixpoint drain (title article_url : string) (os : list (outcome link_record))
    (res : gmap string link_record) (dead : list link_record)
  : outcome (list link_record) * gmap string link_record * list event :=
  match os with
  | [] => (Returns dead, res, [])
  | Raises e :: _ => (Raises e, res, [])
  | Returns r :: rest =>
      if is_dead (lr_status_code r) then
        let r' := in_article title article_url r in
        let '(o, res', evs) :=
          drain title article_url rest
                (<[link_id (lr_url r') article_url := r']> res)
                (dead ++ [r']) in
        (o, res', EvSaveResults :: evs)
      else drain title article_url rest res dead
  end.

(** The title used when none is passed in. *)
Definition page_heading (soup : list node) : string :=
  match find_doc (is_tag_with_id "h1" "firstHeading") soup with
  | Some (_, h) => get_text h
  | None => "Unknown Title"
  end.

Definition annotate (title article_url : string) (l : link) : link :=
  {| link_url := link_url l; link_text := link_text l;
     link_article_title := Some title;
     link_article_url := Some article_url |}.

(** [process_article]: the dead links, the state afterwards and the
    calls made. Every exception ends in the report of the outer
    handler and an empty list. *)
Definition process_article (W : world) (article_url : string)
    (article_title : option string) (s : finder_state)
  : list link_record * finder_state * list event :=
  match fetch_page W article_url with
  | PageError msg =>
      ([], s, [EvFetch article_url;
               EvError ("Error processing article: " +:+ msg)])
  | PageResponse code soup =>
      if negb (code =? 200) then
        ([], s, [EvFetch article_url;
                 EvError ("Failed to retrieve article: " +:+ article_url)])
      else
        let title :=
          match article_title with
          | None | Some EmptyString => page_heading soup
          | Some t => t
          end in
        let links :=
          List.map (annotate title article_url) (extract_external_links soup) in
        let '(os, ad', ev1) := run_checks W links (available_domains s) in
        let '(o, res', ev2) := drain title article_url os (results s) [] in
        let s' := {| available_domains := ad'; results := res' |} in
        match o with
        | Returns dead => (dead, s', EvFetch article_url :: ev1 ++ ev2)
        | Raises e =>
            ([], s', EvFetch article_url :: ev1 ++ ev2
                       ++ [EvError ("Error processing article: " +:+ e)])
        end
  end.

(** [l[:n]] for an integer [n]. *)
Definition slice_to {A} (n : Z) (l : list A) : list A :=
  if 0 <=? n then take (Z.to_nat n) l
  else take (length l - Z.to_nat (- n))%nat l.

(** [if max_pages: pages = pages[:max_pages]]. *)
Definition truncate (max_pages : option Z) (pages : list page) : list page :=
  match max_pages with
  | None | Some 0 => pages
  | Some n => slice_to n pages
  end.

(** The [for i, page in enumerate(pages)] loop from index [i] on; [n]
    is [len(pages)], [W i] answers during the article of index [i]. *)
Fixpoint batch_loop (W : nat -> world) (progress_bar : bool) (n i : nat)
    (pages : list page) (s : finder_state)
    (all_dead_links : list link_record) (processed_count : nat)
  : (list link_record * nat) * finder_state * list event :=
  match pages with
  | [] => ((all_dead_links, processed_count), s, [])
  | pg :: rest =>
      let '(dead_links, s1, ev1) :=
        process_article (W i) (page_url pg) (Some (page_title pg)) s in
      let '(r, s2, ev2) :=
        batch_loop W progress_bar n (S i) rest s1
                   (all_dead_links ++ dead_links) (S processed_count) in
      (r, s2,
       EvWrite (page_title pg) (S i) n :: ev1
         ++ (if progress_bar then [EvProgress (S i) n] else [])
         ++ EvSleep :: ev2)
  end.

(** [batch_process_articles]. *)
Definition batch_process_articles (W : nat -> world) (pages : list page)
    (max_pages : option Z) (progress_bar : bool) (s : finder_state)
  : (list link_record * nat) * finder_state * list event :=
  let pages := truncate max_pages pages in
  batch_loop W progress_bar (length pages) 0 pages s [] 0.

(** The article pages requested, in order. *)
Definition fetched (evs : list event) : list string :=
  List.flat_map (fun e => match e with EvFetch u => [u] | _ => [] end) evs.

End Orchestrator.

(** ** Result store: the loaders *)

(** A JSON value as [json.load] returns it. *)
Inductive json : Type :=
| JNull
| JBool (b : bool)
| JNumber (literal : string)
| JString (s : string)
| JArray (items : list json)
| JObject (members : list (string * json)).

(** [with open(path, 'r') as f: json.load(f)]. *)
Inductive json_load_outcome : Type :=
| JsonValue (v : json)
| JsonDecodeError (msg : string)     (* json.JSONDecodeError *)
| JsonOtherError (exn : string).     (* any other exception *)

(** What the file system answers. *)
Record file_system : Type := {
  path_exists : string -> bool;
  json_load : string -> json_load_outcome
}.

Module Store.

(** The body the two loaders share; [what] is the wording of the
    report. *)
Definition load (fs : file_system) (path what : string)
  : outcome json * list event :=
  if path_exists fs path then
    match json_load fs path with
    | JsonValue v => (Returns v, [])
    | JsonDecodeError _ =>
        (Returns (JObject []),
         [EvError ("Error loading " +:+ what +:+ " " +:+ path
                   +:+ ", creating new one")])
    | JsonOtherError e => (Raises e, [])
    end
  else (Returns (JObject []), []).

Definition _load_existing_results (fs : file_system) (log_file : string)
  : outcome json * list event :=
  load fs log_file "existing log file".

Definition _load_available_domains (fs : file_system)
    (available_domains_file : string) : outcome json * list event :=
  load fs available_domains_file "available domains file".

End Store.

(** ** Category pages *)

Module Category.
Import PyStr Html Orchestrator.

(** [self.base_url]. *)
Definition base_url : string := "https://en.wikipedia.org".

(** [sub in s] for two strings. *)
Fixpoint has_substring (sub s : string) : bool :=
  startswith s sub
  || match s with
     | EmptyString => false
     | String _ s' => has_substring sub s'
     end.

(** The body of the loop over the list items: the first anchor below
    the item decides; it gives a page when it has an [href] and a
    [title], the [href] names neither a category nor a file, and it
    starts with [/wiki/]. [urljoin] is [urllib.parse.urljoin], left
    uninterpreted. *)
Definition page_of_item (urljoin : string -> string -> string) (item : node)
  : list page :=
  match List.find (is_tag "a") (descendants item) with
  | None => []
  | Some link =>
      match attr "href" (node_attrs link), attr "title" (node_attrs link) with
      | Some href, Some title =>
          if has_substring "Category:" href || has_substring "File:" href
          then []
          else if startswith href "/wiki/"
          then [ {| page_title := title; page_url := urljoin base_url href |} ]
          else []
      | _, _ => []
      end
  end.

(** [get_pages_in_category]: the pages and the calls made. The status
    of the response is not looked at. *)
Definition get_pages_in_category (urljoin : string -> string -> string)
    (W : world) (category_url : string) : list page * list event :=
  match fetch_page W category_url with
  | PageError msg =>
      ([], [EvFetch category_url;
            EvError ("Error getting pages in category: " +:+ msg)])
  | PageResponse _ soup =>
      match find_doc (is_tag_with_id "div" "mw-content-text") soup with
      | None => ([], [EvFetch category_url])
      | Some (_, content_div) =>
          (List.flat_map (page_of_item urljoin)
                         (find_all (is_tag "li") content_div),
           [EvFetch category_url])
      end
  end.

(** The [max_pages] of a call of [crawl_category] that does not pass
    one. *)
Definition default_max_pages : option Z := Some 10.

(** [crawl_category]; [W0] answers the request of the category page,
    [W i] during the article of index [i]. *)
Definition crawl_category (urljoin : string -> string -> string)
    (W0 : world) (W : nat -> world) (category_url : string)
    (max_pages : option Z) (progress_bar : bool) (s : finder_state)
  : (list link_record * nat) * finder_state * list event :=
  let '(pages, ev0) := get_pages_in_category urljoin W0 category_url in
  let '(r, s', ev1) :=
    batch_process_articles W pages max_pages progress_bar s in
  (r, s', ev0 ++ ev1).

End Category.

(** ** Search *)

(** An item of the [search] list of the API answer, in the shape the
    API documents: a key that is missing is [None]. *)
Record search_result : Type := {
  sr_title : option string;
  sr_pageid : option Z;
  sr_snippet : option string
}.

(** [self.session.get(search_url, params=params)] followed by
    [response.json()] and the two [get]s that lead to the list of
    results (empty when a key is missing); [ApiError] is an exception
    raised on the way. *)
Inductive api_outcome : Type :=
| ApiResults (rs : list search_result)
| ApiError (msg : string).

(** The parameters of the request that vary. *)
Record api_params : Type := {
  srsearch : string;
  srnamespace : string;
  srlimit : Z
}.

(** An item of the list [search_wikipedia_text] returns. *)
Record found_page : Type := {
  fp_title : string;
  fp_url : string;
  fp_snippet : string;
  fp_page_id : Z
}.

(** An item of the list [search_categories] returns. *)
Record found_category : Type := {
  fc_title : string;
  fc_url : string
}.

Module Search.
Import PyStr.

(** [s.replace(a, b)] for two characters. *)
Fixpoint replace_char (a b : ascii) (s : string) : string :=
  match s with
  | EmptyString => EmptyString
  | String c s' =>
      String (if bool_decide (c = a) then b else c) (replace_char a b s')
  end.

(** [f"{self.base_url}/wiki/{title.replace(' ', '_')}"]. *)
Definition wiki_url (title : string) : string :=
  Category.base_url +:+ "/wiki/" +:+ replace_char " " "_" title.

(** [re.sub(r'<[^>]+>', '', s)], read from the left: at a [<] that is
    followed by at least one character other than [>] and then a [>],
    everything up to that [>] is dropped; any other character is kept.
    Each step consumes a character, so the length of the text is fuel
    enough. *)
Fixpoint sub_tags (fuel : nat) (s : string) : string :=
  match fuel with
  | O => s
  | S fuel' =>
      match s with
      | EmptyString => EmptyString
      | String c s' =>
          if bool_decide (c = "<"%char) then
            match cut_at ">" s' with
            | Some (String _ _, rest) => sub_tags fuel' rest
            | _ => String c (sub_tags fuel' s')
            end
          else String c (sub_tags fuel' s')
      end
  end.

Definition strip_tags (s : string) : string := sub_tags (String.length s) s.

(** The value of [limit] when the caller passes none. *)
Definition default_limit : Z := 50.

(** [search_wikipedia_text]: the pages and the errors reported. *)
Definition search_wikipedia_text (api : api_params -> api_outcome)
    (query : string) (limit : Z) : list found_page * list event :=
  match api {| srsearch := query; srnamespace := "0"; srlimit := limit |} with
  | ApiError msg => ([], [EvError ("Error searching Wikipedia: " +:+ msg)])
  | ApiResults rs =>
      (List.map
         (fun result =>
            let page_title := default EmptyString (sr_title result) in
            let snippet := default EmptyString (sr_snippet result) in
            {| fp_title := page_title;
               fp_url := wiki_url page_title;
               fp_snippet :=
                 match snippet with
                 | EmptyString => snippet
                 | _ => strip_tags snippet
                 end;
               fp_page_id := default 0 (sr_pageid result) |})
         rs,
       [])
  end.

(** [search_categories]. *)
Definition search_categories (api : api_params -> api_outcome)
    (query : string) : list found_category * list event :=
  match api {| srsearch := "Category:" +:+ query; srnamespace := "14";
               srlimit := 20 |} with
  | ApiError msg => ([], [EvError ("Error searching categories: " +:+ msg)])
  | ApiResults rs =>
      (List.map
         (fun result =>
            let category_title := default EmptyString (sr_title result) in
            {| fc_title := category_title;
               fc_url := wiki_url category_title |})
         rs,
       [])
  end.

End Search.

(** ** Vocabulary of the statements, and sample data *)

Module Spec.
Import PyStr Classifier Prober Checker Orchestrator.


(** The HEAD and GET requests of a trace, in order. *)
Definition http_requests (evs : list event) : list event :=
  List.filter (fun e => match e with EvHead _ | EvGet _ => true | _ => false end)
              evs.

(** The WHOIS and DNS lookups of a trace, in order. *)
Definition lookups (evs : list event) : list event :=
  List.filter (fun e => match e with EvWhois _ | EvDns _ => true | _ => false end)
              evs.

(** The availability probe was called: its verdict is on the result,
    or its exception left the checker. *)
Definition probe_invoked (o : outcome link_record) : Prop :=
  match o with
  | Returns r => lr_domain r <> None
  | Raises _ => True
  end.

(** A character of an authority that is neither a delimiter, nor
    removed by the parser, nor a square bracket. *)
Definition is_authority_char (c : ascii) : bool :=
  negb (Url.is_delim c) && negb (Url.is_unsafe c)
  && negb (bool_decide (c = "["%char)) && negb (bool_decide (c = "]"%char)).

(** A scheme: a letter followed by letters, digits, [+], [-] or [.]. *)
Definition is_scheme (s : string) : bool :=
  match s with
  | EmptyString => false
  | String c _ => Url.is_alpha c && all_chars Url.is_scheme_char s
  end.

(** The URL as the parser sees it once it has cleaned it and taken the
    scheme off. *)
Definition after_scheme (url : string) : string :=
  Url.drop_scheme
    (remove_chars Url.is_unsafe (lstrip_chars Url.is_c0_or_space url)).

(** [extract_domain]'s treatment of [www.]. *)
Definition without_www (netloc : string) : string :=
  if startswith netloc "www." then drop_chars 4 netloc else netloc.

(** The text after the authority: nothing, or a path, query or
    fragment. *)
Definition starts_with_delim (s : string) : bool :=
  match s with
  | EmptyString => true
  | String c _ => Url.is_delim c
  end.


(** Every key of the available-domains store is a non-excluded domain. *)
Definition keys_not_excluded (ad : gmap string domain_record) : Prop :=
  forall k r, ad !! k = Some r -> is_excluded_domain (Some k) = false.

(** A LinkRecord marked available names a domain that is neither
    excluded nor restricted. *)
Definition eligible_when_available (r : link_record) : Prop :=
  forall di, lr_domain r = Some di -> di_available di = true ->
    is_excluded_domain (Some (di_domain di)) = false
    /\ is_restricted_tld (Some (di_domain di)) = false.

Definition store_invariant (s : finder_state) : Prop :=
  keys_not_excluded (available_domains s)
  /\ forall k r, results s !! k = Some r -> eligible_when_available r.

(** One write to a store: a check updates the available-domains map;
    the orchestrator files a dead result that some check returned. *)
Inductive write_step : finder_state -> finder_state -> Prop :=
| step_check (W : world) (l : link) (s : finder_state) :
    write_step s
      {| available_domains :=
           snd (fst (check_link_status W l (available_domains s)));
         results := results s |}
| step_record (W : world) (l : link) (ad ad' : gmap string domain_record)
    (r : link_record) (evs : list event) (title article_url : string)
    (s : finder_state) :
    check_link_status W l ad = (Returns r, ad', evs) ->
    is_dead (lr_status_code r) = true ->
    write_step s
      {| available_domains := available_domains s;
         results :=
           <[link_id (lr_url r) article_url :=
               in_article title article_url r]> (results s) |}.

(** What a check returns is eligible when it is marked available. *)
Definition eligible_outcome (o : outcome link_record) : Prop :=
  forall r, o = Returns r -> eligible_when_available r.

(** How many times the available-domains file was written. *)
Definition domain_saves (evs : list event) : nat :=
  length (List.filter
            (fun e => match e with EvSaveDomains => true | _ => false end)
            evs).

(** The record a first discovery files under a domain. *)
Definition first_record (W : world) (l : link) (di : domain_info)
  : domain_record :=
  {| dr_domain := di_domain di; dr_status := di_status di;
     dr_details := di_details di; dr_found_on := now W;
     dr_sources := [source_of l] |}.

(** A record after a check: what identifies it is kept, and its sources
    are the same or longer by the source of the link. *)
Definition extends (l : link) (r r' : domain_record) : Prop :=
  dr_domain r' = dr_domain r /\ dr_status r' = dr_status r
  /\ dr_details r' = dr_details r /\ dr_found_on r' = dr_found_on r
  /\ (dr_sources r' = dr_sources r
      \/ dr_sources r' = dr_sources r ++ [source_of l]).

(** A returned dead link as the orchestrator leaves it: dead, with the
    article context on it, and a returned record with its URL filed
    under its key in the results map. *)
Definition filed (title article_url : string) (res : gmap string link_record)
    (dead : list link_record) (r : link_record) : Prop :=
  is_dead (lr_status_code r) = true
  /\ lr_article_title r = Some title
  /\ lr_article_url r = Some article_url
  /\ exists r', In r' dead
       /\ res !! link_id (lr_url r) article_url = Some r'
       /\ lr_url r' = lr_url r.

(** A record later on: what identifies it is kept and its sources have
    only grown at the end. *)
Definition grows (r r' : domain_record) : Prop :=
  dr_domain r' = dr_domain r /\ dr_status r' = dr_status r
  /\ dr_details r' = dr_details r /\ dr_found_on r' = dr_found_on r
  /\ exists more, dr_sources r' = dr_sources r ++ more.

(** Nothing has left the two maps, and the records of domains have only
    grown. *)
Definition state_grows (s s' : finder_state) : Prop :=
  (forall k r, available_domains s !! k = Some r ->
     exists r', available_domains s' !! k = Some r' /\ grows r r')
  /\ (forall k, is_Some (results s !! k) -> is_Some (results s' !! k)).

(** The progress lines, progress-bar updates and pauses of a trace. *)
Definition pacing (evs : list event) : list event :=
  List.filter
    (fun e => match e with
              | EvWrite _ _ _ | EvProgress _ _ | EvSleep => true
              | _ => false
              end)
    evs.

(** The pacing of the page of index [i] out of [n]. *)
Definition page_pacing (progress_bar : bool) (n : nat) (ip : nat * page)
  : list event :=
  EvWrite (page_title (snd ip)) (S (fst ip)) n
  :: (if progress_bar then [EvProgress (S (fst ip)) n] else [])
  ++ [EvSleep].

(** The text holds a match of [<[^>]+>]: a [<], then at least one
    character other than [>], then a [>]. *)
Fixpoint has_tag (s : string) : bool :=
  match s with
  | EmptyString => false
  | String c s' =>
      (bool_decide (c = "<"%char)
       && match cut_at ">" s' with
          | Some (String _ _, _) => true
          | _ => false
          end)
      || has_tag s'
  end.

(** The HEAD requests of a trace, in order. *)
Definition head_requests (evs : list event) : list event :=
  List.filter (fun e => match e with EvHead _ => true | _ => false end) evs.

(** The record of [d] lists the link as a source. *)
Definition lists (l : link) (ad : gmap string domain_record) (d : string)
  : Prop :=
  exists rec, ad !! d = Some rec
              /\ existsb (same_source l) (dr_sources rec) = true.

(** A returned record is in the results map: it is dead, it names its
    article, and its key is a key of the map. *)
Definition recorded (res : gmap string link_record) (r : link_record)
  : Prop :=
  is_dead (lr_status_code r) = true
  /\ exists u, lr_article_url r = Some u
               /\ is_Some (res !! link_id (lr_url r) u).

(** The record of [d] has a source with the URL of the link and the
    article URL the link carries (["Unknown"] when it carries none). *)
Definition sourced (l : link) (ad : gmap string domain_record) (d : string)
  : Prop :=
  exists rec src,
    ad !! d = Some rec /\ In src (dr_sources rec)
    /\ src_url src = link_url l
    /\ src_article_url src = default "Unknown" (link_article_url l).

(** Sample data. *)

Definition sample_entry (dates : date_field) : whois_entry :=
  {| registrar := Some "Example Registrar, Inc.";
     expiration_date := dates;
     creation_date := OneDate (DateTime 100);
     whois_text := "Domain Name: EXAMPLE.COM" |}.

Definition sample_page : list node :=
  [ Elem "h1" [("id", "firstHeading")] [Text "Sample"];
    Elem "p" []
      [ Elem "a" [("class", "external text");
                  ("href", "http://gone.example.com/page")]
          [Text " Gone "] ] ].

(** A world where every request fails with 404, WHOIS has no record
    and DNS does not resolve. *)
Definition dead_world : world :=
  {| http_head := fun _ => HttpStatus 404;
     http_get := fun _ => HttpStatus 404;
     fetch_page := fun _ => PageResponse 200 sample_page;
     whois_lookup := fun _ => WhoisNoRecord "No match for domain";
     dns_lookup := fun _ => DnsGaiError;
     now := 1000 |}.

(** A world where WHOIS answers with the given expiration dates. *)
Definition whois_world (dates : date_field) : world :=
  {| http_head := fun _ => HttpStatus 404;
     http_get := fun _ => HttpStatus 404;
     fetch_page := fun _ => PageResponse 200 sample_page;
     whois_lookup := fun _ => WhoisEntry (sample_entry dates);
     dns_lookup := fun _ => DnsResolved;
     now := 1000 |}.

(** A world where requests cannot be sent at all. *)
Definition offline_world : world :=
  {| http_head := fun _ => HttpError "No connection adapters were found";
     http_get := fun _ => HttpError "No connection adapters were found";
     fetch_page := fun _ => PageError "connection refused";
     whois_lookup := fun _ => WhoisFailure "timed out";
     dns_lookup := fun _ => DnsGaiError;
     now := 1000 |}.

Definition sample_link : link :=
  {| link_url := "http://gone.example.com/page";
     link_text := "Gone";
     link_article_title := Some "Sample";
     link_article_url := Some "https://en.wikipedia.org/wiki/Sample" |}.

Definition mailto_link : link :=
  {| link_url := "mailto:someone@example.com";
     link_text := "mail";
     link_article_title := None;
     link_article_url := None |}.

Definition archived_page : list node :=
  [ Elem "p" []
      [ Elem "a" [("class", "external text");
                  ("href", "http://web.archive.org/web/2010/http://example.com/")]
          [Text "Archived"] ] ].



(** A store that already holds one domain, found through another
    article. *)
Definition sample_record : domain_record :=
  {| dr_domain := "gone.example.com";
     dr_status := "No DNS record found";
     dr_details := [];
     dr_found_on := 900;
     dr_sources :=
       [ {| src_url := "http://gone.example.com/page";
            src_text := "Gone";
            src_article_title := "Other";
            src_article_url := "https://en.wikipedia.org/wiki/Other" |} ] |}.

Definition sample_store : gmap string domain_record :=
  {[ "gone.example.com" := sample_record ]}.

(** A world where WHOIS has no record and the resolver fails with
    something other than [gaierror]. *)
Definition flaky_dns_world : world :=
  {| http_head := fun _ => HttpStatus 404;
     http_get := fun _ => HttpStatus 404;
     fetch_page := fun _ => PageResponse 200 sample_page;
     whois_lookup := fun _ => WhoisNoRecord "No match for domain";
     dns_lookup := fun _ => DnsFailure "timed out";
     now := 1000 |}.

(** The record of [sample_link] once found dead in [dead_world]. *)
Definition sample_dead_record : link_record :=
  {| lr_url := "http://gone.example.com/page";
     lr_text := "Gone";
     lr_status_code := StatusInt 404;
     lr_timestamp := 1000;
     lr_domain := Some {| di_domain := "gone.example.com";
                          di_available := true;
                          di_status := "No DNS record found";
                          di_details := [] |};
     lr_article_title := Some "Sample";
     lr_article_url := Some "https://en.wikipedia.org/wiki/Sample" |}.

(** A category page: a subcategory and an article. *)
Definition category_page : list node :=
  [ Elem "div" [("id", "mw-content-text")]
      [ Elem "ul" []
          [ Elem "li" []
              [ Elem "a" [("href", "/wiki/Category:Sub");
                          ("title", "Category:Sub")] [Text "Sub"] ];
            Elem "li" []
              [ Elem "a" [("href", "/wiki/Sample"); ("title", "Sample")]
                  [Text "Sample"] ] ] ] ].

Definition category_world : world :=
  {| http_head := fun _ => HttpStatus 404;
     http_get := fun _ => HttpStatus 404;
     fetch_page := fun _ => PageResponse 200 category_page;
     whois_lookup := fun _ => WhoisNoRecord "No match for domain";
     dns_lookup := fun _ => DnsGaiError;
     now := 1000 |}.

(** A joiner that is right for a path-absolute reference without dot
    segments. *)
Definition sample_urljoin (base ref : string) : string := base +:+ ref.

(** An API that answers every request with one result. *)
Definition sample_api (_ : api_params) : api_outcome :=
  ApiResults
    [ {| sr_title := Some "Dead link";
         sr_pageid := Some 42;
         sr_snippet := Some "A <span class=x>dead</span> link" |} ].

Definition empty_state : finder_state :=
  {| available_domains := ∅; results := ∅ |}.

Definition sample_pages : list page :=
  [ {| page_title := "Sample"; page_url := "https://en.wikipedia.org/wiki/Sample" |};
    {| page_title := "Other"; page_url := "https://en.wikipedia.org/wiki/Other" |} ].

Definition broken_fs : file_system :=
  {| path_exists := fun _ => true;
     json_load := fun _ => JsonDecodeError "Expecting value: line 1 column 1 (char 0)" |}.

Definition empty_fs : file_system :=
  {| path_exists := fun _ => false;
     json_load := fun _ => JsonOtherError "FileNotFoundError" |}.

(** A file system whose files begin with the bytes FF FE, which no
    text in UTF-8 does: [json.load] raises [UnicodeDecodeError] while it
    reads the file. *)
Definition undecodable_fs : file_system :=
  {| path_exists := fun _ => true;
     json_load := fun _ =>
       JsonOtherError
         "'utf-8' codec can't decode byte 0xff in position 0: invalid start byte" |}.

End Spec.

(** * Properties *)

(** ** Facts about the string operations *)

Section StringFacts.
Import PyStr.

Lemma app_cons (a : ascii) (s t : string) :
  String a s +:+ t = String a (s +:+ t).
Proof. reflexivity. Qed.

Lemma app_empty_r (s : string) : s +:+ EmptyString = s.
Proof. induction s as [|a s IH]; [reflexivity|]. rewrite app_cons, IH. reflexivity. Qed.

Lemma app_assoc_str (a b c : string) : (a +:+ b) +:+ c = a +:+ (b +:+ c).
Proof.
  induction a as [|x a IH]; [reflexivity|].
  rewrite !app_cons, IH. reflexivity.
Qed.

Lemma lower_app (a b : string) : lower (a +:+ b) = lower a +:+ lower b.
Proof.
  induction a as [|x a IH]; [reflexivity|].
  rewrite app_cons. simpl. rewrite IH. reflexivity.
Qed.

Lemma lower_char_dot (c : ascii) :
  bool_decide (lower_char c = "."%char) = bool_decide (c = "."%char).
Proof. destruct c as [[] [] [] [] [] [] [] []]; vm_compute; reflexivity. Qed.

Lemma contains_dot_lower (s : string) :
  contains "." (lower s) = contains "." s.
Proof.
  induction s as [|a s IH]; [reflexivity|].
  simpl. rewrite lower_char_dot, IH. reflexivity.
Qed.

Lemma split_nonempty (sep : ascii) (s : string) :
  exists w ws, split sep s = w :: ws.
Proof.
  induction s as [|a s (w & ws & IH)]; simpl; [eauto|].
  destruct (bool_decide (a = sep)); [eauto|]. rewrite IH. eauto.
Qed.

Lemma split_without (sep : ascii) (s : string) :
  contains sep s = false -> split sep s = [s].
Proof.
  induction s as [|a s IH]; simpl; [reflexivity|].
  destruct (bool_decide (a = sep)); simpl; [discriminate|].
  intros H. rewrite (IH H). reflexivity.
Qed.

Lemma split_app (sep : ascii) (a b : string) :
  split sep (a +:+ String sep b) = split sep a ++ split sep b.
Proof.
  induction a as [|x a IH].
  - simpl. rewrite bool_decide_eq_true_2 by reflexivity. reflexivity.
  - rewrite app_cons. simpl. rewrite IH.
    destruct (bool_decide (x = sep)); [reflexivity|].
    destruct (split_nonempty sep a) as (w & ws & ->). reflexivity.
Qed.

Lemma contains_app (c : ascii) (a b : string) :
  contains c (a +:+ b) = contains c a || contains c b.
Proof.
  induction a as [|x a IH]; [reflexivity|].
  rewrite app_cons. simpl. rewrite IH. apply orb_assoc.
Qed.

Lemma last_n_app {A} (xs ys : list A) :
  last_n (length ys) (xs ++ ys) = ys.
Proof.
  unfold last_n. rewrite length_app.
  replace (length xs + length ys - length ys)%nat with (length xs) by lia.
  apply drop_app_length.
Qed.

Lemma mem_true (x : string) (l : list string) : mem x l = true <-> In x l.
Proof.
  unfold mem. rewrite existsb_exists. split.
  - intros (y & Hy & E). apply bool_decide_eq_true in E. subst. exact Hy.
  - intros H. exists x. split; [exact H|]. apply bool_decide_eq_true. reflexivity.
Qed.

End StringFacts.

(** ** Domain classifier *)

Section ClassifierFacts.
Import PyStr Classifier.

Lemma restricted_unfold (d : string) :
  d <> EmptyString ->
  is_restricted_tld (Some d) =
    let domain_parts := split "." (lower d) in
    if (length domain_parts <? 2)%nat then false
    else if mem (last_or EmptyString domain_parts) top_level_restricted
    then true
    else if (2 <? length domain_parts)%nat
            && mem (join "." (last_n 2 domain_parts)) restricted_tlds
    then true
    else false.
Proof. destruct d; [congruence | reflexivity]. Qed.

Lemma app_sep_nonempty (p : string) (c : ascii) (t : string) :
  p +:+ String c t <> EmptyString.
Proof. destruct p; discriminate. Qed.

(** A domain of at least two labels whose last label, in lower case,
    is one of the five restricted top-level names is restricted. *)
Lemma restricted_top_level (p tld : string) :
  contains "." tld = false ->
  mem (lower tld) top_level_restricted = true ->
  is_restricted_tld (Some (p +:+ "." +:+ tld)) = true.
Proof.
  intros Hdot Hmem.
  rewrite restricted_unfold by apply app_sep_nonempty.
  cbv zeta. rewrite lower_app. change (lower ("." +:+ tld)) with (String "." (lower tld)).
  rewrite split_app, (split_without "." (lower tld))
    by (rewrite contains_dot_lower; exact Hdot).
  destruct (split_nonempty "." (lower p)) as (w & ws & ->).
  unfold last_or. rewrite last_last.
  replace (length ((w :: ws) ++ [lower tld]) <? 2)%nat with false.
  - rewrite Hmem. reflexivity.
  - symmetry. apply Nat.ltb_ge. rewrite length_app. simpl. lia.
Qed.

(** A domain of at least three labels whose last two labels, in lower
    case and joined by a dot, are in the restricted list is
    restricted. *)
Lemma restricted_second_level (p l1 l2 : string) :
  contains "." l1 = false ->
  contains "." l2 = false ->
  mem (lower (l1 +:+ "." +:+ l2)) restricted_tlds = true ->
  is_restricted_tld (Some (p +:+ "." +:+ l1 +:+ "." +:+ l2)) = true.
Proof.
  intros H1 H2 Hmem.
  rewrite restricted_unfold by apply app_sep_nonempty.
  cbv zeta. rewrite lower_app.
  change (lower ("." +:+ l1 +:+ "." +:+ l2))
    with (String "." (lower (l1 +:+ "." +:+ l2))).
  rewrite split_app.
  rewrite lower_app in *.
  change (lower ("." +:+ l2)) with (String "." (lower l2)) in *.
  rewrite split_app.
  rewrite (split_without "." (lower l1)), (split_without "." (lower l2))
    by (rewrite contains_dot_lower; assumption).
  destruct (split_nonempty "." (lower p)) as (w & ws & ->).
  change ([lower l1] ++ [lower l2]) with [lower l1; lower l2].
  replace (length ((w :: ws) ++ [lower l1; lower l2]) <? 2)%nat with false
    by (symmetry; apply Nat.ltb_ge; rewrite length_app; simpl; lia).
  replace (2 <? length ((w :: ws) ++ [lower l1; lower l2]))%nat with true
    by (symmetry; apply Nat.ltb_lt; rewrite length_app; simpl; lia).
  replace (last_n 2 ((w :: ws) ++ [lower l1; lower l2]))
  with [lower l1; lower l2]
  by (symmetry; apply (last_n_app (w :: ws) [lower l1; lower l2])).
  change (join "." [lower l1; lower l2])
  with (lower l1 +:+ String "." (lower l2)).
rewrite Hmem.
  destruct (mem _ top_level_restricted); reflexivity.
Qed.

(** A single-label domain is never restricted. *)
Lemma single_label_not_restricted (d : string) :
  contains "." d = false -> is_restricted_tld (Some d) = false.
Proof.
  intros H. destruct d as [|c d]; [reflexivity|].
  rewrite restricted_unfold by discriminate.
  cbv zeta. rewrite split_without by (rewrite contains_dot_lower; exact H).
  reflexivity.
Qed.

End ClassifierFacts.

(** C4, as stated, fails: the last two labels of [ac.uk] joined by a dot
    are the entry [ac.uk] of the restricted list, and the domain has two
    labels, yet [is_restricted_tld] answers false. *)
Lemma C4_two_label_entry_not_restricted :
  PyStr.mem (PyStr.join "." (PyStr.last_n 2 (PyStr.split "." "ac.uk")))
            Classifier.restricted_tlds = true
  /\ Classifier.is_restricted_tld (Some "ac.uk") = false.
Proof. split; vm_compute; reflexivity. Qed.

(** C4, amended: [is_restricted_tld] returns true for every domain of at
    least two labels whose last label (in lower case) is one of edu,
    gov, mil, int, arpa, and for every domain of at least three labels
    whose last two labels (in lower case) joined by a dot are an entry
    of the restricted list; it returns false for every single-label
    domain. *)
Theorem C4_is_restricted_tld (p l1 l2 d : string) :
  PyStr.contains "." l1 = false ->
  PyStr.contains "." l2 = false ->
  PyStr.contains "." d = false ->
  (PyStr.mem (PyStr.lower l2) Classifier.top_level_restricted = true ->
   Classifier.is_restricted_tld (Some (p +:+ "." +:+ l2)) = true)
  /\ (PyStr.mem (PyStr.lower (l1 +:+ "." +:+ l2)) Classifier.restricted_tlds = true ->
      Classifier.is_restricted_tld (Some (p +:+ "." +:+ l1 +:+ "." +:+ l2)) = true)
  /\ Classifier.is_restricted_tld (Some d) = false.
Proof.
  intros H1 H2 Hd. split; [|split].
  - intros Hm. apply restricted_top_level; assumption.
  - intros Hm. apply restricted_second_level; assumption.
  - apply single_label_not_restricted. exact Hd.
Qed.

Lemma C4_is_restricted_tld_witness :
  Classifier.is_restricted_tld (Some ("www.mit" +:+ "." +:+ "EDU")) = true
  /\ Classifier.is_restricted_tld (Some ("example" +:+ "." +:+ "ac" +:+ "." +:+ "uk")) = true
  /\ Classifier.is_restricted_tld (Some "uk") = false.
Proof.
  split; [|split].
  - refine (proj1 (C4_is_restricted_tld "www.mit" "x" "EDU" "uk" _ _ _) _);
      vm_compute; reflexivity.
  - refine (proj1 (proj2 (C4_is_restricted_tld "example" "ac" "uk" "uk" _ _ _)) _);
      vm_compute; reflexivity.
  - refine (proj2 (proj2 (C4_is_restricted_tld "example" "ac" "uk" "uk" _ _ _)));
      vm_compute; reflexivity.
Defined.

(** ** Availability prober *)

Section ProberFacts.
Import PyStr Classifier Prober.

Lemma truthy_nonempty (d : string) : truthy (Some d) = true -> d <> EmptyString.
Proof. destruct d; [discriminate | discriminate]. Qed.

(** The prober, past its first test, on a non-empty domain. *)
Lemma check_nonempty (W : world) (d : string) :
  truthy (Some d) = true ->
  check_domain_availability W (Some d) =
    if is_excluded_domain (Some d) then (Returns excluded_verdict, [])
    else if is_restricted_tld (Some d) then (Returns restricted_verdict, [])
    else match whois_lookup W d with
         | WhoisEntry w => (Returns (judge_entry (now W) w), [EvWhois d])
         | WhoisNoRecord _ =>
             let '(r, evs) := dns_fallback W d in (r, EvWhois d :: evs)
         | WhoisFailure msg => (Returns (error_verdict msg), [EvWhois d])
         end.
Proof. destruct d; [discriminate | reflexivity]. Qed.

(** A verdict of availability is only given to a domain that is neither
    excluded nor restricted. *)
Lemma available_is_eligible (W : world) (d : string) (v : verdict)
    (evs : list event) :
  truthy (Some d) = true ->
  check_domain_availability W (Some d) = (Returns v, evs) ->
  available v = true ->
  is_excluded_domain (Some d) = false /\ is_restricted_tld (Some d) = false.
Proof.
  intros Ht Hc Ha. rewrite check_nonempty in Hc by exact Ht.
  destruct (is_excluded_domain (Some d)).
  { injection Hc as <- _. discriminate. }
  destruct (is_restricted_tld (Some d)).
  { injection Hc as <- _. discriminate. }
  split; reflexivity.
Qed.

End ProberFacts.

(** C1: [check_domain_availability] applies its rules in order. A null or
    empty domain gives available false with status "Invalid domain"; a
    non-empty excluded domain gives available false with status
    "Excluded domain" and no WHOIS or DNS lookup; a non-empty,
    non-excluded, restricted domain gives available false with a status
    that begins "Restricted TLD"; so no excluded or restricted domain is
    ever returned as available. *)
Theorem C1_first_match_wins (W : world) (domain : option string) :
  (PyStr.truthy domain = false ->
   exists v, Prober.check_domain_availability W domain = (Returns v, [])
     /\ available v = false /\ status v = "Invalid domain")
  /\ (PyStr.truthy domain = true ->
      Classifier.is_excluded_domain domain = true ->
      exists v, Prober.check_domain_availability W domain = (Returns v, [])
        /\ available v = false /\ status v = "Excluded domain")
  /\ (PyStr.truthy domain = true ->
      Classifier.is_excluded_domain domain = false ->
      Classifier.is_restricted_tld domain = true ->
      exists v, Prober.check_domain_availability W domain = (Returns v, [])
        /\ available v = false
        /\ PyStr.startswith (status v) "Restricted TLD" = true)
  /\ (Classifier.is_excluded_domain domain = true
      \/ Classifier.is_restricted_tld domain = true ->
      forall v evs,
        Prober.check_domain_availability W domain = (Returns v, evs) ->
        available v = false).
Proof.
  split; [|split; [|split]].
  - intros Ht. exists Prober.invalid_domain.
    destruct domain as [[|c d]|]; try discriminate; repeat split.
  - intros Ht He. exists Prober.excluded_verdict.
    destruct domain as [d|]; [|discriminate].
    rewrite check_nonempty, He by exact Ht. repeat split.
  - intros Ht He Hr. exists Prober.restricted_verdict.
    destruct domain as [d|]; [|discriminate].
    rewrite check_nonempty, He, Hr by exact Ht. repeat split.
  - intros Hor v evs Hc.
    destruct domain as [d|]; [|injection Hc as <- _; reflexivity].
    destruct (PyStr.truthy (Some d)) eqn:Ht.
    + destruct (available v) eqn:Ha; [|reflexivity].
      destruct (available_is_eligible W d v evs Ht Hc Ha) as [He Hr].
      destruct Hor; congruence.
    + destruct d; [|discriminate]. injection Hc as <- _. reflexivity.
Qed.

Lemma C1_first_match_wins_witness :
  (exists v, Prober.check_domain_availability Spec.dead_world (Some "") = (Returns v, [])
     /\ available v = false /\ status v = "Invalid domain")
  /\ (exists v, Prober.check_domain_availability Spec.dead_world (Some "example.de")
                = (Returns v, [])
        /\ available v = false /\ status v = "Excluded domain")
  /\ (exists v, Prober.check_domain_availability Spec.dead_world (Some "nasa.gov")
                = (Returns v, [])
        /\ available v = false
        /\ PyStr.startswith (status v) "Restricted TLD" = true)
  /\ (forall v evs,
        Prober.check_domain_availability Spec.dead_world (Some "nasa.gov")
          = (Returns v, evs) ->
        available v = false).
Proof.
  split; [|split; [|split]].
  - apply (proj1 (C1_first_match_wins Spec.dead_world (Some ""))).
    reflexivity.
  - apply (proj1 (proj2 (C1_first_match_wins Spec.dead_world (Some "example.de"))));
      vm_compute; reflexivity.
  - apply (proj1 (proj2 (proj2 (C1_first_match_wins Spec.dead_world (Some "nasa.gov")))));
      vm_compute; reflexivity.
  - apply (proj2 (proj2 (proj2 (C1_first_match_wins Spec.dead_world (Some "nasa.gov"))))).
    right. vm_compute. reflexivity.
Defined.




(** ** URL parsing and [extract_domain] *)

Section UrlFacts.
Import PyStr Classifier.

Lemma remove_chars_app (f : ascii -> bool) (a b : string) :
  remove_chars f (a +:+ b) = remove_chars f a +:+ remove_chars f b.
Proof.
  induction a as [|x a IH]; [reflexivity|].
  rewrite ?app_cons. simpl. destruct (f x); rewrite IH; reflexivity.
Qed.

Lemma remove_chars_none (f g : ascii -> bool) (s : string) :
  (forall c, g c = true -> f c = false) ->
  all_chars g s = true -> remove_chars f s = s.
Proof.
  intros Hfg. induction s as [|x s IH]; [reflexivity|].
  simpl. intros H. apply andb_true_iff in H as [Hx Hs].
  rewrite (Hfg x Hx), (IH Hs). reflexivity.
Qed.

Lemma contains_none (sep : ascii) (g : ascii -> bool) (s : string) :
  (forall c, g c = true -> c <> sep) ->
  all_chars g s = true -> contains sep s = false.
Proof.
  intros Hg. induction s as [|x s IH]; [reflexivity|].
  simpl. intros H. apply andb_true_iff in H as [Hx Hs].
  rewrite (IH Hs), bool_decide_eq_false_2 by (apply Hg; exact Hx).
  reflexivity.
Qed.

Lemma cut_at_app (sep : ascii) (a b : string) :
  contains sep a = false -> cut_at sep (a +:+ String sep b) = Some (a, b).
Proof.
  induction a as [|x a IH]; simpl.
  - intros _. rewrite bool_decide_eq_true_2 by reflexivity. reflexivity.
  - intros H. apply orb_false_iff in H as [Hx Ha].
    rewrite ?app_cons. simpl. rewrite Hx, (IH Ha). reflexivity.
Qed.

Lemma take_until_app (f g : ascii -> bool) (a b : string) :
  (forall c, g c = true -> f c = false) ->
  all_chars g a = true ->
  match b with EmptyString => true | String c _ => f c end = true ->
  take_until f (a +:+ b) = a.
Proof.
  intros Hfg. induction a as [|x a IH]; simpl.
  - intros _ Hb. destruct b as [|c b]; [reflexivity|]. simpl. rewrite Hb.
    reflexivity.
  - intros H Hb. apply andb_true_iff in H as [Hx Ha].
    rewrite ?app_cons. simpl. rewrite (Hfg x Hx), (IH Ha Hb). reflexivity.
Qed.

Lemma scheme_char_facts (c : ascii) :
  Url.is_scheme_char c = true ->
  c <> ":"%char /\ Url.is_unsafe c = false.
Proof.
  destruct c as [[] [] [] [] [] [] [] []]; vm_compute; intros H;
    first [discriminate H | split; [discriminate | reflexivity]].
Qed.

Lemma alpha_not_stripped (c : ascii) :
  Url.is_alpha c = true -> Url.is_c0_or_space c = false.
Proof.
  destruct c as [[] [] [] [] [] [] [] []]; vm_compute; intros H;
    first [discriminate H | reflexivity].
Qed.

Lemma authority_char_facts (c : ascii) :
  Spec.is_authority_char c = true ->
  Url.is_delim c = false /\ Url.is_unsafe c = false
  /\ c <> "["%char /\ c <> "]"%char.
Proof.
  destruct c as [[] [] [] [] [] [] [] []]; vm_compute; intros H;
    first [discriminate H
          | repeat split; first [reflexivity | discriminate]].
Qed.

Lemma delim_not_unsafe (c : ascii) :
  Url.is_delim c = true -> Url.is_unsafe c = false.
Proof.
  destruct c as [[] [] [] [] [] [] [] []]; vm_compute; intros H;
    first [discriminate H | reflexivity].
Qed.

Lemma remove_unsafe_keeps_delim (rest : string) :
  Spec.starts_with_delim rest = true ->
  Spec.starts_with_delim (remove_chars Url.is_unsafe rest) = true.
Proof.
  destruct rest as [|c r]; [reflexivity|]. simpl. intros H.
  rewrite (delim_not_unsafe c H). exact H.
Qed.

(** Without two slashes after the scheme there is no authority and the
    netloc is the empty string. *)
Lemma netloc_without_authority (url : string) :
  startswith (Spec.after_scheme url) "//" = false ->
  Url.urlparse_netloc url = Returns EmptyString.
Proof.
  unfold Url.urlparse_netloc, Spec.after_scheme.
  generalize (Url.drop_scheme
                (remove_chars Url.is_unsafe
                   (lstrip_chars Url.is_c0_or_space url))).
  intros [|a [|b r]]; try reflexivity.
  - intros _. destruct a as [[] [] [] [] [] [] [] []]; reflexivity.
  - intros H.
    destruct a as [[] [] [] [] [] [] [] []]; try reflexivity.
    destruct b as [[] [] [] [] [] [] [] []]; try reflexivity.
    vm_compute in H. discriminate H.
Qed.

(** The netloc of [scheme://authority] followed by nothing or by a path,
    query or fragment is the authority. *)
Lemma netloc_of_authority (scheme auth rest : string) :
  Spec.is_scheme scheme = true ->
  all_chars Spec.is_authority_char auth = true ->
  Spec.starts_with_delim rest = true ->
  Url.urlparse_netloc (scheme +:+ "://" +:+ auth +:+ rest) = Returns auth.
Proof.
  intros Hs Ha Hr. destruct scheme as [|c s']; [discriminate|].
  apply andb_true_iff in Hs as [Hc Hall].
  unfold Url.urlparse_netloc.
  assert (Hlstrip : lstrip_chars Url.is_c0_or_space
                      (String c s' +:+ "://" +:+ auth +:+ rest)
                    = String c s' +:+ "://" +:+ auth +:+ rest).
  { rewrite ?app_cons. simpl. rewrite (alpha_not_stripped c Hc). reflexivity. }
  rewrite Hlstrip, !remove_chars_app.
  rewrite (remove_chars_none Url.is_unsafe Url.is_scheme_char (String c s'))
    by (first [intros x Hx; apply (scheme_char_facts x Hx) | exact Hall]).
  rewrite (remove_chars_none Url.is_unsafe Spec.is_authority_char auth)
    by (first [intros x Hx; apply (authority_char_facts x Hx) | exact Ha]).
  change (remove_chars Url.is_unsafe "://") with "://".
  set (rest' := remove_chars Url.is_unsafe rest).
  assert (Hr' : Spec.starts_with_delim rest' = true)
    by (apply remove_unsafe_keeps_delim; exact Hr).
  unfold Url.drop_scheme.
  change ("://" +:+ auth +:+ rest') with (String ":" ("//" +:+ auth +:+ rest')).
  rewrite cut_at_app
    by (apply (contains_none ":" Url.is_scheme_char);
        [intros x Hx; apply (scheme_char_facts x Hx) | exact Hall]).
  rewrite Hc, Hall. simpl andb. cbv iota.
  change ("//" +:+ auth +:+ rest')
    with (String "/" (String "/" (auth +:+ rest'))).
  cbv iota beta.
  rewrite (take_until_app Url.is_delim Spec.is_authority_char auth rest')
    by (first [intros x Hx; apply (authority_char_facts x Hx)
              | exact Ha | exact Hr']).
  rewrite (contains_none "[" Spec.is_authority_char auth)
    by (first [intros x Hx; apply (authority_char_facts x Hx) | exact Ha]).
  rewrite (contains_none "]" Spec.is_authority_char auth)
    by (first [intros x Hx; apply (authority_char_facts x Hx) | exact Ha]).
  reflexivity.
Qed.

End UrlFacts.

(** C7, as stated, fails: a URL with no authority component (a relative
    path, a [mailto:] link) does not make [extract_domain] return null;
    the parser does not raise and the result is the empty string. *)
Lemma C7_no_authority_is_not_null :
  Url.urlparse_netloc "/wiki/Main_Page" = Returns ""
  /\ Classifier.extract_domain "/wiki/Main_Page" = Some ""
  /\ Classifier.extract_domain "mailto:someone@example.com" = Some ""
  /\ Classifier.extract_domain "/wiki/Main_Page" <> None.
Proof. repeat split; discriminate. Qed.

(** C7, amended: [extract_domain] returns null exactly when URL parsing
    raises; for a URL with no authority component (no two slashes after
    the optional scheme) it returns the empty string; for a well-formed
    URL [scheme://authority] followed by nothing or a path, query or
    fragment it returns the authority with a leading [www.] stripped. *)
Theorem C7_extract_domain (url scheme auth rest : string) :
  (Classifier.extract_domain url = None
   <-> exists e, Url.urlparse_netloc url = Raises e)
  /\ (PyStr.startswith (Spec.after_scheme url) "//" = false ->
      Classifier.extract_domain url = Some "")
  /\ (Spec.is_scheme scheme = true ->
      PyStr.all_chars Spec.is_authority_char auth = true ->
      Spec.starts_with_delim rest = true ->
      Classifier.extract_domain (scheme +:+ "://" +:+ auth +:+ rest)
      = Some (Spec.without_www auth)).
Proof.
  split; [|split].
  - unfold Classifier.extract_domain.
    destruct (Url.urlparse_netloc url) as [n|e]; split.
    + discriminate.
    + intros [e He]. discriminate.
    + intros _. exists e. reflexivity.
    + reflexivity.
  - intros H. unfold Classifier.extract_domain.
    rewrite (netloc_without_authority url H). reflexivity.
  - intros Hs Ha Hr. unfold Classifier.extract_domain.
    rewrite (netloc_of_authority scheme auth rest Hs Ha Hr). reflexivity.
Qed.

Lemma C7_extract_domain_witness :
  Classifier.extract_domain "/wiki/Main_Page" = Some ""
  /\ Classifier.extract_domain
       ("http" +:+ "://" +:+ "www.example.com:8080" +:+ "/a/b?q=1")
     = Some (Spec.without_www "www.example.com:8080").
Proof.
  split.
  - refine (proj1 (proj2 (C7_extract_domain "/wiki/Main_Page" "" "" "")) _).
    vm_compute; reflexivity.
  - refine (proj2 (proj2 (C7_extract_domain "" "http" "www.example.com:8080"
                             "/a/b?q=1")) _ _ _); vm_compute; reflexivity.
Defined.

(** ** Link extractor *)

Section ExtractorFacts.
Import PyStr Html Extractor.

(** What the filter of the extractor does guarantee: no item of the
    output has a URL that starts with [https://web.archive.org]. *)
Lemma collect_skips_https_archive (anchors : list node) (l : link) :
  In l (collect anchors) ->
  startswith (link_url l) "https://web.archive.org" = false.
Proof.
  unfold collect. rewrite in_flat_map. intros (a & _ & Hl).
  destruct (attr "href" (node_attrs a)) as [url|]; [|destruct Hl].
  destruct (startswith url "https://web.archive.org") eqn:E; [destruct Hl|].
  destruct Hl as [<-|[]]. exact E.
Qed.

Lemma extract_skips_https_archive (soup : list node) (l : link) :
  In l (extract_external_links soup) ->
  startswith (link_url l) "https://web.archive.org" = false.
Proof.
  unfold extract_external_links, section_links. rewrite in_app_iff.
  intros [H|H]; [|apply (collect_skips_https_archive _ _ H)].
  destruct (find_doc _ soup) as [[p n]|]; [|destruct H].
  destruct (List.find _ _) as [[q ul]|]; [|destruct H].
  apply in_flat_map in H as (li & _ & H).
  apply (collect_skips_https_archive _ _ H).
Qed.

End ExtractorFacts.

(** C8 fails on the code: an anchor whose [href] targets the web archive
    over plain [http] is not skipped; it is in the output of
    [extract_external_links] with its text. *)
Theorem C8_http_archive_link_is_extracted :
  Extractor.extract_external_links Spec.archived_page
  = [ {| link_url := "http://web.archive.org/web/2010/http://example.com/";
         link_text := "Archived";
         link_article_title := None;
         link_article_url := None |} ].
Proof. vm_compute. reflexivity. Qed.

(** ** Liveness checker *)

Section CheckerFacts.
Import PyStr Classifier Prober Checker.

Lemma http_requests_app (a b : list event) :
  Spec.http_requests (a ++ b) = Spec.http_requests a ++ Spec.http_requests b.
Proof. unfold Spec.http_requests. apply List.filter_app. Qed.

Lemma prober_makes_no_request (W : world) (domain : option string) :
  Spec.http_requests (snd (check_domain_availability W domain)) = [].
Proof.
  destruct domain as [[|c d]|]; try reflexivity.
  unfold check_domain_availability.
  destruct (is_excluded_domain _); [reflexivity|].
  destruct (is_restricted_tld _); [reflexivity|].
  destruct (whois_lookup W _); try reflexivity.
  unfold dns_fallback. destruct (dns_lookup W _); try reflexivity.
  destruct (_ || _); reflexivity.
Qed.

Lemma add_source_makes_no_request (l : link) (d : string) (r : domain_record)
    (ad : gmap string domain_record) :
  Spec.http_requests (snd (add_source l d r ad)) = [].
Proof. unfold add_source. destruct (existsb _ _); reflexivity. Qed.

Lemma upsert_makes_no_request (W : world) (l : link) (d : string)
    (v : verdict) (ad : gmap string domain_record) :
  Spec.http_requests (snd (upsert_domain W l d v ad)) = [].
Proof.
  unfold upsert_domain. destruct (ad !! d); apply add_source_makes_no_request.
Qed.

(** The requests of a check are those of its HEAD-then-GET prelude. *)
Lemma check_requests (W : world) (l : link) (ad : gmap string domain_record) :
  Spec.http_requests (snd (check_link_status W l ad))
  = snd (probe_status W (link_url l)).
Proof.
  unfold check_link_status.
  assert (Hp : Spec.http_requests (snd (probe_status W (link_url l)))
               = snd (probe_status W (link_url l))).
  { unfold probe_status. destruct (is_dead _); reflexivity. }
  destruct (probe_status W (link_url l)) as [st evs]. simpl in Hp.
  destruct (is_dead st); [|exact Hp].
  destruct (extract_domain (link_url l)) as [[|c d]|]; try exact Hp.
  pose proof (prober_makes_no_request W (Some (String c d))) as Hq.
  destruct (check_domain_availability W (Some (String c d))) as [[v|e] evs2];
    simpl in Hq.
  - destruct (available v && negb (is_excluded_domain (Some (String c d)))).
    + pose proof (upsert_makes_no_request W l (String c d) v ad) as Hu.
      destruct (upsert_domain W l (String c d) v ad) as [ad' evs3].
      simpl in *. rewrite !http_requests_app, Hp, Hq, Hu, !app_nil_r.
      reflexivity.
    + simpl. rewrite http_requests_app, Hp, Hq, app_nil_r. reflexivity.
  - simpl. rewrite http_requests_app, Hp, Hq, app_nil_r. reflexivity.
Qed.

(** The status on a returned result is the final status of the prelude. *)
Lemma check_status (W : world) (l : link) (ad : gmap string domain_record)
    (r : link_record) :
  fst (fst (check_link_status W l ad)) = Returns r ->
  lr_status_code r = fst (probe_status W (link_url l)).
Proof.
  unfold check_link_status.
  destruct (probe_status W (link_url l)) as [st evs]. cbn [fst snd].
  destruct (is_dead st); [|cbn [fst snd]; intros [= <-]; reflexivity].
  destruct (extract_domain (link_url l)) as [[|c d]|];
    try (cbn [fst snd]; intros [= <-]; reflexivity).
  destruct (check_domain_availability W (Some (String c d))) as [[v|e] evs2].
  - destruct (available v && negb (is_excluded_domain (Some (String c d)))).
    + destruct (upsert_domain W l (String c d) v ad) as [ad' evs3].
      cbn [fst snd]. intros [= <-]. reflexivity.
    + cbn [fst snd]. intros [= <-]. reflexivity.
  - cbn [fst snd]. discriminate.
Qed.

(** The probe is called exactly for a dead link with a non-empty domain. *)
Lemma check_probes (W : world) (l : link) (ad : gmap string domain_record) :
  Spec.probe_invoked (fst (fst (check_link_status W l ad)))
  <-> is_dead (fst (probe_status W (link_url l))) = true
      /\ truthy (extract_domain (link_url l)) = true.
Proof.
  unfold check_link_status.
  destruct (probe_status W (link_url l)) as [st evs]. cbn [fst snd].
  assert (Hno : forall P : Prop, (None : option domain_info) <> None -> P)
    by (intros P H; exfalso; apply H; reflexivity).
  destruct (is_dead st).
  2:{ cbn. split; [apply Hno|]. intros [H _]. discriminate H. }
  destruct (extract_domain (link_url l)) as [[|c d]|]; cbn [fst snd truthy].
  - cbn. split; [apply Hno|]. intros [_ H]. discriminate H.
  - destruct (check_domain_availability W (Some (String c d))) as [[v|e] evs2].
    + destruct (available v && negb (is_excluded_domain (Some (String c d)))).
      * destruct (upsert_domain W l (String c d) v ad) as [ad' evs3]. cbn.
        split; [intros _; split; reflexivity | intros _; discriminate].
      * cbn. split; [intros _; split; reflexivity | intros _; discriminate].
    + cbn. split; [intros _; split; reflexivity | intros _; exact I].
  - cbn. split; [apply Hno|]. intros [_ H]. discriminate H.
Qed.

End CheckerFacts.

(** C3, as stated, fails: a link is dead (both requests raise) and yet
    the availability probe is not called, because no domain can be
    extracted from its URL. *)
Lemma C3_dead_link_without_probe :
  let o := Checker.check_link_status Spec.offline_world Spec.mailto_link ∅ in
  Checker.is_dead
    (fst (Checker.probe_status Spec.offline_world (link_url Spec.mailto_link)))
  = true
  /\ Classifier.extract_domain (link_url Spec.mailto_link) = Some ""
  /\ ~ Spec.probe_invoked (fst (fst o)).
Proof.
  cbv zeta. split; [vm_compute; reflexivity|].
  split; [vm_compute; reflexivity|].
  intros H. vm_compute in H. apply H. reflexivity.
Qed.

(** C3, amended: if the HEAD request throws or returns a status >= 400,
    exactly one GET follows and its outcome is the final status;
    otherwise the HEAD status is final and no GET is made; the link is
    dead if and only if the final status is a string or an integer >=
    400, and the availability probe is called if and only if the link is
    dead and [extract_domain] gives a non-empty domain. *)
Theorem C3_check_link_status (W : world) (l : link)
    (ad : gmap string domain_record) :
  let url := link_url l in
  let head := Checker.request_status (http_head W url) in
  let final := fst (Checker.probe_status W url) in
  let run := Checker.check_link_status W l ad in
  (Checker.is_dead head = true ->
   final = Checker.request_status (http_get W url)
   /\ Spec.http_requests (snd run) = [EvHead url; EvGet url])
  /\ (Checker.is_dead head = false ->
      final = head /\ Spec.http_requests (snd run) = [EvHead url])
  /\ (forall r, fst (fst run) = Returns r -> lr_status_code r = final)
  /\ (Checker.is_dead final = true
      <-> match final with StatusStr _ => True | StatusInt c => 400 <= c end)
  /\ (Spec.probe_invoked (fst (fst run))
      <-> Checker.is_dead final = true
          /\ PyStr.truthy (Classifier.extract_domain url) = true).
Proof.
  cbv zeta. split; [|split; [|split; [|split]]].
  - intros H. rewrite check_requests. unfold Checker.probe_status.
    rewrite H. split; reflexivity.
  - intros H. rewrite check_requests. unfold Checker.probe_status.
    rewrite H. split; reflexivity.
  - apply check_status.
  - destruct (fst (Checker.probe_status W (link_url l))) as [c|m]; simpl.
    + apply Z.leb_le.
    + split; auto.
  - apply check_probes.
Qed.

Lemma C3_check_link_status_witness :
  let W := Spec.dead_world in
  let l := Spec.sample_link in
  fst (Checker.probe_status W (link_url l))
  = Checker.request_status (http_get W (link_url l))
  /\ Spec.http_requests (snd (Checker.check_link_status W l ∅))
     = [EvHead (link_url l); EvGet (link_url l)].
Proof.
  cbv zeta.
  apply (proj1 (C3_check_link_status Spec.dead_world Spec.sample_link ∅)).
  reflexivity.
Defined.

(** ** The available-domains store *)

Section StoreFacts.
Import PyStr Classifier Prober Checker.

Lemma same_source_self (l : link) : same_source l (source_of l) = true.
Proof.
  unfold same_source, source_of. simpl.
  rewrite !bool_decide_eq_true_2 by reflexivity. reflexivity.
Qed.





(** The keys an upsert adds are the domain it is given. *)
Lemma upsert_keys (W : world) (l : link) (d : string) (v : verdict)
    (ad : gmap string domain_record) :
  is_excluded_domain (Some d) = false ->
  Spec.keys_not_excluded ad ->
  Spec.keys_not_excluded (fst (upsert_domain W l d v ad)).
Proof.
  intros Hd Hk. unfold upsert_domain, add_source.
  assert (Hins : forall (m : gmap string domain_record) x,
             Spec.keys_not_excluded m -> Spec.keys_not_excluded (<[d := x]> m)).
  { intros m x Hm k r. rewrite lookup_insert.
    destruct (decide (d = k)) as [<-|Hne]; [intros _; exact Hd|]. apply Hm. }
  destruct (ad !! d) as [r0|]; destruct (existsb _ _); simpl; auto.
Qed.

(** How a check leaves the store: untouched, or as the upsert of a
    non-excluded domain whose verdict was availability. *)
Lemma check_store_cases (W : world) (l : link)
    (ad : gmap string domain_record) :
  snd (fst (check_link_status W l ad)) = ad
  \/ exists d v,
       extract_domain (link_url l) = Some d
       /\ is_excluded_domain (Some d) = false
       /\ snd (fst (check_link_status W l ad)) = fst (upsert_domain W l d v ad).
Proof.
  unfold check_link_status.
  destruct (probe_status W (link_url l)) as [st evs].
  destruct (is_dead st); [|left; reflexivity].
  destruct (extract_domain (link_url l)) as [[|c d]|]; try (left; reflexivity).
  destruct (check_domain_availability W (Some (String c d))) as [[v|e] evs2];
    [|left; reflexivity].
  destruct (available v && negb (is_excluded_domain (Some (String c d))))
    eqn:Eb; [|left; reflexivity].
  apply andb_true_iff in Eb as [Ha He]. apply negb_true_iff in He.
  right. exists (String c d), v.
  destruct (upsert_domain W l (String c d) v ad) as [ad' evs3].
  split; [reflexivity|]. split; [exact He|reflexivity].
Qed.

(** A result that carries a verdict of availability: the domain is the
    one of the URL, it is neither excluded nor restricted, and the store
    is the upsert of that domain. *)
Lemma check_available (W : world) (l : link) (ad : gmap string domain_record)
    (r : link_record) (di : domain_info) :
  fst (fst (check_link_status W l ad)) = Returns r ->
  lr_domain r = Some di ->
  di_available di = true ->
  extract_domain (link_url l) = Some (di_domain di)
  /\ is_excluded_domain (Some (di_domain di)) = false
  /\ is_restricted_tld (Some (di_domain di)) = false
  /\ exists v,
       snd (fst (check_link_status W l ad))
       = fst (upsert_domain W l (di_domain di) v ad).
Proof.
  unfold check_link_status.
  destruct (probe_status W (link_url l)) as [st evs].
  destruct (is_dead st); [|cbn; intros [= <-]; discriminate].
  destruct (extract_domain (link_url l)) as [[|c d]|];
    try (cbn; intros [= <-]; discriminate).
  destruct (check_domain_availability W (Some (String c d)))
    as [[v|e] evs2] eqn:Ec; [|cbn; discriminate].
  assert (Hel : available v = true ->
                is_excluded_domain (Some (String c d)) = false
                /\ is_restricted_tld (Some (String c d)) = false)
    by (apply (available_is_eligible W (String c d) v evs2); [reflexivity | exact Ec]).
  destruct (available v && negb (is_excluded_domain (Some (String c d)))) eqn:Eb.
  - destruct (upsert_domain W l (String c d) v ad) as [ad' evs3] eqn:Eu.
    cbn. intros [= <-]. cbn. intros [= <-]. cbn. intros Ha.
    destruct (Hel Ha) as [He Hr]. repeat split; try assumption.
    exists v. rewrite Eu. reflexivity.
  - cbn. intros [= <-]. cbn. intros [= <-]. cbn. intros Ha.
    destruct (Hel Ha) as [He Hr]. rewrite Ha, He in Eb. discriminate.
Qed.


End StoreFacts.



(** ** The invariant of the two stores *)

Section InvariantFacts.
Import PyStr Classifier Prober Checker Orchestrator.

Lemma check_keeps_keys (W : world) (l : link)
    (ad : gmap string domain_record) :
  Spec.keys_not_excluded ad ->
  Spec.keys_not_excluded (snd (fst (check_link_status W l ad))).
Proof.
  intros Hk.
  destruct (check_store_cases W l ad) as [H|(d & v & _ & He & H)];
    rewrite H; [exact Hk|].
  apply upsert_keys; assumption.
Qed.

Lemma check_result_eligible (W : world) (l : link)
    (ad : gmap string domain_record) :
  Spec.eligible_outcome (fst (fst (check_link_status W l ad))).
Proof.
  intros r H di Hd Ha.
  destruct (check_available W l ad r di H Hd Ha) as (_ & He & Hr & _).
  split; assumption.
Qed.

Lemma run_checks_keys (W : world) (links : list link) :
  forall ad, Spec.keys_not_excluded ad ->
    Spec.keys_not_excluded (snd (fst (run_checks W links ad))).
Proof.
  induction links as [|l rest IH]; intros ad Hk; [exact Hk|].
  simpl.
  pose proof (check_keeps_keys W l ad Hk) as H1.
  destruct (check_link_status W l ad) as [[o ad1] ev1]. simpl in H1.
  specialize (IH ad1 H1).
  destruct (run_checks W rest ad1) as [[os ad2] ev2]. exact IH.
Qed.

Lemma run_checks_eligible (W : world) (links : list link) :
  forall ad, Forall Spec.eligible_outcome (fst (fst (run_checks W links ad))).
Proof.
  induction links as [|l rest IH]; intros ad; [constructor|].
  simpl.
  pose proof (check_result_eligible W l ad) as H1.
  destruct (check_link_status W l ad) as [[o ad1] ev1]. simpl in H1.
  specialize (IH ad1).
  destruct (run_checks W rest ad1) as [[os ad2] ev2]. simpl in *.
  constructor; assumption.
Qed.

Lemma drain_results (title article_url : string)
    (os : list (outcome link_record)) :
  Forall Spec.eligible_outcome os ->
  forall res dead,
    (forall k r, res !! k = Some r -> Spec.eligible_when_available r) ->
    forall k r,
      snd (fst (drain title article_url os res dead)) !! k = Some r ->
      Spec.eligible_when_available r.
Proof.
  induction 1 as [|o os Ho Hos IH]; intros res dead Hres; [exact Hres|].
  simpl. destruct o as [r0|e]; [|exact Hres].
  destruct (is_dead (lr_status_code r0)); [|apply IH; exact Hres].
  specialize (IH (<[link_id (lr_url (in_article title article_url r0))
                            article_url := in_article title article_url r0]> res)
                 (dead ++ [in_article title article_url r0])).
  destruct (drain title article_url os _ _) as [[o' res'] evs].
  apply IH. intros k r. rewrite lookup_insert.
  destruct (decide _) as [_|_]; [|apply Hres].
  intros [= <-]. exact (Ho r0 eq_refl).
Qed.

Lemma process_article_invariant (W : world) (article_url : string)
    (article_title : option string) (s : finder_state) :
  Spec.store_invariant s ->
  Spec.store_invariant (snd (fst (process_article W article_url article_title s))).
Proof.
  intros [Hk Hr]. unfold process_article.
  destruct (fetch_page W article_url) as [code soup|msg]; [|split; assumption].
  destruct (negb (code =? 200)); [split; assumption|].
  set (title := match article_title with
                | None | Some EmptyString => page_heading soup
                | Some t => t end).
  set (links := List.map (annotate title article_url)
                         (Extractor.extract_external_links soup)).
  pose proof (run_checks_keys W links (available_domains s) Hk) as H1.
  pose proof (run_checks_eligible W links (available_domains s)) as H2.
  destruct (run_checks W links (available_domains s)) as [[os ad'] ev1].
  simpl in H1, H2.
  pose proof (drain_results title article_url os H2 (results s) [] Hr) as H3.
  destruct (drain title article_url os (results s) []) as [[o res'] ev2].
  simpl in H3. destruct o; split; assumption.
Qed.

Lemma batch_loop_invariant (W : nat -> world) (progress_bar : bool) (n : nat)
    (pages : list page) :
  forall i s all_dead_links processed_count,
    Spec.store_invariant s ->
    Spec.store_invariant
      (snd (fst (batch_loop W progress_bar n i pages s all_dead_links
                            processed_count))).
Proof.
  induction pages as [|pg rest IH]; intros i s dl pc Hs; [exact Hs|].
  simpl.
  pose proof (process_article_invariant (W i) (page_url pg)
                (Some (page_title pg)) s Hs) as H1.
  destruct (process_article (W i) (page_url pg) (Some (page_title pg)) s)
    as [[dead s1] ev1]. simpl in H1.
  specialize (IH (S i) s1 (dl ++ dead) (S pc) H1).
  destruct (batch_loop W progress_bar n (S i) rest s1 (dl ++ dead) (S pc))
    as [[r s2] ev2]. exact IH.
Qed.

End InvariantFacts.

(** C6: the invariant (every key of [available_domains] is a
    non-excluded domain; every stored LinkRecord with
    [domain_available] true names a domain that [is_excluded_domain] and
    [is_restricted_tld] both reject) is kept by every operation that
    writes records: a single write of a check or of the orchestrator,
    the processing of an article, and the processing of a batch. *)
Theorem C6_store_invariant_preserved (s : finder_state) :
  Spec.store_invariant s ->
  (forall s', Spec.write_step s s' -> Spec.store_invariant s')
  /\ (forall W article_url article_title,
        Spec.store_invariant
          (snd (fst (Orchestrator.process_article W article_url
                                                  article_title s))))
  /\ (forall W pages max_pages progress_bar,
        Spec.store_invariant
          (snd (fst (Orchestrator.batch_process_articles W pages max_pages
                                                         progress_bar s)))).
Proof.
  intros Hs. split; [|split].
  - intros s' Hstep. destruct Hs as [Hk Hr].
    destruct Hstep as [W l s|W l ad ad' r evs title article_url s Hc Hd].
    + split; [|exact Hr]. apply check_keeps_keys. exact Hk.
    + split; [exact Hk|]. simpl. intros k r0. rewrite lookup_insert.
      destruct (decide _) as [_|_]; [|apply Hr].
      intros [= <-].
      pose proof (check_result_eligible W l ad r) as He.
      rewrite Hc in He. exact (He eq_refl).
  - intros W article_url article_title.
    apply process_article_invariant. exact Hs.
  - intros W pages max_pages progress_bar.
    apply batch_loop_invariant. exact Hs.
Qed.

Lemma C6_store_invariant_preserved_witness :
  Spec.store_invariant
    (snd (fst (Orchestrator.process_article
                 Spec.dead_world "https://en.wikipedia.org/wiki/Sample"
                 None Spec.empty_state))).
Proof.
  refine (proj1 (proj2 (C6_store_invariant_preserved Spec.empty_state _))
            Spec.dead_world "https://en.wikipedia.org/wiki/Sample" None).
  split.
  - intros k r H. simpl in H. rewrite lookup_empty in H. discriminate H.
  - intros k r H. simpl in H. rewrite lookup_empty in H. discriminate H.
Defined.

(** ** The loaders *)

(** C9, as stated, fails: a file that begins with the bytes FF FE is
    not valid JSON ([json.load] returns no value for it), and the
    [UnicodeDecodeError] raised while it is read is not the exception
    the handler names: it leaves the loader, and nothing is reported. *)
Lemma C9_undecodable_file_escapes :
  path_exists Spec.undecodable_fs "wikipedia_dead_links.json" = true
  /\ (forall v, json_load Spec.undecodable_fs "wikipedia_dead_links.json"
                <> JsonValue v)
  /\ Store._load_existing_results Spec.undecodable_fs
        "wikipedia_dead_links.json"
     = (Raises "'utf-8' codec can't decode byte 0xff in position 0: invalid start byte",
        []).
Proof.
  split; [reflexivity|]. split; [|reflexivity].
  intros v H. discriminate H.
Qed.

(** C9, amended: a store file that exists and on which [json.load]
    raises [JSONDecodeError] makes either loader report the error and
    return an empty map, no exception leaving it; a missing file gives
    an empty map without any report; any other exception raised while
    an existing file is read leaves the loader, nothing being
    reported. *)
Theorem C9_loaders_recover_from_invalid_json (fs : file_system)
    (path : string) :
  (path_exists fs path = true ->
   (exists msg, json_load fs path = JsonDecodeError msg) ->
   Store._load_existing_results fs path
   = (Returns (JObject []),
      [EvError ("Error loading existing log file " +:+ path
                +:+ ", creating new one")])
   /\ Store._load_available_domains fs path
      = (Returns (JObject []),
         [EvError ("Error loading available domains file " +:+ path
                   +:+ ", creating new one")]))
  /\ (path_exists fs path = false ->
      Store._load_existing_results fs path = (Returns (JObject []), [])
      /\ Store._load_available_domains fs path = (Returns (JObject []), []))
  /\ (path_exists fs path = true ->
      forall e, json_load fs path = JsonOtherError e ->
        Store._load_existing_results fs path = (Raises e, [])
        /\ Store._load_available_domains fs path = (Raises e, [])).
Proof.
  unfold Store._load_existing_results, Store._load_available_domains,
    Store.load.
  split; [|split].
  - intros He [msg Hm]. rewrite He, Hm. split; reflexivity.
  - intros He. rewrite He. split; reflexivity.
  - intros He e Hm. rewrite He, Hm. split; reflexivity.
Qed.

Lemma C9_loaders_recover_from_invalid_json_witness :
  Store._load_existing_results Spec.broken_fs "wikipedia_dead_links.json"
  = (Returns (JObject []),
     [EvError ("Error loading existing log file "
               +:+ "wikipedia_dead_links.json" +:+ ", creating new one")])
  /\ Store._load_available_domains Spec.empty_fs "available_domains.json"
     = (Returns (JObject []), [])
  /\ Store._load_available_domains Spec.undecodable_fs
        "available_domains.json"
     = (Raises "'utf-8' codec can't decode byte 0xff in position 0: invalid start byte",
        []).
Proof.
  split; [|split].
  - refine (proj1 (proj1 (C9_loaders_recover_from_invalid_json
                            Spec.broken_fs "wikipedia_dead_links.json")
                     _ _)).
    + reflexivity.
    + eexists. reflexivity.
  - refine (proj2 (proj1 (proj2 (C9_loaders_recover_from_invalid_json
                                   Spec.empty_fs "available_domains.json"))
                     _)).
    reflexivity.
  - refine (proj2 (proj2 (proj2 (C9_loaders_recover_from_invalid_json
                                   Spec.undecodable_fs
                                   "available_domains.json"))
                     _ _ _)).
    + reflexivity.
    + reflexivity.
Defined.

(** ** The batch loop *)

Section BatchFacts.
Import PyStr Classifier Prober Checker Orchestrator.

Lemma fetched_app (a b : list event) :
  fetched (a ++ b) = fetched a ++ fetched b.
Proof. apply flat_map_app. Qed.

Lemma probe_fetches_nothing (W : world) (url : string) :
  fetched (snd (probe_status W url)) = [].
Proof. unfold probe_status. destruct (is_dead _); reflexivity. Qed.

Lemma prober_fetches_nothing (W : world) (d : option string) :
  fetched (snd (check_domain_availability W d)) = [].
Proof.
  unfold check_domain_availability, dns_fallback.
  destruct d as [[|c d]|]; try reflexivity.
  destruct (is_excluded_domain _); [reflexivity|].
  destruct (is_restricted_tld _); [reflexivity|].
  destruct (whois_lookup W _); try reflexivity.
  destruct (dns_lookup W _); reflexivity.
Qed.

Lemma upsert_fetches_nothing (W : world) (l : link) (d : string)
    (v : verdict) (ad : gmap string domain_record) :
  fetched (snd (upsert_domain W l d v ad)) = [].
Proof.
  unfold upsert_domain, add_source.
  destruct (ad !! d); destruct (existsb _ _); reflexivity.
Qed.

Lemma check_fetches_nothing (W : world) (l : link)
    (ad : gmap string domain_record) :
  fetched (snd (check_link_status W l ad)) = [].
Proof.
  unfold check_link_status.
  pose proof (probe_fetches_nothing W (link_url l)) as Hp.
  destruct (probe_status W (link_url l)) as [st evs]. cbn [snd] in Hp.
  destruct (is_dead st); [|exact Hp].
  destruct (extract_domain (link_url l)) as [[|c d]|]; try exact Hp.
  pose proof (prober_fetches_nothing W (Some (String c d))) as Hq.
  destruct (check_domain_availability W (Some (String c d)))
    as [[v|e] evs2]; cbn [snd] in Hq.
  - destruct (available v && negb (is_excluded_domain (Some (String c d)))).
    + pose proof (upsert_fetches_nothing W l (String c d) v ad) as Hu.
      destruct (upsert_domain W l (String c d) v ad) as [ad' evs3].
      cbn [snd] in *. rewrite !fetched_app, Hp, Hq, Hu. reflexivity.
    + cbn [snd]. rewrite fetched_app, Hp, Hq. reflexivity.
  - cbn [snd]. rewrite fetched_app, Hp, Hq. reflexivity.
Qed.

Lemma run_checks_fetches_nothing (W : world) (links : list link) :
  forall ad, fetched (snd (run_checks W links ad)) = [].
Proof.
  induction links as [|l rest IH]; intros ad; [reflexivity|].
  simpl.
  pose proof (check_fetches_nothing W l ad) as H1.
  destruct (check_link_status W l ad) as [[o ad1] ev1]. cbn [snd] in H1.
  specialize (IH ad1).
  destruct (run_checks W rest ad1) as [[os ad2] ev2]. cbn [snd] in *.
  rewrite fetched_app, H1, IH. reflexivity.
Qed.

Lemma drain_fetches_nothing (title article_url : string)
    (os : list (outcome link_record)) :
  forall res dead, fetched (snd (drain title article_url os res dead)) = [].
Proof.
  induction os as [|o os IH]; intros res dead; [reflexivity|].
  simpl. destruct o as [r|e]; [|reflexivity].
  destruct (is_dead (lr_status_code r)); [|apply IH].
  specialize (IH (<[link_id (lr_url (in_article title article_url r))
                            article_url := in_article title article_url r]> res)
                 (dead ++ [in_article title article_url r])).
  destruct (drain title article_url os _ _) as [[o' res'] evs].
  cbn [snd] in *. exact IH.
Qed.

(** An article is requested once, whatever comes of it. *)
Lemma process_article_fetches_once (W : world) (article_url : string)
    (article_title : option string) (s : finder_state) :
  fetched (snd (process_article W article_url article_title s))
  = [article_url].
Proof.
  unfold process_article.
  destruct (fetch_page W article_url) as [code soup|msg]; [|reflexivity].
  destruct (negb (code =? 200)); [reflexivity|].
  set (title := match article_title with
                | None | Some EmptyString => page_heading soup
                | Some t => t end).
  set (links := List.map (annotate title article_url)
                         (Extractor.extract_external_links soup)).
  pose proof (run_checks_fetches_nothing W links (available_domains s)) as H1.
  destruct (run_checks W links (available_domains s)) as [[os ad'] ev1].
  pose proof (drain_fetches_nothing title article_url os (results s) []) as H2.
  destruct (drain title article_url os (results s) []) as [[o res'] ev2].
  cbn [snd] in *.
  destruct o; cbn [snd]; change (fetched (EvFetch article_url :: ?x))
    with (article_url :: fetched x);
    rewrite ?fetched_app, H1, H2; reflexivity.
Qed.

Lemma batch_loop_count (W : nat -> world) (progress_bar : bool) (n : nat)
    (pages : list page) :
  forall i s all_dead_links processed_count,
    snd (fst (fst (batch_loop W progress_bar n i pages s all_dead_links
                              processed_count)))
    = (processed_count + length pages)%nat.
Proof.
  induction pages as [|pg rest IH]; intros i s dl pc; simpl; [lia|].
  destruct (process_article (W i) (page_url pg) (Some (page_title pg)) s)
    as [[dead s1] ev1].
  specialize (IH (S i) s1 (dl ++ dead) (S pc)).
  destruct (batch_loop W progress_bar n (S i) rest s1 (dl ++ dead) (S pc))
    as [[r s2] ev2]. cbn [fst snd] in *. rewrite IH. simpl. lia.
Qed.

Lemma batch_loop_fetched (W : nat -> world) (progress_bar : bool) (n : nat)
    (pages : list page) :
  forall i s all_dead_links processed_count,
    fetched (snd (batch_loop W progress_bar n i pages s all_dead_links
                             processed_count))
    = List.map page_url pages.
Proof.
  induction pages as [|pg rest IH]; intros i s dl pc; [reflexivity|].
  simpl.
  pose proof (process_article_fetches_once (W i) (page_url pg)
                (Some (page_title pg)) s) as H1.
  destruct (process_article (W i) (page_url pg) (Some (page_title pg)) s)
    as [[dead s1] ev1].
  specialize (IH (S i) s1 (dl ++ dead) (S pc)).
  destruct (batch_loop W progress_bar n (S i) rest s1 (dl ++ dead) (S pc))
    as [[r s2] ev2]. cbn [fst snd] in *.
  change (fetched (EvWrite (page_title pg) (S i) n :: ?x)) with (fetched x).
  rewrite !fetched_app, H1.
  change (fetched (EvSleep :: ev2)) with (fetched ev2). rewrite IH.
  destruct progress_bar; reflexivity.
Qed.

End BatchFacts.

(** C10: with [max_pages] equal to 0 nothing is cut: the call is the
    call without a limit, every page of the list is requested, in order,
    and [processed_count] is the length of the whole list. With a
    positive [max_pages] the pages processed are the first [max_pages]
    of the list. *)
Theorem C10_zero_max_pages_keeps_every_page (W : nat -> world)
    (pages : list page) (progress_bar : bool) (s : finder_state) :
  let zero := Orchestrator.batch_process_articles W pages (Some 0)
                                                  progress_bar s in
  zero = Orchestrator.batch_process_articles W pages None progress_bar s
  /\ snd (fst (fst zero)) = length pages
  /\ Orchestrator.fetched (snd zero) = List.map page_url pages
  /\ forall n, 0 < n ->
       let cut := Orchestrator.batch_process_articles W pages (Some n)
                                                      progress_bar s in
       snd (fst (fst cut)) = length (take (Z.to_nat n) pages)
       /\ Orchestrator.fetched (snd cut)
          = List.map page_url (take (Z.to_nat n) pages).
Proof.
  cbv zeta. unfold Orchestrator.batch_process_articles.
  split; [reflexivity|]. split; [|split].
  - rewrite batch_loop_count. reflexivity.
  - apply batch_loop_fetched.
  - intros n Hn.
    assert (Ht : Orchestrator.truncate (Some n) pages
                 = take (Z.to_nat n) pages).
    { unfold Orchestrator.truncate, Orchestrator.slice_to.
      destruct n as [|p|p]; try lia. reflexivity. }
    rewrite Ht. split.
    + rewrite batch_loop_count. reflexivity.
    + apply batch_loop_fetched.
Qed.

Lemma C10_zero_max_pages_keeps_every_page_witness :
  snd (fst (fst (Orchestrator.batch_process_articles
                   (fun _ => Spec.dead_world) Spec.sample_pages (Some 1)
                   false Spec.empty_state)))
  = 1%nat.
Proof.
  refine (proj1 (proj2 (proj2 (proj2
            (C10_zero_max_pages_keeps_every_page
               (fun _ => Spec.dead_world) Spec.sample_pages false
               Spec.empty_state))) 1 _)).
  reflexivity.
Defined.

(** * Further properties of the code *)

(** ** Suffixes and letter case *)

Section SuffixFacts.
Import PyStr.

Lemma rev_app_spec (s t : string) :
  String.rev_app s t = String.rev s +:+ t.
Proof.
  unfold String.rev. revert t.
  induction s as [|a s IH]; intros t; [reflexivity|].
  simpl. rewrite (IH (String a t)), (IH (String a EmptyString)).
  rewrite app_assoc_str. reflexivity.
Qed.

Lemma rev_cons (a : ascii) (s : string) :
  String.rev (String a s) = String.rev s +:+ String a EmptyString.
Proof. unfold String.rev at 1. simpl. apply rev_app_spec. Qed.

Lemma rev_app_distr (a b : string) :
  String.rev (a +:+ b) = String.rev b +:+ String.rev a.
Proof.
  induction a as [|x a IH].
  - change (EmptyString +:+ b) with b. symmetry. apply app_empty_r.
  - rewrite app_cons, !rev_cons, IH. apply app_assoc_str.
Qed.

Lemma rev_involutive (s : string) : String.rev (String.rev s) = s.
Proof.
  induction s as [|a s IH]; [reflexivity|].
  rewrite rev_cons, rev_app_distr, IH. reflexivity.
Qed.

Lemma startswith_app (p r : string) : startswith (p +:+ r) p = true.
Proof.
  induction p as [|a p IH]; [reflexivity|].
  rewrite app_cons. simpl. rewrite bool_decide_eq_true_2 by reflexivity.
  exact IH.
Qed.

Lemma startswith_split (p : string) :
  forall s, startswith s p = true -> exists r, s = p +:+ r.
Proof.
  induction p as [|b p IH]; intros s H; [exists s; reflexivity|].
  destruct s as [|a s]; [discriminate H|]. simpl in H.
  apply andb_true_iff in H as [Hab Hs]. apply bool_decide_eq_true in Hab.
  destruct (IH s Hs) as [r ->]. exists r. subst. reflexivity.
Qed.

(** [s.endswith(e)] holds exactly when [s] is some text followed by [e]. *)
Lemma endswith_iff (s e : string) :
  endswith s e = true <-> exists p, s = p +:+ e.
Proof.
  unfold endswith. split.
  - intros H. apply startswith_split in H as [r Hr].
    exists (String.rev r).
    rewrite <- (rev_involutive s), Hr, rev_app_distr, rev_involutive.
    reflexivity.
  - intros [p ->]. rewrite rev_app_distr. apply startswith_app.
Qed.

Lemma lower_char_idem (c : ascii) : lower_char (lower_char c) = lower_char c.
Proof. destruct c as [[] [] [] [] [] [] [] []]; vm_compute; reflexivity. Qed.

Lemma lower_idem (s : string) : lower (lower s) = lower s.
Proof.
  induction s as [|a s IH]; [reflexivity|].
  simpl. rewrite lower_char_idem, IH. reflexivity.
Qed.

Lemma endings_are_lower (e : string) :
  In e Classifier.excluded_domain_endings -> lower e = e.
Proof.
  unfold Classifier.excluded_domain_endings. simpl.
  intros H. repeat (destruct H as [<-|H]; [reflexivity|]). destruct H.
Qed.

(** No text that ends with a dot ends with an excluded ending. *)
Lemma dot_ends_no_ending (s : string) :
  existsb (fun ending => endswith (s +:+ ".") (lower ending))
          Classifier.excluded_domain_endings = false.
Proof.
  unfold endswith. rewrite rev_app_distr.
  change (String.rev ".") with (String "."%char EmptyString).
  rewrite app_cons. reflexivity.
Qed.

(** No text that ends with a dot is an entry of the restricted list. *)
Lemma dot_ends_no_entry (x : string) :
  mem (x +:+ ".") Classifier.restricted_tlds = false.
Proof.
  destruct (mem (x +:+ ".") Classifier.restricted_tlds) eqn:E;
    [|reflexivity].
  apply mem_true in E.
  assert (H : endswith (x +:+ ".") "." = true)
    by (apply endswith_iff; exists x; reflexivity).
  unfold Classifier.restricted_tlds in E. simpl in E.
  repeat (destruct E as [E|E];
          [rewrite <- E in H; vm_compute in H; discriminate H|]).
  destruct E.
Qed.

End SuffixFacts.

(** X1: [is_excluded_domain] answers true for a null domain, and for a
    domain string exactly when it is empty or its lower-case form ends
    with one of the excluded endings. *)
Theorem X1_excluded_domain_iff (d : string) :
  Classifier.is_excluded_domain None = true
  /\ (Classifier.is_excluded_domain (Some d) = true
      <-> d = EmptyString
          \/ exists e p, In e Classifier.excluded_domain_endings
                         /\ PyStr.lower d = p +:+ e).
Proof.
  split; [reflexivity|].
  destruct d as [|c d]; [split; [left|]; reflexivity|].
  unfold Classifier.is_excluded_domain. rewrite existsb_exists. split.
  - intros (e & He & H). right. exists e.
    rewrite (endings_are_lower e He) in H.
    apply endswith_iff in H as [p Hp]. exists p. split; assumption.
  - intros [Hd|(e & p & He & Hp)]; [discriminate Hd|].
    exists e. split; [exact He|].
    rewrite (endings_are_lower e He). apply endswith_iff.
    exists p. exact Hp.
Qed.

(** X2: the two classifiers ignore letter case: a domain and its
    lower-case form get the same answers. *)
Theorem X2_classifiers_ignore_case (d : string) :
  Classifier.is_excluded_domain (Some (PyStr.lower d))
  = Classifier.is_excluded_domain (Some d)
  /\ Classifier.is_restricted_tld (Some (PyStr.lower d))
     = Classifier.is_restricted_tld (Some d).
Proof.
  destruct d as [|c d]; [split; reflexivity|].
  change (PyStr.lower (String c d))
    with (String (PyStr.lower_char c) (PyStr.lower d)).
  unfold Classifier.is_excluded_domain, Classifier.is_restricted_tld.
  change (String (PyStr.lower_char c) (PyStr.lower d))
    with (PyStr.lower (String c d)).
  rewrite lower_idem. split; reflexivity.
Qed.

(** X3: a domain written with a trailing dot is neither excluded nor
    restricted, whatever stands before the dot. *)
Theorem X3_trailing_dot_passes_both_classifiers (d : string) :
  Classifier.is_excluded_domain (Some (d +:+ ".")) = false
  /\ Classifier.is_restricted_tld (Some (d +:+ ".")) = false.
Proof.
  split.
  - assert (H : Classifier.is_excluded_domain (Some (d +:+ "."))
                = existsb (fun ending =>
                             PyStr.endswith (PyStr.lower (d +:+ "."))
                                            (PyStr.lower ending))
                          Classifier.excluded_domain_endings).
    { destruct d; reflexivity. }
    rewrite H, lower_app. apply dot_ends_no_ending.
  - rewrite restricted_unfold by apply app_sep_nonempty.
    cbv zeta. rewrite lower_app.
    change (PyStr.lower ".") with (String "."%char EmptyString).
    rewrite split_app. change (PyStr.split "." EmptyString) with [EmptyString].
    destruct (split_nonempty "." (PyStr.lower d)) as (w & ws & ->).
    destruct (exists_last (l := w :: ws)) as (init & x & ->); [discriminate|].
    rewrite <- app_assoc. change ([x] ++ [EmptyString]) with [x; EmptyString].
    unfold PyStr.last_or.
    replace (List.last (init ++ [x; EmptyString]) EmptyString)
      with EmptyString
      by (change [x; EmptyString] with ([x] ++ [EmptyString]);
          rewrite app_assoc, last_last; reflexivity).
    replace (PyStr.last_n 2 (init ++ [x; EmptyString]))
      with [x; EmptyString]
      by (symmetry; apply (last_n_app init [x; EmptyString])).
    change (PyStr.join "." [x; EmptyString]) with (x +:+ "." +:+ EmptyString).
    rewrite app_empty_r, dot_ends_no_entry, andb_false_r.
    destruct (_ <? _)%nat; reflexivity.
Qed.

(** ** More on the availability prober *)

Section VerdictFacts.
Import PyStr Classifier Prober.

(** The verdict of a WHOIS entry is one of four. *)
Lemma judge_entry_cases (clock : Z) (w : whois_entry) :
  judge_entry clock w = potentially_available w
  \/ (exists expiry, judge_entry clock w = expired expiry w)
  \/ judge_entry clock w = registered w
  \/ exists msg, judge_entry clock w = error_verdict msg.
Proof.
  unfold judge_entry. destruct (registrar w); [|left; reflexivity].
  destruct (date_field_truthy _); [|right; right; left; reflexivity].
  destruct (chosen_expiry _) as [expiry|]; [|right; right; left; reflexivity].
  destruct (before_now expiry clock) as [[|]|msg].
  - right; left. exists expiry. reflexivity.
  - right; right; left. reflexivity.
  - right; right; right. exists msg. reflexivity.
Qed.

(** The verdicts the prober can return. *)
Lemma verdict_cases (W : world) (domain : option string) (v : verdict) :
  fst (check_domain_availability W domain) = Returns v ->
  v = invalid_domain \/ v = excluded_verdict \/ v = restricted_verdict
  \/ (exists w, v = potentially_available w)
  \/ (exists expiry w, v = expired expiry w)
  \/ (exists w, v = registered w)
  \/ v = dns_exists \/ v = no_dns_record
  \/ exists msg, v = error_verdict msg.
Proof.
  unfold check_domain_availability, dns_fallback.
  destruct domain as [[|c d]|]; try (cbn; intros [= <-]; tauto).
  destruct (is_excluded_domain _); [cbn; intros [= <-]; tauto|].
  destruct (is_restricted_tld _); [cbn; intros [= <-]; tauto|].
  destruct (whois_lookup W _) as [w|m|m].
  - cbn. intros [= <-].
    destruct (judge_entry_cases (now W) w) as [->|[(e & ->)|[->|(m & ->)]]];
      eauto 12.
  - destruct (dns_lookup W _); cbn; try discriminate; intros [= <-]; tauto.
  - cbn. intros [= <-]. eauto 12.
Qed.

End VerdictFacts.

(** X4: the status "Restricted TLD or excluded domain" is never
    returned: the test that guards it, made after the DNS failure, can
    only succeed for a domain the function has already answered. *)
Theorem X4_second_classifier_test_is_dead (W : world)
    (domain : option string) (v : verdict) :
  fst (Prober.check_domain_availability W domain) = Returns v ->
  String.eqb (status v) "Restricted TLD or excluded domain" = false.
Proof.
  intros H. apply String.eqb_neq. apply verdict_cases in H.
  destruct H as [->|[->|[->|[(w & ->)|[(e & w & ->)|[(w & ->)|[->|[->|(m & ->)]]]]]]]];
    cbn; discriminate.
Qed.

Lemma X4_second_classifier_test_is_dead_witness :
  String.eqb (status Prober.no_dns_record) "Restricted TLD or excluded domain"
  = false.
Proof.
  refine (X4_second_classifier_test_is_dead Spec.dead_world
            (Some "gone.example.com") Prober.no_dns_record _).
  vm_compute. reflexivity.
Defined.

(** X5: a verdict is marked available exactly when its status is
    "Potentially available", "Expired" or "No DNS record found". *)
Theorem X5_available_iff_status (W : world) (domain : option string)
    (v : verdict) :
  fst (Prober.check_domain_availability W domain) = Returns v ->
  (available v = true
   <-> status v = "Potentially available" \/ status v = "Expired"
       \/ status v = "No DNS record found").
Proof.
  intros H. apply verdict_cases in H.
  destruct H as [->|[->|[->|[(w & ->)|[(e & w & ->)|[(w & ->)|[->|[->|(m & ->)]]]]]]]];
    cbn; split; try tauto; try discriminate;
    intros [H|[H|H]]; discriminate H.
Qed.

Lemma X5_available_iff_status_witness :
  available Prober.no_dns_record = true
  <-> status Prober.no_dns_record = "Potentially available"
      \/ status Prober.no_dns_record = "Expired"
      \/ status Prober.no_dns_record = "No DNS record found".
Proof.
  refine (X5_available_iff_status Spec.dead_world
            (Some "gone.example.com") Prober.no_dns_record _).
  vm_compute. reflexivity.
Defined.

(** X6: an exception leaves [check_domain_availability] in one case
    only: the domain is non-empty, not excluded and not restricted,
    WHOIS has no record of it, and the DNS lookup fails with something
    other than [gaierror]; the exception is that failure. *)
Theorem X6_only_a_dns_failure_escapes (W : world) (domain : option string)
    (e : string) :
  fst (Prober.check_domain_availability W domain) = Raises e
  <-> exists d, domain = Some d /\ d <> EmptyString
        /\ Classifier.is_excluded_domain (Some d) = false
        /\ Classifier.is_restricted_tld (Some d) = false
        /\ (exists m, whois_lookup W d = WhoisNoRecord m)
        /\ dns_lookup W d = DnsFailure e.
Proof.
  split.
  - unfold Prober.check_domain_availability, Prober.dns_fallback.
    destruct domain as [[|c d]|]; try (cbn; discriminate).
    destruct (Classifier.is_excluded_domain _) eqn:He; [cbn; discriminate|].
    destruct (Classifier.is_restricted_tld _) eqn:Hr; [cbn; discriminate|].
    destruct (whois_lookup W _) as [w|m|m] eqn:Hw; try (cbn; discriminate).
    destruct (dns_lookup W _) as [| |m'] eqn:Hd; cbn; try discriminate.
    intros [= <-]. exists (String c d).
    repeat (split; [first [reflexivity | assumption | discriminate | eauto]|]).
    exact Hd.
  - intros (d & -> & Hne & He & Hr & (m & Hw) & Hd).
    destruct d as [|c d]; [congruence|].
    unfold Prober.check_domain_availability, Prober.dns_fallback.
    rewrite He, Hr, Hw, Hd. reflexivity.
Qed.

(** X7: the lookups of one call are none, or WHOIS alone, or WHOIS and
    then DNS for the same name; DNS is asked only when WHOIS has no
    record of the domain. *)
Theorem X7_lookups_in_order (W : world) (d : string) :
  let evs := snd (Prober.check_domain_availability W (Some d)) in
  evs = []
  \/ (evs = [EvWhois d] /\ forall m, whois_lookup W d <> WhoisNoRecord m)
  \/ (evs = [EvWhois d; EvDns d] /\ exists m, whois_lookup W d = WhoisNoRecord m).
Proof.
  cbv zeta. unfold Prober.check_domain_availability, Prober.dns_fallback.
  destruct d as [|c d]; [left; reflexivity|].
  destruct (Classifier.is_excluded_domain _); [left; reflexivity|].
  destruct (Classifier.is_restricted_tld _); [left; reflexivity|].
  destruct (whois_lookup W _) as [w|m|m] eqn:Hw.
  - right; left. split; [reflexivity|]. discriminate.
  - right; right. split; [|eauto]. destruct (dns_lookup W _); reflexivity.
  - right; left. split; [reflexivity|]. discriminate.
Qed.

(** X8: when WHOIS answers with an entry for a domain that passed the
    classifier tests, the function returns (no DNS lookup, no
    exception), and the verdict is marked available exactly when the
    entry has no registrar, or the expiration date it uses (the value,
    or the first of a list) is a naive datetime before the present
    moment. A date that cannot be compared with the clock gives a verdict
    that is not available. *)
Theorem X8_whois_entry_verdict (W : world) (d : string) (w : whois_entry) :
  PyStr.truthy (Some d) = true ->
  Classifier.is_excluded_domain (Some d) = false ->
  Classifier.is_restricted_tld (Some d) = false ->
  whois_lookup W d = WhoisEntry w ->
  exists v,
    Prober.check_domain_availability W (Some d) = (Returns v, [EvWhois d])
    /\ (available v = true
        <-> registrar w = None
            \/ exists t, Prober.chosen_expiry (expiration_date w)
                         = Some (DateTime t) /\ t < now W).
Proof.
  intros Ht He Hr Hw. rewrite check_nonempty by exact Ht.
  rewrite He, Hr, Hw. eexists. split; [reflexivity|].
  unfold Prober.judge_entry.
  destruct (registrar w) as [r|]; [|cbn; tauto].
  destruct (expiration_date w) as [|[t|t|s]|[|[t|t|s] rest]]; cbn;
    try (split; [discriminate|intros [H|(t' & H & _)]; discriminate H]).
  - destruct (t <? now W) eqn:E; cbn.
    + apply Z.ltb_lt in E. split; [|reflexivity]. intros _. right. eauto.
    + apply Z.ltb_ge in E. split; [discriminate|].
      intros [H|(t' & [= <-] & H)]; [discriminate H|lia].
  - destruct s; cbn;
      (split; [discriminate|intros [H|(t' & H & _)]; discriminate H]).
  - destruct (t <? now W) eqn:E; cbn.
    + apply Z.ltb_lt in E. split; [|reflexivity]. intros _. right. eauto.
    + apply Z.ltb_ge in E. split; [discriminate|].
      intros [H|(t' & [= <-] & H)]; [discriminate H|lia].
Qed.

Lemma X8_whois_entry_verdict_witness :
  exists v,
    Prober.check_domain_availability
      (Spec.whois_world (OneDate (DateTime 500))) (Some "gone.example.com")
    = (Returns v, [EvWhois "gone.example.com"])
    /\ (available v = true
        <-> registrar (Spec.sample_entry (OneDate (DateTime 500))) = None
            \/ exists t, Prober.chosen_expiry
                           (expiration_date
                              (Spec.sample_entry (OneDate (DateTime 500))))
                         = Some (DateTime t)
                         /\ t < now (Spec.whois_world (OneDate (DateTime 500)))).
Proof.
  refine (X8_whois_entry_verdict
            (Spec.whois_world (OneDate (DateTime 500))) "gone.example.com"
            (Spec.sample_entry (OneDate (DateTime 500))) _ _ _ _);
    vm_compute; reflexivity.
Defined.

(** ** More on the link extractor *)

Section TreeFacts.
Import PyStr Html Extractor.

Lemma node_induction (P : node -> Prop) :
  (forall s, P (Text s)) ->
  (forall t a cs, Forall P cs -> P (Elem t a cs)) ->
  forall n, P n.
Proof.
  intros HT HE. fix IH 1. intros [s|t a cs]; [apply HT|]. apply HE.
  induction cs as [|c cs IHcs]; constructor; [apply IH | exact IHcs].
Qed.

(** The nodes a walk visits are the node and what is below it. *)
Lemma walk_nodes (n : node) :
  forall p, List.map snd (walk p n) = n :: descendants n.
Proof.
  induction n as [s|t a cs IH] using node_induction; intros p;
    [reflexivity|].
  simpl. f_equal. generalize O.
  induction IH as [|c cs Hc _ IHcs]; intros i; [reflexivity|].
  simpl. rewrite List.map_app, (Hc (p ++ [i])), IHcs. reflexivity.
Qed.

Lemma walk_doc_nodes (doc : list node) :
  List.map snd (walk_doc doc)
  = List.flat_map (fun c => c :: descendants c) doc.
Proof.
  unfold walk_doc. generalize O.
  induction doc as [|c doc IH]; intros i; [reflexivity|].
  simpl. rewrite List.map_app, walk_nodes, IH. reflexivity.
Qed.

Lemma descendants_trans (n : node) :
  forall m x, In m (descendants n) -> In x (descendants m) ->
              In x (descendants n).
Proof.
  induction n as [s|t a cs IH] using node_induction; intros m x Hm Hx;
    [destruct Hm|].
  simpl in *. apply in_flat_map in Hm as (c & Hc & Hm).
  apply in_flat_map. exists c. split; [exact Hc|].
  destruct Hm as [<-|Hm]; [right; exact Hx|].
  right. rewrite List.Forall_forall in IH. exact (IH c Hc m x Hm Hx).
Qed.

(** What is below a node of the document is in the document. *)
Lemma doc_closed (doc : list node) (m x : node) :
  In m (List.map snd (walk_doc doc)) -> In x (descendants m) ->
  In x (List.map snd (walk_doc doc)).
Proof.
  rewrite walk_doc_nodes. intros Hm Hx.
  apply in_flat_map in Hm as (c & Hc & Hm).
  apply in_flat_map. exists c. split; [exact Hc|]. right.
  destruct Hm as [<-|Hm]; [exact Hx|].
  exact (descendants_trans c m x Hm Hx).
Qed.

Lemma after_path_incl (p : list nat) (l : list (list nat * node))
    (x : list nat * node) :
  In x (after_path p l) -> In x l.
Proof.
  induction l as [|[q n] l IH]; simpl; [tauto|].
  destruct (bool_decide (q = p)); [tauto|]. intros H. right. exact (IH H).
Qed.

Lemma nodes_after_incl (p : list nat) (doc : list node)
    (x : list nat * node) :
  In x (nodes_after p doc) -> In x (walk_doc doc).
Proof.
  unfold nodes_after. destruct p; [intros []|]. apply after_path_incl.
Qed.

(** The items a list of anchors gives. *)
Lemma collect_In (anchors : list node) (l : link) :
  In l (collect anchors)
  <-> exists a, In a anchors
        /\ attr "href" (node_attrs a) = Some (link_url l)
        /\ startswith (link_url l) "https://web.archive.org" = false
        /\ l = {| link_url := link_url l;
                  link_text := strip (get_text a);
                  link_article_title := None;
                  link_article_url := None |}.
Proof.
  unfold collect. rewrite in_flat_map. split.
  - intros (a & Ha & Hl). exists a. split; [exact Ha|].
    destruct (attr "href" (node_attrs a)) as [url|]; [|destruct Hl].
    destruct (startswith url "https://web.archive.org") eqn:E;
      [destruct Hl|].
    destruct Hl as [<-|[]]. simpl. repeat split. exact E.
  - intros (a & Ha & Hh & Hs & Hl). exists a. split; [exact Ha|].
    rewrite Hh, Hs. left. symmetry. exact Hl.
Qed.

(** The anchors of the section walk are anchors of the document scan. *)
Lemma section_links_in_scan (soup : list node) (l : link) :
  In l (section_links soup) ->
  In l (collect (find_all_doc is_external_anchor soup)).
Proof.
  unfold section_links.
  destruct (find_doc _ soup) as [[p n]|]; [|intros []].
  destruct (List.find _ _) as [[q ul]|] eqn:Ef; [|intros []].
  apply find_some in Ef as [Hul _]. apply nodes_after_incl in Hul.
  apply (in_map snd) in Hul. simpl in Hul.
  intros H. apply in_flat_map in H as (li & Hli & H).
  apply List.filter_In in Hli as [Hli _].
  apply collect_In in H as (a & Ha & Hrest). apply collect_In.
  exists a. split; [|exact Hrest].
  apply List.filter_In in Ha as [Ha Hext].
  apply List.filter_In. split; [|exact Hext].
  apply (doc_closed soup li a); [|exact Ha].
  apply (doc_closed soup ul li); assumption.
Qed.

End TreeFacts.



(** X10: the output of [extract_external_links] is exactly this: one
    item for an anchor of class [external] of the document that has an
    [href] which does not start with [https://web.archive.org]; the
    item carries that [href], the anchor's text with surrounding white
    space stripped, and no article context. *)
Theorem X10_extracted_links_are_external_anchors (soup : list node)
    (l : link) :
  In l (Extractor.extract_external_links soup)
  <-> exists a,
        In a (Html.find_all_doc Html.is_external_anchor soup)
        /\ Html.attr "href" (Html.node_attrs a) = Some (link_url l)
        /\ PyStr.startswith (link_url l) "https://web.archive.org" = false
        /\ l = {| link_url := link_url l;
                  link_text := PyStr.strip (Html.get_text a);
                  link_article_title := None;
                  link_article_url := None |}.
Proof.
  rewrite <- collect_In. unfold Extractor.extract_external_links.
  rewrite in_app_iff. split; [|tauto].
  intros [H|H]; [apply section_links_in_scan|]; exact H.
Qed.

(** ** More on the liveness checker *)

Section TraceFacts.
Import PyStr Classifier Prober Checker.

Variable f : event -> bool.
Hypothesis f_head : forall u, f (EvHead u) = false.
Hypothesis f_get : forall u, f (EvGet u) = false.
Hypothesis f_whois : forall d, f (EvWhois d) = false.
Hypothesis f_dns : forall d, f (EvDns d) = false.

Lemma probe_filter (W : world) (url : string) :
  List.filter f (snd (probe_status W url)) = [].
Proof.
  unfold probe_status. destruct (is_dead _); simpl;
    rewrite ?f_head, ?f_get; reflexivity.
Qed.

Lemma prober_filter (W : world) (d : option string) :
  List.filter f (snd (check_domain_availability W d)) = [].
Proof.
  unfold check_domain_availability, dns_fallback.
  destruct d as [[|c d]|]; try reflexivity.
  destruct (is_excluded_domain _); [reflexivity|].
  destruct (is_restricted_tld _); [reflexivity|].
  destruct (whois_lookup W _); [| |]; try (simpl; rewrite f_whois; reflexivity).
  destruct (dns_lookup W _); simpl; rewrite f_whois, f_dns; reflexivity.
Qed.

End TraceFacts.

Section CheckerStoreFacts.
Import PyStr Classifier Prober Checker.

Lemma domain_saves_app (a b : list event) :
  Spec.domain_saves (a ++ b) = (Spec.domain_saves a + Spec.domain_saves b)%nat.
Proof.
  unfold Spec.domain_saves. rewrite List.filter_app. apply length_app.
Qed.

Lemma probe_saves_nothing (W : world) (url : string) :
  Spec.domain_saves (snd (probe_status W url)) = O.
Proof.
  unfold Spec.domain_saves. rewrite probe_filter; reflexivity.
Qed.

Lemma prober_saves_nothing (W : world) (d : option string) :
  Spec.domain_saves (snd (check_domain_availability W d)) = O.
Proof.
  unfold Spec.domain_saves. rewrite prober_filter; reflexivity.
Qed.

(** [upsert_domain] in one step: the record it works on is the one in
    the store, or a new one. *)
Lemma upsert_spec (W : world) (l : link) (d : string) (v : verdict)
    (ad : gmap string domain_record) :
  let r0 := default (new_record W d v) (ad !! d) in
  upsert_domain W l d v ad =
    if existsb (same_source l) (dr_sources r0) then (ad, [])
    else (<[d := with_source r0 (source_of l)]> ad, [EvSaveDomains]).
Proof.
  cbv zeta. unfold upsert_domain, add_source.
  destruct (ad !! d) as [r|]; [reflexivity|].
  simpl. rewrite insert_insert_eq. reflexivity.
Qed.

(** The store is written to the file exactly when it has changed. *)
Lemma upsert_saved_iff_changed (W : world) (l : link) (d : string)
    (v : verdict) (ad : gmap string domain_record) :
  (fst (upsert_domain W l d v ad) = ad
   /\ Spec.domain_saves (snd (upsert_domain W l d v ad)) = O)
  \/ (fst (upsert_domain W l d v ad) <> ad
      /\ Spec.domain_saves (snd (upsert_domain W l d v ad)) = 1%nat).
Proof.
  rewrite upsert_spec. cbv zeta.
  destruct (existsb _ _); [left; split; reflexivity|].
  right. split; [|reflexivity]. cbn [fst]. intros H.
  assert (Hl : ad !! d
               = Some (with_source (default (new_record W d v) (ad !! d))
                                   (source_of l)))
    by (rewrite <- H at 1; apply lookup_insert_eq).
  destruct (ad !! d) as [r|]; [|discriminate Hl].
  injection Hl as Hl. apply (f_equal dr_sources) in Hl. simpl in Hl.
  apply (f_equal (@length _)) in Hl. rewrite length_app in Hl.
  simpl in Hl. lia.
Qed.

(** A check either leaves the store alone and saves nothing, or it is
    the upsert of the domain of the URL, found available and not
    excluded, and the saves are those of the upsert. *)
Lemma check_decompose (W : world) (l : link)
    (ad : gmap string domain_record) :
  (exists o evs, check_link_status W l ad = (o, ad, evs)
                 /\ Spec.domain_saves evs = O
                 /\ forall r di, o = Returns r -> lr_domain r = Some di ->
                                 di_available di = true -> False)
  \/ exists d v r evs0,
       extract_domain (link_url l) = Some d
       /\ available v = true
       /\ is_excluded_domain (Some d) = false
       /\ check_link_status W l ad
          = (Returns r, fst (upsert_domain W l d v ad),
             evs0 ++ snd (upsert_domain W l d v ad))
       /\ Spec.domain_saves evs0 = O
       /\ lr_domain r = Some {| di_domain := d; di_available := available v;
                                di_status := status v;
                                di_details := details v |}.
Proof.
  unfold check_link_status.
  pose proof (probe_saves_nothing W (link_url l)) as Hp.
  destruct (probe_status W (link_url l)) as [st evs]. cbn [snd] in Hp.
  destruct (is_dead st).
  2:{ left. eexists _, _. split; [reflexivity|]. split; [exact Hp|].
      intros r di [= <-]. discriminate. }
  destruct (extract_domain (link_url l)) as [[|c d]|].
  1,3: left; eexists _, _; (split; [reflexivity|]); (split; [exact Hp|]);
       intros r di [= <-]; discriminate.
  pose proof (prober_saves_nothing W (Some (String c d))) as Hq.
  pose proof (available_is_eligible W (String c d)) as Hel.
  destruct (check_domain_availability W (Some (String c d)))
    as [[v|e] evs2]; cbn [snd] in Hq.
  - destruct (available v && negb (is_excluded_domain (Some (String c d))))
      eqn:Eb.
    + apply andb_true_iff in Eb as [Ha He]. apply negb_true_iff in He.
      right. eexists (String c d), v, _, (evs ++ evs2).
      destruct (upsert_domain W l (String c d) v ad) as [ad' evs3].
      cbn [fst snd]. rewrite <- List.app_assoc.
      repeat (split; [first [reflexivity | assumption]|]).
      split; [|reflexivity].
      rewrite domain_saves_app, Hp, Hq. reflexivity.
    + left. eexists _, _. split; [reflexivity|].
      split; [rewrite domain_saves_app, Hp, Hq; reflexivity|].
      intros r di [= <-]. cbn. intros [= <-]. cbn. intros Ha.
      destruct (Hel v evs2 eq_refl eq_refl Ha) as [He _].
      rewrite Ha, He in Eb. discriminate Eb.
  - left. eexists _, _. split; [reflexivity|].
    split; [rewrite domain_saves_app, Hp, Hq; reflexivity|].
    intros r di H. discriminate H.
Qed.

(** What an upsert does to the records of the store. *)
Lemma upsert_extends (W : world) (l : link) (d : string) (v : verdict)
    (ad : gmap string domain_record) (k : string) (r : domain_record) :
  ad !! k = Some r ->
  exists r', fst (upsert_domain W l d v ad) !! k = Some r'
             /\ Spec.extends l r r' /\ (k <> d -> r' = r).
Proof.
  intros Hk. rewrite upsert_spec. cbv zeta.
  destruct (existsb _ _).
  - exists r. split; [exact Hk|]. unfold Spec.extends. tauto.
  - cbn [fst]. destruct (decide (k = d)) as [->|Hne].
    + rewrite lookup_insert_eq, Hk. eexists. split; [reflexivity|].
      unfold Spec.extends. simpl. split; [tauto|]. intros H. congruence.
    + rewrite lookup_insert_ne by congruence.
      exists r. split; [exact Hk|]. unfold Spec.extends. tauto.
Qed.

End CheckerStoreFacts.

(** X11: a check writes the available-domains file exactly when it has
    changed the map, and then once: either the map is as before and
    nothing was saved, or it differs and there is one save. *)
Theorem X11_store_saved_iff_changed (W : world) (l : link)
    (ad : gmap string domain_record) :
  let run := Checker.check_link_status W l ad in
  (snd (fst run) = ad /\ Spec.domain_saves (snd run) = O)
  \/ (snd (fst run) <> ad /\ Spec.domain_saves (snd run) = 1%nat).
Proof.
  cbv zeta.
  destruct (check_decompose W l ad)
    as [(o & evs & -> & Hs & _)|(d & v & r & evs0 & _ & _ & _ & -> & Hs & _)].
  - left. split; [reflexivity|exact Hs].
  - cbn [fst snd]. rewrite domain_saves_app, Hs.
    exact (upsert_saved_iff_changed W l d v ad).
Qed.

(** X12: a check never removes or rewrites a record: a record of the
    map is still there afterwards with the same domain, status, details
    and date of discovery; its sources are unchanged or longer by the
    source of this link, and a record filed under another key than the
    domain of the link's URL is exactly as before. *)
Theorem X12_check_only_extends_records (W : world) (l : link)
    (ad : gmap string domain_record) (k : string) (r : domain_record) :
  ad !! k = Some r ->
  exists r',
    snd (fst (Checker.check_link_status W l ad)) !! k = Some r'
    /\ Spec.extends l r r'
    /\ (Classifier.extract_domain (link_url l) <> Some k -> r' = r).
Proof.
  intros Hk.
  destruct (check_decompose W l ad)
    as [(o & evs & -> & _)|(d & v & r0 & evs0 & Hd & _ & _ & -> & _)].
  - exists r. split; [exact Hk|]. unfold Spec.extends. tauto.
  - cbn [fst snd].
    destruct (upsert_extends W l d v ad k r Hk) as (r' & H1 & H2 & H3).
    exists r'. split; [exact H1|]. split; [exact H2|].
    intros Hne. apply H3. intros ->. apply Hne. exact Hd.
Qed.

Lemma X12_check_only_extends_records_witness :
  exists r',
    snd (fst (Checker.check_link_status Spec.dead_world Spec.sample_link
                                        Spec.sample_store))
      !! "gone.example.com" = Some r'
    /\ Spec.extends Spec.sample_link Spec.sample_record r'
    /\ (Classifier.extract_domain (link_url Spec.sample_link)
        <> Some "gone.example.com" -> r' = Spec.sample_record).
Proof.
  refine (X12_check_only_extends_records Spec.dead_world Spec.sample_link
            Spec.sample_store "gone.example.com" Spec.sample_record _).
  vm_compute. reflexivity.
Defined.

(** X13: the first discovery of an available domain files a new record
    under the domain: it carries the status and details of the verdict,
    the present moment as date of discovery, and the link as its only
    source. *)
Theorem X13_first_discovery_creates_the_record (W : world) (l : link)
    (ad : gmap string domain_record) (r : link_record) (di : domain_info) :
  fst (fst (Checker.check_link_status W l ad)) = Returns r ->
  lr_domain r = Some di ->
  di_available di = true ->
  ad !! di_domain di = None ->
  snd (fst (Checker.check_link_status W l ad))
  = <[di_domain di := Spec.first_record W l di]> ad.
Proof.
  intros Hr Hd Ha Hnone.
  destruct (check_decompose W l ad)
    as [(o & evs & E & _ & Hno)|(d & v & r0 & evs0 & _ & _ & _ & E & _ & Hd0)];
    rewrite E in Hr |- *; cbn [fst snd] in Hr |- *.
  - destruct (Hno r di Hr Hd Ha).
  - injection Hr as ->. rewrite Hd0 in Hd. injection Hd as <-.
    cbn [di_domain] in Hnone. rewrite upsert_spec. cbv zeta.
    rewrite Hnone. reflexivity.
Qed.

Lemma X13_first_discovery_creates_the_record_witness :
  snd (fst (Checker.check_link_status Spec.dead_world Spec.sample_link ∅))
  = <["gone.example.com" :=
        {| dr_domain := "gone.example.com";
           dr_status := "No DNS record found";
           dr_details := [];
           dr_found_on := 1000;
           dr_sources := [Checker.source_of Spec.sample_link] |}]> ∅.
Proof.
  refine (X13_first_discovery_creates_the_record
            Spec.dead_world Spec.sample_link ∅ _
            {| di_domain := "gone.example.com"; di_available := true;
               di_status := "No DNS record found"; di_details := [] |}
            _ _ _ _).
  - vm_compute. reflexivity.
  - reflexivity.
  - reflexivity.
  - reflexivity.
Defined.

(** ** More on the crawl orchestrator *)

Section ArticleTraceFacts.
Import PyStr Classifier Prober Checker Orchestrator.

Variable f : event -> bool.
Hypothesis f_head : forall u, f (EvHead u) = false.
Hypothesis f_get : forall u, f (EvGet u) = false.
Hypothesis f_whois : forall d, f (EvWhois d) = false.
Hypothesis f_dns : forall d, f (EvDns d) = false.
Hypothesis f_save_domains : f EvSaveDomains = false.
Hypothesis f_save_results : f EvSaveResults = false.
Hypothesis f_fetch : forall u, f (EvFetch u) = false.
Hypothesis f_error : forall m, f (EvError m) = false.

Lemma upsert_filter (W : world) (l : link) (d : string) (v : verdict)
    (ad : gmap string domain_record) :
  List.filter f (snd (upsert_domain W l d v ad)) = [].
Proof.
  rewrite upsert_spec. cbv zeta. destruct (existsb _ _); simpl;
    rewrite ?f_save_domains; reflexivity.
Qed.

Lemma check_filter (W : world) (l : link) (ad : gmap string domain_record) :
  List.filter f (snd (check_link_status W l ad)) = [].
Proof.
  unfold check_link_status.
  pose proof (probe_filter f f_head f_get W (link_url l)) as Hp.
  destruct (probe_status W (link_url l)) as [st evs]. cbn [snd] in Hp.
  destruct (is_dead st); [|exact Hp].
  destruct (extract_domain (link_url l)) as [[|c d]|]; try exact Hp.
  pose proof (prober_filter f f_whois f_dns W (Some (String c d))) as Hq.
  destruct (check_domain_availability W (Some (String c d)))
    as [[v|e] evs2]; cbn [snd] in Hq.
  - destruct (available v && negb (is_excluded_domain (Some (String c d)))).
    + pose proof (upsert_filter W l (String c d) v ad) as Hu.
      destruct (upsert_domain W l (String c d) v ad) as [ad' evs3].
      cbn [snd] in *. rewrite !List.filter_app, Hp, Hq, Hu. reflexivity.
    + cbn [snd]. rewrite List.filter_app, Hp, Hq. reflexivity.
  - cbn [snd]. rewrite List.filter_app, Hp, Hq. reflexivity.
Qed.

Lemma run_checks_filter (W : world) (links : list link) :
  forall ad, List.filter f (snd (run_checks W links ad)) = [].
Proof.
  induction links as [|l rest IH]; intros ad; [reflexivity|].
  simpl.
  pose proof (check_filter W l ad) as H1.
  destruct (check_link_status W l ad) as [[o ad1] ev1]. cbn [snd] in H1.
  specialize (IH ad1).
  destruct (run_checks W rest ad1) as [[os ad2] ev2]. cbn [snd] in *.
  rewrite List.filter_app, H1, IH. reflexivity.
Qed.

Lemma drain_filter (title article_url : string)
    (os : list (outcome link_record)) :
  forall res dead,
    List.filter f (snd (drain title article_url os res dead)) = [].
Proof.
  induction os as [|o os IH]; intros res dead; [reflexivity|].
  simpl. destruct o as [r|e]; [|reflexivity].
  destruct (is_dead (lr_status_code r)); [|apply IH].
  specialize (IH (<[link_id (lr_url (in_article title article_url r))
                            article_url := in_article title article_url r]> res)
                 (dead ++ [in_article title article_url r])).
  destruct (drain title article_url os _ _) as [[o' res'] evs].
  cbn [snd] in *. simpl. rewrite f_save_results. exact IH.
Qed.

Lemma process_article_filter (W : world) (article_url : string)
    (article_title : option string) (s : finder_state) :
  List.filter f (snd (process_article W article_url article_title s)) = [].
Proof.
  unfold process_article.
  destruct (fetch_page W article_url) as [code soup|msg];
    [|simpl; rewrite f_fetch, f_error; reflexivity].
  destruct (negb (code =? 200));
    [simpl; rewrite f_fetch, f_error; reflexivity|].
  set (title := match article_title with
                | None | Some EmptyString => page_heading soup
                | Some t => t end).
  set (links := List.map (annotate title article_url)
                         (Extractor.extract_external_links soup)).
  pose proof (run_checks_filter W links (available_domains s)) as H1.
  destruct (run_checks W links (available_domains s)) as [[os ad'] ev1].
  pose proof (drain_filter title article_url os (results s) []) as H2.
  destruct (drain title article_url os (results s) []) as [[o res'] ev2].
  cbn [snd] in *.
  destruct o; cbn [snd]; simpl; rewrite f_fetch;
    rewrite ?List.filter_app, H1, H2; simpl; rewrite ?f_error; reflexivity.
Qed.

End ArticleTraceFacts.

Section OrchestratorFacts.
Import PyStr Classifier Prober Checker Orchestrator.

Lemma app_inv_tail_str (s : string) :
  forall a b, a +:+ s = b +:+ s -> a = b.
Proof.
  intros a b H. apply (f_equal String.rev) in H.
  rewrite !rev_app_distr in H.
  assert (Hh : forall p x y, p +:+ x = p +:+ y -> x = y).
  { induction p as [|c p IH]; intros x y E; [exact E|].
    rewrite !app_cons in E. injection E as E. exact (IH x y E). }
  apply Hh in H. rewrite <- (rev_involutive a), H. apply rev_involutive.
Qed.

Lemma link_id_inj (u1 u2 a : string) :
  link_id u1 a = link_id u2 a -> u1 = u2.
Proof. apply app_inv_tail_str. Qed.

(** The loop over the completed checks files what it returns. *)
Lemma drain_files (title article_url : string)
    (os : list (outcome link_record)) :
  forall res dead dead',
    fst (fst (drain title article_url os res dead)) = Returns dead' ->
    (forall r, In r dead -> Spec.filed title article_url res dead r) ->
    forall r, In r dead' ->
      Spec.filed title article_url
        (snd (fst (drain title article_url os res dead))) dead' r.
Proof.
  induction os as [|o os IH]; intros res dead dead' Hret Hinv.
  - simpl in *. injection Hret as <-. exact Hinv.
  - simpl in *. destruct o as [r0|e]; [|discriminate Hret].
    destruct (is_dead (lr_status_code r0)) eqn:Hd0; [|apply IH; assumption].
    set (r0' := in_article title article_url r0) in *.
    specialize (IH (<[link_id (lr_url r0') article_url := r0']> res)
                   (dead ++ [r0']) dead').
    destruct (drain title article_url os _ _) as [[o' res'] evs].
    cbn [fst snd] in *. apply IH; [exact Hret|].
    intros r Hr. apply in_app_iff in Hr as [Hr|[<-|[]]].
    + destruct (Hinv r Hr) as (H1 & H2 & H3 & r' & Hr' & Hl & Hu).
      split; [exact H1|]. split; [exact H2|]. split; [exact H3|].
      destruct (decide (link_id (lr_url r0') article_url
                        = link_id (lr_url r) article_url)) as [E|E].
      * exists r0'. split; [apply in_app_iff; right; left; reflexivity|].
        rewrite E, lookup_insert_eq. split; [reflexivity|].
        exact (link_id_inj _ _ _ E).
      * exists r'. split; [apply in_app_iff; left; exact Hr'|].
        rewrite lookup_insert_ne by exact E. split; assumption.
    + split; [exact Hd0|]. split; [reflexivity|]. split; [reflexivity|].
      exists r0'. split; [apply in_app_iff; right; left; reflexivity|].
      rewrite lookup_insert_eq. split; reflexivity.
Qed.

(** The check of a dead link whose domain has no WHOIS record and whose
    DNS lookup fails otherwise than with [gaierror] raises. *)
Lemma check_raises (W : world) (l : link) (ad : gmap string domain_record)
    (d e m : string) :
  is_dead (fst (probe_status W (link_url l))) = true ->
  extract_domain (link_url l) = Some d ->
  truthy (Some d) = true ->
  is_excluded_domain (Some d) = false ->
  is_restricted_tld (Some d) = false ->
  whois_lookup W d = WhoisNoRecord m ->
  dns_lookup W d = DnsFailure e ->
  fst (fst (check_link_status W l ad)) = Raises e.
Proof.
  intros Hdead Hd Ht He Hr Hw Hdns. unfold check_link_status.
  destruct (probe_status W (link_url l)) as [st evs]. cbn [fst] in Hdead.
  rewrite Hdead, Hd. destruct d as [|c d]; [discriminate Ht|].
  rewrite check_nonempty by exact Ht. rewrite He, Hr, Hw.
  unfold dns_fallback. rewrite Hdns. reflexivity.
Qed.

Lemma run_checks_outcomes (W : world) (links : list link) (l : link) :
  In l links ->
  forall ad, exists ad',
    In (fst (fst (check_link_status W l ad')))
       (fst (fst (run_checks W links ad))).
Proof.
  induction links as [|l0 rest IH]; intros Hin ad; [destruct Hin|].
  simpl. destruct Hin as [->|Hin].
  - exists ad. destruct (check_link_status W l ad) as [[o ad1] ev1].
    destruct (run_checks W rest ad1) as [[os ad2] ev2]. left. reflexivity.
  - destruct (check_link_status W l0 ad) as [[o ad1] ev1].
    destruct (IH Hin ad1) as [ad' H]. exists ad'.
    destruct (run_checks W rest ad1) as [[os ad2] ev2]. right. exact H.
Qed.

Lemma drain_raises (title article_url : string)
    (os : list (outcome link_record)) (e : string) :
  In (Raises e) os ->
  forall res dead, exists e',
    fst (fst (drain title article_url os res dead)) = Raises e'.
Proof.
  induction os as [|o os IH]; intros Hin res dead; [destruct Hin|].
  simpl. destruct o as [r|e0]; [|exists e0; reflexivity].
  destruct Hin as [Hin|Hin]; [discriminate Hin|].
  destruct (is_dead (lr_status_code r)); [|apply IH; exact Hin].
  destruct (IH Hin (<[link_id (lr_url (in_article title article_url r))
                              article_url := in_article title article_url r]> res)
               (dead ++ [in_article title article_url r])) as [e' He'].
  exists e'. destruct (drain title article_url os _ _) as [[o' res'] evs].
  exact He'.
Qed.

Lemma grows_refl (r : domain_record) : Spec.grows r r.
Proof.
  unfold Spec.grows. repeat split. exists []. symmetry. apply app_nil_r.
Qed.

Lemma grows_trans (a b c : domain_record) :
  Spec.grows a b -> Spec.grows b c -> Spec.grows a c.
Proof.
  intros (A1 & A2 & A3 & A4 & m1 & A5) (B1 & B2 & B3 & B4 & m2 & B5).
  unfold Spec.grows. repeat split; try congruence.
  exists (m1 ++ m2). rewrite B5, A5, List.app_assoc. reflexivity.
Qed.

Lemma extends_grows (l : link) (r r' : domain_record) :
  Spec.extends l r r' -> Spec.grows r r'.
Proof.
  intros (H1 & H2 & H3 & H4 & [H5|H5]); unfold Spec.grows;
    repeat split; try assumption.
  - exists []. rewrite H5. symmetry. apply app_nil_r.
  - exists [source_of l]. exact H5.
Qed.

Lemma check_grows (W : world) (l : link) (ad : gmap string domain_record)
    (k : string) (r : domain_record) :
  ad !! k = Some r ->
  exists r', snd (fst (check_link_status W l ad)) !! k = Some r'
             /\ Spec.grows r r'.
Proof.
  intros Hk.
  destruct (check_decompose W l ad)
    as [(o & evs & -> & _)|(d & v & r0 & evs0 & _ & _ & _ & -> & _)].
  - exists r. split; [exact Hk|apply grows_refl].
  - cbn [fst snd].
    destruct (upsert_extends W l d v ad k r Hk) as (r' & H1 & H2 & _).
    exists r'. split; [exact H1|]. exact (extends_grows l r r' H2).
Qed.

Lemma run_checks_grows (W : world) (links : list link) :
  forall ad k r, ad !! k = Some r ->
    exists r', snd (fst (run_checks W links ad)) !! k = Some r'
               /\ Spec.grows r r'.
Proof.
  induction links as [|l rest IH]; intros ad k r Hk.
  - exists r. split; [exact Hk|apply grows_refl].
  - simpl. destruct (check_grows W l ad k r Hk) as (r1 & H1 & G1).
    destruct (check_link_status W l ad) as [[o ad1] ev1]. cbn [fst snd] in H1.
    destruct (IH ad1 k r1 H1) as (r2 & H2 & G2).
    destruct (run_checks W rest ad1) as [[os ad2] ev2]. cbn [fst snd] in *.
    exists r2. split; [exact H2|]. exact (grows_trans r r1 r2 G1 G2).
Qed.

Lemma drain_keeps_keys (title article_url : string)
    (os : list (outcome link_record)) :
  forall res dead k, is_Some (res !! k) ->
    is_Some (snd (fst (drain title article_url os res dead)) !! k).
Proof.
  induction os as [|o os IH]; intros res dead k Hk; [exact Hk|].
  simpl. destruct o as [r|e]; [|exact Hk].
  destruct (is_dead (lr_status_code r)); [|apply IH; exact Hk].
  specialize (IH (<[link_id (lr_url (in_article title article_url r))
                            article_url := in_article title article_url r]> res)
                 (dead ++ [in_article title article_url r]) k).
  destruct (drain title article_url os _ _) as [[o' res'] evs].
  cbn [fst snd] in *. apply IH. rewrite lookup_insert_is_Some.
  destruct (decide (link_id (lr_url (in_article title article_url r))
                            article_url = k)); [left|right]; auto.
Qed.

Lemma state_grows_refl (s : finder_state) : Spec.state_grows s s.
Proof.
  split; [|tauto]. intros k r H. exists r. split; [exact H|apply grows_refl].
Qed.

Lemma state_grows_trans (a b c : finder_state) :
  Spec.state_grows a b -> Spec.state_grows b c -> Spec.state_grows a c.
Proof.
  intros [A1 A2] [B1 B2]. split.
  - intros k r H. destruct (A1 k r H) as (r1 & H1 & G1).
    destruct (B1 k r1 H1) as (r2 & H2 & G2).
    exists r2. split; [exact H2|]. exact (grows_trans r r1 r2 G1 G2).
  - intros k H. exact (B2 k (A2 k H)).
Qed.

Lemma process_article_grows (W : world) (article_url : string)
    (article_title : option string) (s : finder_state) :
  Spec.state_grows s
    (snd (fst (process_article W article_url article_title s))).
Proof.
  unfold process_article.
  destruct (fetch_page W article_url) as [code soup|msg];
    [|apply state_grows_refl].
  destruct (negb (code =? 200)); [apply state_grows_refl|].
  set (title := match article_title with
                | None | Some EmptyString => page_heading soup
                | Some t => t end).
  set (links := List.map (annotate title article_url)
                         (Extractor.extract_external_links soup)).
  pose proof (run_checks_grows W links (available_domains s)) as H1.
  destruct (run_checks W links (available_domains s)) as [[os ad'] ev1].
  pose proof (drain_keeps_keys title article_url os (results s) []) as H2.
  destruct (drain title article_url os (results s) []) as [[o res'] ev2].
  cbn [fst snd] in *. destruct o; split; assumption.
Qed.

Lemma batch_loop_grows (W : nat -> world) (progress_bar : bool) (n : nat)
    (pages : list page) :
  forall i s all_dead_links processed_count,
    Spec.state_grows s
      (snd (fst (batch_loop W progress_bar n i pages s all_dead_links
                            processed_count))).
Proof.
  induction pages as [|pg rest IH]; intros i s dl pc;
    [apply state_grows_refl|].
  simpl.
  pose proof (process_article_grows (W i) (page_url pg)
                (Some (page_title pg)) s) as H1.
  destruct (process_article (W i) (page_url pg) (Some (page_title pg)) s)
    as [[dead s1] ev1]. cbn [fst snd] in H1.
  specialize (IH (S i) s1 (dl ++ dead) (S pc)).
  destruct (batch_loop W progress_bar n (S i) rest s1 (dl ++ dead) (S pc))
    as [[r s2] ev2]. cbn [fst snd] in *.
  exact (state_grows_trans s s1 s2 H1 IH).
Qed.

Lemma batch_loop_pacing (W : nat -> world) (progress_bar : bool) (n : nat)
    (pages : list page) :
  forall i s all_dead_links processed_count,
    Spec.pacing (snd (batch_loop W progress_bar n i pages s all_dead_links
                                 processed_count))
    = List.flat_map (Spec.page_pacing progress_bar n)
                    (List.combine (List.seq i (length pages)) pages).
Proof.
  induction pages as [|pg rest IH]; intros i s dl pc; [reflexivity|].
  simpl.
  pose proof (process_article_filter
                (fun e => match e with
                          | EvWrite _ _ _ | EvProgress _ _ | EvSleep => true
                          | _ => false
                          end)
                (fun _ => eq_refl) (fun _ => eq_refl) (fun _ => eq_refl)
                (fun _ => eq_refl) eq_refl eq_refl (fun _ => eq_refl)
                (fun _ => eq_refl)
                (W i) (page_url pg) (Some (page_title pg)) s) as H1.
  destruct (process_article (W i) (page_url pg) (Some (page_title pg)) s)
    as [[dead s1] ev1]. cbn [snd] in H1.
  specialize (IH (S i) s1 (dl ++ dead) (S pc)).
  destruct (batch_loop W progress_bar n (S i) rest s1 (dl ++ dead) (S pc))
    as [[r s2] ev2]. cbn [fst snd] in *.
  unfold Spec.pacing in *. simpl. rewrite !List.filter_app, H1. simpl.
  rewrite IH. unfold Spec.page_pacing. simpl.
  destruct progress_bar; reflexivity.
Qed.

End OrchestratorFacts.

(** X14: when the article cannot be retrieved (the request raises, or
    the status is not 200), [process_article] returns an empty list,
    leaves both maps as they were, checks no link, and reports one
    error after its single request. *)
Theorem X14_unreachable_article (W : world) (article_url : string)
    (article_title : option string) (s : finder_state) :
  (forall soup, fetch_page W article_url <> PageResponse 200 soup) ->
  let run := Orchestrator.process_article W article_url article_title s in
  fst (fst run) = [] /\ snd (fst run) = s
  /\ Spec.http_requests (snd run) = []
  /\ exists msg, snd run = [EvFetch article_url; EvError msg].
Proof.
  intros Hf. cbv zeta. unfold Orchestrator.process_article.
  destruct (fetch_page W article_url) as [code soup|msg].
  - destruct (code =? 200) eqn:E.
    + apply Z.eqb_eq in E. subst code. destruct (Hf soup eq_refl).
    + cbn. repeat split. eexists. reflexivity.
  - cbn. repeat split. eexists. reflexivity.
Qed.

Lemma X14_unreachable_article_witness :
  let run := Orchestrator.process_article Spec.offline_world
               "https://en.wikipedia.org/wiki/Sample" None Spec.empty_state in
  fst (fst run) = [] /\ snd (fst run) = Spec.empty_state
  /\ Spec.http_requests (snd run) = []
  /\ exists msg,
       snd run = [EvFetch "https://en.wikipedia.org/wiki/Sample"; EvError msg].
Proof.
  refine (X14_unreachable_article Spec.offline_world
            "https://en.wikipedia.org/wiki/Sample" None Spec.empty_state _).
  intros soup. simpl. discriminate.
Defined.

(** X15: every record [process_article] returns is a dead link (a
    string status or a code of 400 or more), carries the title and the
    URL of the article, and a returned record with its URL is filed in
    the results map under the key made of its URL, an underscore and the
    article URL. *)
Theorem X15_returned_links_are_filed (W : world) (article_url title : string)
    (s : finder_state) (r : link_record) :
  title <> EmptyString ->
  let run := Orchestrator.process_article W article_url (Some title) s in
  In r (fst (fst run)) ->
  Spec.filed title article_url (results (snd (fst run))) (fst (fst run)) r.
Proof.
  intros Ht. cbv zeta. unfold Orchestrator.process_article.
  destruct (fetch_page W article_url) as [code soup|msg]; [|intros []].
  destruct (negb (code =? 200)); [intros []|].
  destruct title as [|c t]; [congruence|].
  destruct (Orchestrator.run_checks W _ (available_domains s))
    as [[os ad'] ev1].
  pose proof (drain_files (String c t) article_url os (results s) []) as H.
  destruct (Orchestrator.drain (String c t) article_url os (results s) [])
    as [[o res'] ev2].
  cbn [fst snd] in *. destruct o as [dead|e]; cbn [fst snd results].
  - apply (H dead eq_refl). intros r0 [].
  - intros [].
Qed.

Lemma X15_returned_links_are_filed_witness :
  let run := Orchestrator.process_article Spec.dead_world
               "https://en.wikipedia.org/wiki/Sample" (Some "Sample")
               Spec.empty_state in
  Spec.filed "Sample" "https://en.wikipedia.org/wiki/Sample"
             (results (snd (fst run))) (fst (fst run))
             Spec.sample_dead_record.
Proof.
  refine (X15_returned_links_are_filed Spec.dead_world
            "https://en.wikipedia.org/wiki/Sample" "Sample"
            Spec.empty_state Spec.sample_dead_record _ _).
  - discriminate.
  - vm_compute. left. reflexivity.
Defined.

(** X16: one failing check hides every dead link of the article. If
    the page has a dead external link whose domain passes the
    classifiers, has no WHOIS record and makes the resolver fail with
    something other than [gaierror], [process_article] returns an empty
    list and reports the error, whatever the other links are. *)
Theorem X16_one_failing_check_hides_all (W : world)
    (article_url : string) (article_title : option string)
    (s : finder_state) (soup : list node) (l : link) (d e m : string) :
  fetch_page W article_url = PageResponse 200 soup ->
  In l (Extractor.extract_external_links soup) ->
  Checker.is_dead (fst (Checker.probe_status W (link_url l))) = true ->
  Classifier.extract_domain (link_url l) = Some d ->
  PyStr.truthy (Some d) = true ->
  Classifier.is_excluded_domain (Some d) = false ->
  Classifier.is_restricted_tld (Some d) = false ->
  whois_lookup W d = WhoisNoRecord m ->
  dns_lookup W d = DnsFailure e ->
  let run := Orchestrator.process_article W article_url article_title s in
  fst (fst run) = []
  /\ exists e', In (EvError ("Error processing article: " +:+ e')) (snd run).
Proof.
  intros Hf Hin Hdead Hd Ht He Hr Hw Hdns. cbv zeta.
  unfold Orchestrator.process_article. rewrite Hf.
  change (negb (200 =? 200)) with false. cbv iota.
  set (title := match article_title with
                | None | Some EmptyString => Orchestrator.page_heading soup
                | Some t => t end).
  assert (Hin' : In (Orchestrator.annotate title article_url l)
                    (List.map (Orchestrator.annotate title article_url)
                              (Extractor.extract_external_links soup)))
    by (apply in_map; exact Hin).
  destruct (run_checks_outcomes W _ _ Hin' (available_domains s))
    as [ad0 Hout].
  rewrite (check_raises W (Orchestrator.annotate title article_url l) ad0
             d e m Hdead Hd Ht He Hr Hw Hdns) in Hout.
  destruct (Orchestrator.run_checks W _ (available_domains s))
    as [[os ad'] ev1]. cbn [fst] in Hout.
  destruct (drain_raises title article_url os e Hout (results s) [])
    as [e' He'].
  destruct (Orchestrator.drain title article_url os (results s) [])
    as [[o res'] ev2]. cbn [fst] in He'. subst o. cbn [fst snd].
  split; [reflexivity|]. exists e'. right.
  apply in_app_iff. right. apply in_app_iff. right. left. reflexivity.
Qed.

Lemma X16_one_failing_check_hides_all_witness :
  let run := Orchestrator.process_article Spec.flaky_dns_world
               "https://en.wikipedia.org/wiki/Sample" None
               Spec.empty_state in
  fst (fst run) = []
  /\ exists e', In (EvError ("Error processing article: " +:+ e')) (snd run).
Proof.
  refine (X16_one_failing_check_hides_all Spec.flaky_dns_world
            "https://en.wikipedia.org/wiki/Sample" None Spec.empty_state
            Spec.sample_page
            {| link_url := "http://gone.example.com/page";
               link_text := "Gone";
               link_article_title := None; link_article_url := None |}
            "gone.example.com" "timed out" "No match for domain"
            _ _ _ _ _ _ _ _ _).
  - reflexivity.
  - vm_compute. left. reflexivity.
  - vm_compute. reflexivity.
  - vm_compute. reflexivity.
  - reflexivity.
  - vm_compute. reflexivity.
  - vm_compute. reflexivity.
  - reflexivity.
  - reflexivity.
Defined.

(** X17: a negative [max_pages] cuts pages off the end of the list:
    the pages processed are all but the last [-max_pages], none when
    the list is that short. *)
Theorem X17_negative_max_pages_drops_the_tail (W : nat -> world)
    (pages : list page) (progress_bar : bool) (s : finder_state) (n : Z) :
  n < 0 ->
  let run := Orchestrator.batch_process_articles W pages (Some n)
                                                 progress_bar s in
  snd (fst (fst run)) = (length pages - Z.to_nat (- n))%nat
  /\ Orchestrator.fetched (snd run)
     = List.map page_url (take (length pages - Z.to_nat (- n)) pages).
Proof.
  intros Hn. cbv zeta. unfold Orchestrator.batch_process_articles.
  assert (Ht : Orchestrator.truncate (Some n) pages
               = take (length pages - Z.to_nat (- n)) pages).
  { unfold Orchestrator.truncate, Orchestrator.slice_to.
    destruct n as [|p|p]; try lia. reflexivity. }
  rewrite Ht. split.
  - rewrite batch_loop_count, length_take. lia.
  - apply batch_loop_fetched.
Qed.

Lemma X17_negative_max_pages_drops_the_tail_witness :
  snd (fst (fst (Orchestrator.batch_process_articles
                   (fun _ => Spec.dead_world) Spec.sample_pages (Some (-1))
                   false Spec.empty_state)))
  = 1%nat.
Proof.
  refine (proj1 (X17_negative_max_pages_drops_the_tail
                   (fun _ => Spec.dead_world) Spec.sample_pages false
                   Spec.empty_state (-1) _)).
  reflexivity.
Defined.

(** X18: the pacing of a batch: for each page processed, in order, one
    progress line that numbers the page from 1 over the number of pages
    kept, one update of the progress bar when a bar is given, and one
    pause; nothing else of that kind. *)
Theorem X18_batch_pacing (W : nat -> world) (pages : list page)
    (max_pages : option Z) (progress_bar : bool) (s : finder_state) :
  let kept := Orchestrator.truncate max_pages pages in
  Spec.pacing (snd (Orchestrator.batch_process_articles
                      W pages max_pages progress_bar s))
  = List.flat_map (Spec.page_pacing progress_bar (length kept))
                  (List.combine (List.seq 0 (length kept)) kept).
Proof.
  cbv zeta. unfold Orchestrator.batch_process_articles.
  apply batch_loop_pacing.
Qed.

(** X19: processing never removes anything. After an article, and
    after a batch, every key of the results map is still a key, and
    every record of the available-domains map is still there with its
    domain, status, details and date of discovery; its sources have only
    been appended to. *)
Theorem X19_stores_only_grow (s : finder_state) :
  (forall W article_url article_title,
     Spec.state_grows s
       (snd (fst (Orchestrator.process_article W article_url
                                               article_title s))))
  /\ (forall W pages max_pages progress_bar,
        Spec.state_grows s
          (snd (fst (Orchestrator.batch_process_articles
                       W pages max_pages progress_bar s)))).
Proof.
  split.
  - intros W article_url article_title. apply process_article_grows.
  - intros W pages max_pages progress_bar. apply batch_loop_grows.
Qed.

(** ** A host with a port *)

Section PortFacts.
Import PyStr Classifier.

(** Text without the separator, appended, stays in the last field. *)
Lemma split_last_app (sep : ascii) (b : string) :
  contains sep b = false ->
  forall a, exists init x,
    split sep a = init ++ [x] /\ split sep (a +:+ b) = init ++ [x +:+ b].
Proof.
  intros Hb. induction a as [|c a (init & x & E1 & E2)].
  - exists [], EmptyString. split; [reflexivity|].
    change (EmptyString +:+ b) with b. rewrite split_without by exact Hb.
    reflexivity.
  - rewrite app_cons. simpl. rewrite E1, E2.
    destruct (bool_decide (c = sep)).
    + exists (EmptyString :: init), x. split; reflexivity.
    + destruct init as [|i0 init]; simpl.
      * exists [], (String c x). split; reflexivity.
      * exists (String c i0 :: init), x. split; reflexivity.
Qed.

Lemma colon_not_restricted (y : string) :
  contains ":" y = true ->
  mem y top_level_restricted = false /\ mem y restricted_tlds = false.
Proof.
  intros Hy. split.
  - destruct (mem y top_level_restricted) eqn:E; [|reflexivity].
    apply mem_true in E. unfold top_level_restricted in E. simpl in E.
    repeat (destruct E as [E|E];
            [rewrite <- E in Hy; vm_compute in Hy; discriminate Hy|]).
    destruct E.
  - destruct (mem y restricted_tlds) eqn:E; [|reflexivity].
    apply mem_true in E. unfold restricted_tlds in E. simpl in E.
    repeat (destruct E as [E|E];
            [rewrite <- E in Hy; vm_compute in Hy; discriminate Hy|]).
    destruct E.
Qed.

Lemma join_last_contains (c : ascii) (init : list string) (y : string) :
  contains c y = true ->
  contains c (join "." (last_n 2 (init ++ [y]))) = true.
Proof.
  intros Hy. destruct init as [|i0 init] using rev_ind.
  - exact Hy.
  - rewrite <- List.app_assoc. change ([i0] ++ [y]) with [i0; y].
    replace (last_n 2 (init ++ [i0; y])) with [i0; y]
      by (symmetry; apply (last_n_app init [i0; y])).
    change (join "." [i0; y]) with (i0 +:+ "." +:+ y).
    rewrite !contains_app, Hy, !orb_true_r. reflexivity.
Qed.

End PortFacts.

(** X20: a host followed by a port is never restricted: the port stays
    in the last label, and no entry of the lists has a colon. *)
Theorem X20_host_with_port_is_not_restricted (d port : string) :
  PyStr.contains "." port = false ->
  Classifier.is_restricted_tld (Some (d +:+ ":" +:+ port)) = false.
Proof.
  intros Hp. rewrite restricted_unfold by apply app_sep_nonempty.
  cbv zeta. rewrite lower_app.
  change (PyStr.lower (":" +:+ port)) with (String ":"%char (PyStr.lower port)).
  assert (Hb : PyStr.contains "." (String ":"%char (PyStr.lower port)) = false).
  { simpl. rewrite contains_dot_lower. exact Hp. }
  destruct (split_last_app "." _ Hb (PyStr.lower d)) as (init & x & _ & ->).
  assert (Hc : PyStr.contains ":" (x +:+ String ":"%char (PyStr.lower port))
               = true).
  { rewrite contains_app. simpl. apply orb_true_r. }
  unfold PyStr.last_or. rewrite last_last.
  destruct (colon_not_restricted _ Hc) as [-> _].
  destruct (colon_not_restricted _ (join_last_contains ":" init _ Hc))
    as [_ ->].
  rewrite andb_false_r. destruct (_ <? _)%nat; reflexivity.
Qed.

Lemma X20_host_with_port_is_not_restricted_witness :
  Classifier.is_restricted_tld (Some ("www.mit.edu" +:+ ":" +:+ "8080"))
  = false.
Proof.
  refine (X20_host_with_port_is_not_restricted "www.mit.edu" "8080" _).
  reflexivity.
Defined.

(** ** Category pages *)

Section CategoryFacts.
Import PyStr Html Orchestrator Category.

Lemma page_of_item_In (urljoin : string -> string -> string) (item : node)
    (pg : page) :
  In pg (page_of_item urljoin item) ->
  exists href,
    page_url pg = urljoin base_url href
    /\ startswith href "/wiki/" = true
    /\ has_substring "Category:" href = false
    /\ has_substring "File:" href = false.
Proof.
  unfold page_of_item.
  destruct (List.find _ _) as [link|]; [|intros []].
  destruct (attr "href" _) as [href|]; [|intros []].
  destruct (attr "title" _) as [title|]; [|intros []].
  destruct (has_substring "Category:" href) eqn:Hc; [intros []|].
  destruct (has_substring "File:" href) eqn:Hf; [intros []|].
  destruct (startswith href "/wiki/") eqn:Hw; [|intros []].
  intros [<-|[]]. exists href. repeat split; assumption.
Qed.

Lemma get_pages_fetched (urljoin : string -> string -> string) (W : world)
    (category_url : string) :
  fetched (snd (get_pages_in_category urljoin W category_url))
  = [category_url].
Proof.
  unfold get_pages_in_category.
  destruct (fetch_page W category_url) as [code soup|msg]; [|reflexivity].
  destruct (find_doc _ soup) as [[p div]|]; reflexivity.
Qed.

Lemma crawl_count_and_requests (urljoin : string -> string -> string)
    (W0 : world) (W : nat -> world) (category_url : string)
    (max_pages : option Z) (progress_bar : bool) (s : finder_state) :
  let pages := fst (get_pages_in_category urljoin W0 category_url) in
  let kept := truncate max_pages pages in
  let run := crawl_category urljoin W0 W category_url max_pages
                            progress_bar s in
  snd (fst (fst run)) = length kept
  /\ fetched (snd run) = category_url :: List.map page_url kept.
Proof.
  cbv zeta. unfold crawl_category.
  pose proof (get_pages_fetched urljoin W0 category_url) as H0.
  destruct (get_pages_in_category urljoin W0 category_url) as [pages ev0].
  cbn [fst snd] in *. unfold batch_process_articles.
  pose proof (batch_loop_count W progress_bar
                (length (truncate max_pages pages)) (truncate max_pages pages)
                O s [] O) as H1.
  pose proof (batch_loop_fetched W progress_bar
                (length (truncate max_pages pages)) (truncate max_pages pages)
                O s [] O) as H2.
  destruct (batch_loop W progress_bar _ O (truncate max_pages pages) s [] O)
    as [[r s'] ev1]. cbn [fst snd] in *.
  split; [exact H1|]. rewrite fetched_app, H0, H2. reflexivity.
Qed.

End CategoryFacts.

(** X21: every page [get_pages_in_category] returns comes from a local
    reference that starts with [/wiki/] and holds neither [Category:]
    nor [File:]; its URL is that reference joined to the base URL. *)
Theorem X21_category_pages_are_articles
    (urljoin : string -> string -> string) (W : world)
    (category_url : string) (pg : page) :
  In pg (fst (Category.get_pages_in_category urljoin W category_url)) ->
  exists href,
    page_url pg = urljoin Category.base_url href
    /\ PyStr.startswith href "/wiki/" = true
    /\ Category.has_substring "Category:" href = false
    /\ Category.has_substring "File:" href = false.
Proof.
  unfold Category.get_pages_in_category.
  destruct (fetch_page W category_url) as [code soup|msg]; [|intros []].
  destruct (Html.find_doc _ soup) as [[p div]|]; [|intros []].
  cbn [fst]. intros H. apply in_flat_map in H as (item & _ & H).
  exact (page_of_item_In urljoin item pg H).
Qed.

Lemma X21_category_pages_are_articles_witness :
  exists href,
    page_url {| page_title := "Sample";
                page_url := "https://en.wikipedia.org/wiki/Sample" |}
    = Spec.sample_urljoin Category.base_url href
    /\ PyStr.startswith href "/wiki/" = true
    /\ Category.has_substring "Category:" href = false
    /\ Category.has_substring "File:" href = false.
Proof.
  refine (X21_category_pages_are_articles Spec.sample_urljoin
            Spec.category_world
            "https://en.wikipedia.org/wiki/Category:Samples"
            {| page_title := "Sample";
               page_url := "https://en.wikipedia.org/wiki/Sample" |} _).
  vm_compute. left. reflexivity.
Defined.

(** X22: [crawl_category] requests the category page and then the
    pages it lists, in order, as far as [max_pages] lets them through;
    [processed_count] is the number of those pages, at most 10 when the
    caller passes no [max_pages]. When the category page cannot be
    retrieved, nothing is processed and the maps are as before. *)
Theorem X22_crawl_category (urljoin : string -> string -> string)
    (W0 : world) (W : nat -> world) (category_url : string)
    (max_pages : option Z) (progress_bar : bool) (s : finder_state) :
  let pages := fst (Category.get_pages_in_category urljoin W0 category_url) in
  let kept := Orchestrator.truncate max_pages pages in
  let run := Category.crawl_category urljoin W0 W category_url max_pages
                                     progress_bar s in
  snd (fst (fst run)) = length kept
  /\ Orchestrator.fetched (snd run) = category_url :: List.map page_url kept
  /\ (snd (fst (fst (Category.crawl_category urljoin W0 W category_url
                       Category.default_max_pages progress_bar s)))
      <= 10)%nat
  /\ match fetch_page W0 category_url with
     | PageError _ => fst (fst run) = ([], O) /\ snd (fst run) = s
     | PageResponse _ _ => True
     end.
Proof.
  cbv zeta.
  destruct (crawl_count_and_requests urljoin W0 W category_url max_pages
              progress_bar s) as [H1 H2].
  split; [exact H1|]. split; [exact H2|]. split.
  - destruct (crawl_count_and_requests urljoin W0 W category_url
                Category.default_max_pages progress_bar s) as [-> _].
    unfold Category.default_max_pages, Orchestrator.truncate,
      Orchestrator.slice_to.
    change (0 <=? 10) with true. cbv iota. rewrite length_take.
    change (Z.to_nat 10) with 10%nat. lia.
  - unfold Category.crawl_category, Category.get_pages_in_category.
    destruct (fetch_page W0 category_url) as [code soup|msg]; [exact I|].
    unfold Orchestrator.batch_process_articles.
    assert (Ht : Orchestrator.truncate max_pages [] = [])
      by (unfold Orchestrator.truncate, Orchestrator.slice_to;
          destruct max_pages as [[|p|p]|]; try reflexivity;
          destruct (_ <=? _); apply take_nil).
    rewrite Ht. split; reflexivity.
Qed.

(** ** Search *)

Section SearchFacts.
Import PyStr Search.

Lemma replace_char_no_space (s : string) :
  contains " " (replace_char " " "_" s) = false.
Proof.
  induction s as [|c s IH]; [reflexivity|].
  simpl. rewrite IH, orb_false_r.
  destruct (bool_decide (c = " "%char)) eqn:E; [reflexivity|].
  exact E.
Qed.

Lemma cut_at_shorter (sep : ascii) (s : string) :
  forall pre post, cut_at sep s = Some (pre, post) ->
    (String.length post < String.length s)%nat.
Proof.
  induction s as [|c s IH]; intros pre post; simpl; [discriminate|].
  destruct (bool_decide (c = sep)).
  - intros [= _ <-]. lia.
  - destruct (cut_at sep s) as [[pre' post']|]; [|discriminate].
    intros [= _ <-]. specialize (IH pre' post' eq_refl). lia.
Qed.

Lemma cut_at_empty (sep : ascii) (s rest : string) :
  cut_at sep s = Some (EmptyString, rest) -> s = String sep rest.
Proof.
  destruct s as [|c s]; simpl; [discriminate|].
  destruct (bool_decide (c = sep)) eqn:E.
  - apply bool_decide_eq_true in E. intros [= <-]. subst. reflexivity.
  - destruct (cut_at sep s) as [[pre' post']|]; discriminate.
Qed.

(** The cleaning makes no [>] appear. *)
Lemma sub_tags_no_close (n : nat) :
  forall s, cut_at ">" s = None -> cut_at ">" (sub_tags n s) = None.
Proof.
  induction n as [|n IH]; intros s H; [exact H|].
  destruct s as [|c s]; [reflexivity|].
  simpl in H. destruct (bool_decide (c = ">"%char)) eqn:Ec; [discriminate H|].
  destruct (cut_at ">" s) as [[pre post]|] eqn:Es; [discriminate H|].
  simpl. rewrite Es.
  destruct (bool_decide (c = "<"%char)); simpl; rewrite Ec, (IH s Es);
    reflexivity.
Qed.

(** With fuel enough, the cleaned text holds no tag. *)
Lemma sub_tags_clean (n : nat) :
  forall s, (String.length s <= n)%nat ->
    Spec.has_tag (sub_tags n s) = false.
Proof.
  induction n as [|n IH]; intros s Hlen.
  - destruct s; [reflexivity|simpl in Hlen; lia].
  - destruct s as [|c s]; [reflexivity|]. simpl in Hlen. simpl.
    assert (Hs : Spec.has_tag (sub_tags n s) = false) by (apply IH; lia).
    destruct (bool_decide (c = "<"%char)) eqn:Ec.
    + destruct (cut_at ">" s) as [[[|a tag] rest]|] eqn:Es.
      * simpl. rewrite Ec, Hs, orb_false_r.
        apply cut_at_empty in Es. subst s.
        destruct n as [|n']; [simpl in Hlen; lia|].
        simpl. reflexivity.
      * apply IH. apply cut_at_shorter in Es. lia.
      * simpl. rewrite Ec, Hs, orb_false_r.
        rewrite (sub_tags_no_close n s Es). reflexivity.
    + simpl. rewrite Ec, Hs. reflexivity.
Qed.

(** A text without a tag is left as it is. *)
Lemma sub_tags_id (n : nat) :
  forall s, Spec.has_tag s = false -> sub_tags n s = s.
Proof.
  induction n as [|n IH]; intros s H; [reflexivity|].
  destruct s as [|c s]; [reflexivity|].
  simpl in H. apply orb_false_iff in H as [H1 H2].
  simpl. rewrite (IH s H2).
  destruct (bool_decide (c = "<"%char)); [|reflexivity].
  simpl in H1.
  destruct (cut_at ">" s) as [[[|a tag] rest]|];
    [reflexivity|discriminate H1|reflexivity].
Qed.

End SearchFacts.

(** X23: the cleaning of a snippet, [re.sub(r'<[^>]+>', '', s)], leaves
    no tag in the text, and leaves a text without a tag as it is; so
    cleaning twice is cleaning once. *)
Theorem X23_strip_tags (s : string) :
  Spec.has_tag (Search.strip_tags s) = false
  /\ (Spec.has_tag s = false <-> Search.strip_tags s = s)
  /\ Search.strip_tags (Search.strip_tags s) = Search.strip_tags s.
Proof.
  assert (H1 : Spec.has_tag (Search.strip_tags s) = false)
    by (apply sub_tags_clean; reflexivity).
  split; [exact H1|]. split.
  - split; [apply sub_tags_id|]. intros E. rewrite <- E. exact H1.
  - apply sub_tags_id. exact H1.
Qed.

(** X24: the two searches return one item for each result of the API
    answer, in order, with the title of the result; the URL of an item
    is the base URL, [/wiki/] and the title with every space replaced by
    an underscore, so that no space is left in it; the snippet of a
    page holds no tag. An exception on the way gives an empty list and
    one report. *)
Theorem X24_search_results (api : api_params -> api_outcome)
    (query : string) (limit : Z) :
  let pages := Search.search_wikipedia_text api query limit in
  let cats := Search.search_categories api query in
  Forall (fun pg =>
            fp_url pg = "https://en.wikipedia.org/wiki/"
                        +:+ Search.replace_char " " "_" (fp_title pg)
            /\ PyStr.contains " " (Search.replace_char " " "_" (fp_title pg))
               = false
            /\ Spec.has_tag (fp_snippet pg) = false)
         (fst pages)
  /\ Forall (fun c =>
               fc_url c = "https://en.wikipedia.org/wiki/"
                          +:+ Search.replace_char " " "_" (fc_title c)
               /\ PyStr.contains " " (Search.replace_char " " "_" (fc_title c))
                  = false)
            (fst cats)
  /\ match api {| srsearch := query; srnamespace := "0"; srlimit := limit |}
     with
     | ApiResults rs =>
         List.map fp_title (fst pages)
         = List.map (fun r => default EmptyString (sr_title r)) rs
         /\ snd pages = []
     | ApiError msg =>
         pages = ([], [EvError ("Error searching Wikipedia: " +:+ msg)])
     end
  /\ match api {| srsearch := "Category:" +:+ query; srnamespace := "14";
                  srlimit := 20 |}
     with
     | ApiResults rs =>
         List.map fc_title (fst cats)
         = List.map (fun r => default EmptyString (sr_title r)) rs
         /\ snd cats = []
     | ApiError msg =>
         cats = ([], [EvError ("Error searching categories: " +:+ msg)])
     end.
Proof.
  cbv zeta. unfold Search.search_wikipedia_text, Search.search_categories.
  split; [|split; [|split]].
  - destruct (api _) as [rs|msg]; [|constructor]. cbn [fst].
    apply List.Forall_forall. intros pg H.
    apply in_map_iff in H as (r & <- & _). cbn.
    split; [reflexivity|]. split; [apply replace_char_no_space|].
    destruct (default EmptyString (sr_snippet r)) as [|c t] eqn:E;
      [reflexivity|].
    apply sub_tags_clean. reflexivity.
  - destruct (api _) as [rs|msg]; [|constructor]. cbn [fst].
    apply List.Forall_forall. intros c H.
    apply in_map_iff in H as (r & <- & _). cbn.
    split; [reflexivity|]. apply replace_char_no_space.
  - destruct (api _) as [rs|msg]; [|reflexivity]. cbn [fst snd].
    split; [|reflexivity]. rewrite List.map_map. reflexivity.
  - destruct (api _) as [rs|msg]; [|reflexivity]. cbn [fst snd].
    split; [|reflexivity]. rewrite List.map_map. reflexivity.
Qed.

(** ** The loaders, again *)

(** X25: what a loader does in every case. An exception leaves it
    exactly when the file exists and reading it fails with something
    other than [JSONDecodeError]; it returns without a report exactly
    the value the file holds, whatever its type, or an empty map for a
    missing file. *)
Theorem X25_loader_outcomes (fs : file_system) (path : string) :
  (forall e,
     fst (Store._load_existing_results fs path) = Raises e
     <-> path_exists fs path = true /\ json_load fs path = JsonOtherError e)
  /\ (forall e,
        fst (Store._load_available_domains fs path) = Raises e
        <-> path_exists fs path = true
            /\ json_load fs path = JsonOtherError e)
  /\ (forall v,
        Store._load_existing_results fs path = (Returns v, [])
        <-> (path_exists fs path = false /\ v = JObject [])
            \/ (path_exists fs path = true /\ json_load fs path = JsonValue v))
  /\ (forall v,
        Store._load_available_domains fs path = (Returns v, [])
        <-> (path_exists fs path = false /\ v = JObject [])
            \/ (path_exists fs path = true
                /\ json_load fs path = JsonValue v)).
Proof.
  unfold Store._load_existing_results, Store._load_available_domains,
    Store.load.
  destruct (path_exists fs path); destruct (json_load fs path) as [v0|m|e0];
    cbn; repeat (split || intro); intuition (discriminate || congruence).
Qed.

(** ** From the page to the two maps *)

Section EndToEndFacts.
Import PyStr Classifier Prober Checker Orchestrator.

Lemma check_heads (W : world) (l : link) (ad : gmap string domain_record) :
  Spec.head_requests (snd (check_link_status W l ad)) = [EvHead (link_url l)].
Proof.
  unfold Spec.head_requests, check_link_status.
  set (f := fun e => match e with EvHead _ => true | _ => false end).
  assert (Hp : List.filter f (snd (probe_status W (link_url l)))
               = [EvHead (link_url l)])
    by (unfold probe_status; destruct (is_dead _); reflexivity).
  destruct (probe_status W (link_url l)) as [st evs]. cbn [snd] in Hp.
  destruct (is_dead st); [|exact Hp].
  destruct (extract_domain (link_url l)) as [[|c d]|]; try exact Hp.
  pose proof (prober_filter f (fun _ => eq_refl) (fun _ => eq_refl)
                W (Some (String c d))) as Hq.
  destruct (check_domain_availability W (Some (String c d)))
    as [[v|e] evs2]; cbn [snd] in Hq.
  - destruct (available v && negb (is_excluded_domain (Some (String c d)))).
    + pose proof (upsert_filter f eq_refl W l (String c d) v ad) as Hu.
      destruct (upsert_domain W l (String c d) v ad) as [ad' evs3].
      cbn [snd] in *. rewrite !List.filter_app, Hp, Hq, Hu. reflexivity.
    + cbn [snd]. rewrite List.filter_app, Hp, Hq. reflexivity.
  - cbn [snd]. rewrite List.filter_app, Hp, Hq. reflexivity.
Qed.

Lemma run_checks_heads (W : world) (links : list link) :
  forall ad,
    Spec.head_requests (snd (run_checks W links ad))
    = List.map (fun l => EvHead (link_url l)) links.
Proof.
  induction links as [|l rest IH]; intros ad; [reflexivity|].
  simpl.
  pose proof (check_heads W l ad) as H1.
  destruct (check_link_status W l ad) as [[o ad1] ev1]. cbn [snd] in H1.
  specialize (IH ad1).
  destruct (run_checks W rest ad1) as [[os ad2] ev2]. cbn [snd] in *.
  unfold Spec.head_requests in *. rewrite List.filter_app, H1, IH.
  reflexivity.
Qed.

Lemma process_article_heads (W : world) (article_url : string)
    (article_title : option string) (s : finder_state) (soup : list node) :
  fetch_page W article_url = PageResponse 200 soup ->
  Spec.head_requests (snd (process_article W article_url article_title s))
  = List.map (fun l => EvHead (link_url l))
             (Extractor.extract_external_links soup).
Proof.
  intros Hf. unfold process_article. rewrite Hf.
  change (negb (200 =? 200)) with false. cbv iota.
  set (title := match article_title with
                | None | Some EmptyString => page_heading soup
                | Some t => t end).
  pose proof (run_checks_heads W
                (List.map (annotate title article_url)
                          (Extractor.extract_external_links soup))
                (available_domains s)) as H1.
  rewrite List.map_map in H1.
  destruct (run_checks W _ (available_domains s)) as [[os ad'] ev1].
  pose proof (drain_filter
                (fun e => match e with EvHead _ => true | _ => false end)
                eq_refl title article_url os (results s) []) as H2.
  destruct (drain title article_url os (results s) []) as [[o res'] ev2].
  cbn [snd] in *. unfold Spec.head_requests in *.
  destruct o; cbn [snd]; simpl; rewrite ?List.filter_app, H1, H2; simpl;
    rewrite ?app_nil_r; reflexivity.
Qed.

Lemma check_url (W : world) (l : link) (ad : gmap string domain_record)
    (r : link_record) :
  fst (fst (check_link_status W l ad)) = Returns r -> lr_url r = link_url l.
Proof.
  unfold check_link_status.
  destruct (probe_status W (link_url l)) as [st evs].
  destruct (is_dead st); [|cbn [fst snd]; intros [= <-]; reflexivity].
  destruct (extract_domain (link_url l)) as [[|c d]|];
    try (cbn [fst snd]; intros [= <-]; reflexivity).
  destruct (check_domain_availability W (Some (String c d))) as [[v|e] evs2].
  - destruct (available v && negb (is_excluded_domain (Some (String c d)))).
    + destruct (upsert_domain W l (String c d) v ad) as [ad' evs3].
      cbn [fst snd]. intros [= <-]. reflexivity.
    + cbn [fst snd]. intros [= <-]. reflexivity.
  - cbn [fst snd]. discriminate.
Qed.

(** After a check that found the domain available, the record of the
    domain lists the link. *)
Lemma check_lists (W : world) (l : link) (ad : gmap string domain_record)
    (r : link_record) (di : domain_info) :
  fst (fst (check_link_status W l ad)) = Returns r ->
  lr_domain r = Some di ->
  di_available di = true ->
  Spec.lists l (snd (fst (check_link_status W l ad))) (di_domain di).
Proof.
  intros Hr Hd Ha.
  destruct (check_decompose W l ad)
    as [(o & evs & E & _ & Hno)|(d & v & r0 & evs0 & _ & _ & _ & E & _ & Hd0)];
    rewrite E in Hr |- *; cbn [fst snd] in Hr |- *.
  - destruct (Hno r di Hr Hd Ha).
  - injection Hr as ->. rewrite Hd0 in Hd. injection Hd as <-.
    cbn [di_domain]. unfold Spec.lists. rewrite upsert_spec. cbv zeta.
    destruct (existsb _ _) eqn:Ex; cbn [fst].
    + destruct (ad !! d) as [rec|]; [|discriminate Ex].
      exists rec. split; [reflexivity|exact Ex].
    + rewrite lookup_insert_eq. eexists. split; [reflexivity|].
      simpl. rewrite existsb_app. simpl. rewrite same_source_self.
      rewrite orb_true_r. reflexivity.
Qed.

(** What [process_article] returns is in the results map. *)
Lemma process_article_persisted (W : world) (article_url : string)
    (article_title : option string) (s : finder_state) (r : link_record) :
  let run := process_article W article_url article_title s in
  In r (fst (fst run)) ->
  Spec.recorded (results (snd (fst run))) r
  /\ lr_article_url r = Some article_url.
Proof.
  cbv zeta. unfold process_article.
  destruct (fetch_page W article_url) as [code soup|msg]; [|intros []].
  destruct (negb (code =? 200)); [intros []|].
  set (title := match article_title with
                | None | Some EmptyString => page_heading soup
                | Some t => t end).
  set (links := List.map (annotate title article_url)
                         (Extractor.extract_external_links soup)).
  destruct (run_checks W links (available_domains s)) as [[os ad'] ev1].
  pose proof (drain_files title article_url os (results s) []) as Hfiled.
  destruct (drain title article_url os (results s) []) as [[o res'] ev2].
  cbn [fst snd] in *. destruct o as [dead|e]; cbn [fst snd results];
    [|intros []].
  intros Hr.
  destruct (Hfiled dead eq_refl (fun r0 (H : In r0 []) => match H with end)
              r Hr) as (Hdead & _ & Hu & r' & _ & Hl & _).
  split; [|exact Hu].
  split; [exact Hdead|]. exists article_url. split; [exact Hu|].
  rewrite Hl. eexists. reflexivity.
Qed.

Lemma recorded_grows (s s' : finder_state) (r : link_record) :
  Spec.state_grows s s' ->
  Spec.recorded (results s) r -> Spec.recorded (results s') r.
Proof.
  intros [_ Hk] (Hd & u & Hu & Hs). split; [exact Hd|].
  exists u. split; [exact Hu|]. apply Hk. exact Hs.
Qed.

Lemma batch_loop_persisted (W : nat -> world) (progress_bar : bool) (n : nat)
    (pages : list page) :
  forall i s all_dead_links processed_count,
    let run := batch_loop W progress_bar n i pages s all_dead_links
                          processed_count in
    forall r, In r (fst (fst (fst run))) ->
      (In r all_dead_links /\ Spec.state_grows s (snd (fst run)))
      \/ (Spec.recorded (results (snd (fst run))) r
          /\ exists pg, In pg pages /\ lr_article_url r = Some (page_url pg)).
Proof.
  induction pages as [|pg rest IH]; intros i s dl pc; cbv zeta; intros r Hr.
  - left. split; [exact Hr|apply state_grows_refl].
  - simpl in Hr |- *.
    pose proof (process_article_persisted (W i) (page_url pg)
                  (Some (page_title pg)) s) as H1.
    pose proof (process_article_grows (W i) (page_url pg)
                  (Some (page_title pg)) s) as G1.
    destruct (process_article (W i) (page_url pg) (Some (page_title pg)) s)
      as [[dead s1] ev1]. cbn [fst snd] in H1, G1.
    specialize (IH (S i) s1 (dl ++ dead) (S pc)). cbv zeta in IH.
    pose proof (batch_loop_grows W progress_bar n rest (S i) s1
                  (dl ++ dead) (S pc)) as G2.
    destruct (batch_loop W progress_bar n (S i) rest s1 (dl ++ dead) (S pc))
      as [[res s2] ev2]. cbn [fst snd] in *.
    destruct (IH r Hr) as [[Hin G]|(R1 & pg' & Hpg & Hu)].
    + apply in_app_iff in Hin as [Hin|Hin].
      * left. split; [exact Hin|]. exact (state_grows_trans s s1 s2 G1 G2).
      * right. destruct (H1 r Hin) as (R1 & Hu).
        split; [exact (recorded_grows s1 s2 r G2 R1)|].
        exists pg. split; [left; reflexivity|exact Hu].
    + right. split; [exact R1|].
      exists pg'. split; [right; exact Hpg|exact Hu].
Qed.

End EndToEndFacts.

(** X26: when the article is retrieved, every link the extractor gives
    gets one HEAD request, and no other HEAD request is made: the HEAD
    requests of the call are, up to their order, those of the URLs of
    the extracted links. *)
Theorem X26_every_extracted_link_is_checked_once (W : world)
    (article_url : string) (article_title : option string)
    (s : finder_state) (soup : list node) :
  fetch_page W article_url = PageResponse 200 soup ->
  Permutation
    (Spec.head_requests
       (snd (Orchestrator.process_article W article_url article_title s)))
    (List.map (fun l => EvHead (link_url l))
              (Extractor.extract_external_links soup)).
Proof.
  intros Hf. rewrite (process_article_heads W article_url article_title s
                        soup Hf).
  reflexivity.
Qed.

Lemma X26_every_extracted_link_is_checked_once_witness :
  Permutation
    (Spec.head_requests
       (snd (Orchestrator.process_article Spec.dead_world
               "https://en.wikipedia.org/wiki/Sample" None Spec.empty_state)))
    (List.map (fun l => EvHead (link_url l))
              (Extractor.extract_external_links Spec.sample_page)).
Proof.
  refine (X26_every_extracted_link_is_checked_once Spec.dead_world
            "https://en.wikipedia.org/wiki/Sample" None Spec.empty_state
            Spec.sample_page _).
  reflexivity.
Defined.

(** X27: every dead link a batch returns is in the results map at the
    end of the batch: it is dead, it names the article of one of the
    pages processed, and the key made of its URL and the article URL is
    a key of the map. *)
Theorem X27_batch_results_are_recorded (W : nat -> world)
    (pages : list page) (max_pages : option Z) (progress_bar : bool)
    (s : finder_state) (r : link_record) :
  let run := Orchestrator.batch_process_articles W pages max_pages
                                                 progress_bar s in
  In r (fst (fst (fst run))) ->
  Spec.recorded (results (snd (fst run))) r
  /\ exists pg, In pg (Orchestrator.truncate max_pages pages)
                /\ lr_article_url r = Some (page_url pg).
Proof.
  cbv zeta. unfold Orchestrator.batch_process_articles. intros Hr.
  destruct (batch_loop_persisted W progress_bar _ _ O s [] O r Hr)
    as [[[] _]|(H1 & H3)].
  split; assumption.
Qed.

Lemma X27_batch_results_are_recorded_witness :
  let run := Orchestrator.batch_process_articles
               (fun _ => Spec.dead_world) Spec.sample_pages None false
               Spec.empty_state in
  Spec.recorded (results (snd (fst run))) Spec.sample_dead_record
  /\ exists pg, In pg (Orchestrator.truncate None Spec.sample_pages)
                /\ lr_article_url Spec.sample_dead_record
                   = Some (page_url pg).
Proof.
  refine (X27_batch_results_are_recorded (fun _ => Spec.dead_world)
            Spec.sample_pages None false Spec.empty_state
            Spec.sample_dead_record _).
  vm_compute. left. reflexivity.
Defined.

(** X28: a check that returns a result marked available leaves the
    link among the sources of the domain: the map it leaves has a record
    under the domain of the result, with a source that carries the URL
    of the link (the URL of the result) and the article URL the link
    came with. *)
Theorem X28_available_result_is_sourced (W : world) (l : link)
    (ad : gmap string domain_record) (r : link_record) (di : domain_info) :
  fst (fst (Checker.check_link_status W l ad)) = Returns r ->
  lr_domain r = Some di ->
  di_available di = true ->
  Spec.sourced l (snd (fst (Checker.check_link_status W l ad)))
               (di_domain di)
  /\ lr_url r = link_url l.
Proof.
  intros Hr Hd Ha. split; [|exact (check_url W l ad r Hr)].
  destruct (check_lists W l ad r di Hr Hd Ha) as (rec & Hrec & Hex).
  apply existsb_exists in Hex as (src & Hin & Hsame).
  unfold Checker.same_source in Hsame.
  apply andb_true_iff in Hsame as [S1 S2].
  apply bool_decide_eq_true in S1. apply bool_decide_eq_true in S2.
  exists rec, src. repeat split; assumption.
Qed.

Lemma X28_available_result_is_sourced_witness :
  Spec.sourced Spec.sample_link
    (snd (fst (Checker.check_link_status Spec.dead_world Spec.sample_link
                                         Spec.sample_store)))
    "gone.example.com"
  /\ lr_url Spec.sample_dead_record = link_url Spec.sample_link.
Proof.
  refine (X28_available_result_is_sourced Spec.dead_world Spec.sample_link
            Spec.sample_store
            {| lr_url := "http://gone.example.com/page";
               lr_text := "Gone";
               lr_status_code := StatusInt 404;
               lr_timestamp := 1000;
               lr_domain := Some {| di_domain := "gone.example.com";
                                    di_available := true;
                                    di_status := "No DNS record found";
                                    di_details := [] |};
               lr_article_title := None;
               lr_article_url := None |}
            {| di_domain := "gone.example.com"; di_available := true;
               di_status := "No DNS record found"; di_details := [] |}
            _ _ _).
  - vm_compute. reflexivity.
  - reflexivity.
  - reflexivity.
Defined.
